(** * kermit: configuration parser, key bindings, palette and tab life cycle

    A shallow embedding of [src/kermit.c].  The C globals become the fields
    of a record [World]; every C function that the properties below talk
    about becomes a function on that record.  Calls into libc and into the
    toolkit (GTK, VTE) are modelled by the small functions of the first two
    parts. *)

From Stdlib Require Import ZArith Ascii String Lia Bool.
From stdpp Require Import base option list strings.

Local Open Scope string_scope.
Local Open Scope Z_scope.

(** ** Part 1: the C library on strings

    A C string is a [string] holding no NUL character; where the model is
    handed a [string] that holds one, the text ends there, as it does in C
    ([cstr]). *)

Module Libc.

Definition code (c : ascii) : Z := Z.of_N (N_of_ascii c).

Definition NUL : ascii := "000"%char.

Fixpoint cstr (s : string) : string :=
  match s with
  | EmptyString => EmptyString
  | String c r => if Ascii.eqb c NUL then EmptyString else String c (cstr r)
  end.

Definition strlen (s : string) : Z := Z.of_nat (String.length s).

(** [size_t] arithmetic: [strlen(option) - 1] wraps around below zero. *)
Definition SIZE_MAX : Z := 2 ^ 64 - 1.
Definition size_sub (a b : Z) : Z := (a - b) mod (SIZE_MAX + 1).

Definition INT_MAX : Z := 2 ^ 31 - 1.
Definition LONG_MAX : Z := 2 ^ 63 - 1.
Definition LONG_MIN : Z := - 2 ^ 63.

(** The cast [(int)] of a [long]. *)
Definition to_int (v : Z) : Z := (v + 2 ^ 31) mod 2 ^ 32 - 2 ^ 31.

Definition isspace (c : ascii) : bool :=
  let n := code c in (n =? 32) || ((9 <=? n) && (n <=? 13)).

Definition tolower (c : ascii) : Z :=
  let n := code c in if (65 <=? n) && (n <=? 90) then n + 32 else n.

(** [strncmp s1 s2 n]: the difference of the first pair of characters that
    differ among the first [n], the end of a string counting as 0. *)
Fixpoint strncmp (s1 s2 : string) (n : Z) {struct s1} : Z :=
  if n <=? 0 then 0 else
  match s1, s2 with
  | EmptyString, EmptyString => 0
  | EmptyString, String c2 _ => 0 - code c2
  | String c1 _, EmptyString => code c1
  | String c1 r1, String c2 r2 =>
      if code c1 =? code c2 then strncmp r1 r2 (n - 1) else code c1 - code c2
  end.

Fixpoint strcmp (s1 s2 : string) : Z :=
  match s1, s2 with
  | EmptyString, EmptyString => 0
  | EmptyString, String c2 _ => 0 - code c2
  | String c1 _, EmptyString => code c1
  | String c1 r1, String c2 r2 =>
      if code c1 =? code c2 then strcmp r1 r2 else code c1 - code c2
  end.

Fixpoint strcasecmp (s1 s2 : string) : Z :=
  match s1, s2 with
  | EmptyString, EmptyString => 0
  | EmptyString, String c2 _ => 0 - tolower c2
  | String c1 _, EmptyString => tolower c1
  | String c1 r1, String c2 r2 =>
      if tolower c1 =? tolower c2 then strcasecmp r1 r2
      else tolower c1 - tolower c2
  end.

(** [strrchr s c]: the suffix of [s] that starts at the last [c], or NULL. *)
Fixpoint strrchr (s : string) (c : ascii) : option string :=
  match s with
  | EmptyString => None
  | String d r =>
      match strrchr r c with
      | Some t => Some t
      | None => if Ascii.eqb d c then Some s else None
      end
  end.

(** The text before the last [c] of [s]: what is left of the buffer [s]
    after [*strrchr(s, c) = 0]. *)
Fixpoint cut_last (s : string) (c : ascii) : string :=
  match s with
  | EmptyString => EmptyString
  | String d r =>
      match strrchr r c with
      | Some _ => String d (cut_last r c)
      | None => if Ascii.eqb d c then EmptyString else s
      end
  end.

(** [s] without its last character: the buffer after [s[strlen(s) - 1] = 0]. *)
Fixpoint drop_last (s : string) : string :=
  match s with
  | EmptyString => EmptyString
  | String c EmptyString => EmptyString
  | String c r => String c (drop_last r)
  end.

(** [s + 1] for a pointer [s] to a string that is followed by another NUL
    when it is empty (as it is at both uses in [parseSettings]). *)
Definition next_char (s : string) : string :=
  match s with
  | EmptyString => EmptyString
  | String _ r => r
  end.

(** *** strtol and atoi (glibc) *)

Definition digit_val (c : ascii) : option Z :=
  let n := code c in
  if (48 <=? n) && (n <=? 57) then Some (n - 48)
  else if (97 <=? n) && (n <=? 122) then Some (n - 87)
  else if (65 <=? n) && (n <=? 90) then Some (n - 55)
  else None.

Fixpoint skip_space (s : string) : string :=
  match s with
  | EmptyString => EmptyString
  | String c r => if isspace c then skip_space r else s
  end.

(** The value of the longest prefix of [s] made of digits of [base],
    starting from the accumulator [acc]. *)
Fixpoint digits (base : Z) (s : string) (acc : Z) : Z :=
  match s with
  | EmptyString => acc
  | String c r =>
      match digit_val c with
      | Some d => if d <? base then digits base r (acc * base + d) else acc
      | None => acc
      end
  end.

Definition is_digit_of (base : Z) (s : string) : bool :=
  match s with
  | String c _ =>
      match digit_val c with Some d => d <? base | None => false end
  | EmptyString => false
  end.

(** With base 16 a prefix [0x] or [0X] is skipped when a digit follows. *)
Definition skip_0x (base : Z) (s : string) : string :=
  match s with
  | String "0" (String x r) =>
      if (base =? 16) && ((code x =? 120) || (code x =? 88)) && is_digit_of 16 r
      then r else s
  | _ => s
  end.

Definition strtol (s : string) (base : Z) : Z :=
  let s1 := skip_space s in
  let '(neg, s2) :=
    match s1 with
    | String "-" r => (true, r)
    | String "+" r => (false, r)
    | _ => (false, s1)
    end in
  let v := digits base (skip_0x base s2) 0 in
  if neg then Z.max LONG_MIN (- v) else Z.min LONG_MAX v.

Definition atoi (s : string) : Z := to_int (strtol s 10).

(** *** sscanf, strtok and fgets, as far as [parseSettings] uses them *)

(** The longest prefix of non-space characters, and what follows it. *)
Fixpoint scan_nonspace (s : string) : string * string :=
  match s with
  | EmptyString => (EmptyString, EmptyString)
  | String c r =>
      if isspace c then (EmptyString, s)
      else let '(t, u) := scan_nonspace r in (String c t, u)
  end.

(** The conversion [%s]: white space is skipped, then at least one
    character is read. *)
Definition scan_s (s : string) : option (string * string) :=
  match scan_nonspace (skip_space s) with
  | (EmptyString, _) => None
  | (t, u) => Some (t, u)
  end.

(** The longest prefix without the character [c], and what follows it. *)
Fixpoint span_not (c : ascii) (s : string) : string * string :=
  match s with
  | EmptyString => (EmptyString, EmptyString)
  | String d r =>
      if Ascii.eqb d c then (EmptyString, s)
      else let '(t, u) := span_not c r in (String d t, u)
  end.

Definition LF : ascii := "010"%char.
Definition CR : ascii := "013"%char.

(** The conversion [%[^\n]]: no white space is skipped, at least one
    character is read. *)
Definition scan_line (s : string) : option (string * string) :=
  match span_not LF s with
  | (EmptyString, _) => None
  | (t, u) => Some (t, u)
  end.

(** [sscanf(buf, "%s %s\n", option, value)]: the buffers after the call, a
    buffer that is not assigned keeping what it held ([None]: nothing yet). *)
Definition sscanf_s_s (buf : string) (opt val : option string)
  : option string * option string :=
  match scan_s buf with
  | None => (opt, val)
  | Some (o, r) =>
      match scan_s (skip_space r) with
      | None => (Some o, val)
      | Some (v, _) => (Some o, Some v)
      end
  end.

(** [sscanf(buf, "%s %[^\n]\n", option, value)]. *)
Definition sscanf_s_line (buf : string) (opt val : option string)
  : option string * option string :=
  match scan_s buf with
  | None => (opt, val)
  | Some (o, r) =>
      match scan_line (skip_space r) with
      | None => (Some o, val)
      | Some (v, _) => (Some o, Some v)
      end
  end.

Fixpoint skip_char (c : ascii) (s : string) : string :=
  match s with
  | EmptyString => EmptyString
  | String d r => if Ascii.eqb d c then skip_char c r else s
  end.

(** The part of [s] that [skip_char] skips. *)
Fixpoint leading (c : ascii) (s : string) : string :=
  match s with
  | EmptyString => EmptyString
  | String d r => if Ascii.eqb d c then String d (leading c r) else EmptyString
  end.

(** [key = strtok(value, "~")], then [cmd = strtok(NULL, empty)]: the two tokens
    (NULL is [None]) and the text of the buffer [value] afterwards, which
    ends at the NUL that [strtok] wrote over the separator. *)
Definition strtok2 (sep : ascii) (value : string)
  : option string * option string * string :=
  match span_not sep (skip_char sep value) with
  | (EmptyString, _) => (None, None, value)
  | (key, EmptyString) => (Some key, None, value)
  | (key, String _ EmptyString) => (Some key, None, leading sep value +:+ key)
  | (key, String _ rest) => (Some key, Some rest, leading sep value +:+ key)
  end.

(** [fgets(buf, n, stream)] on the unread part of the stream: the text of
    [buf] and the part still unread; [None] at the end of the file.  At
    most [n - 1] characters are read, a line feed ending the read. *)
Fixpoint read_line (k : nat) (stream : string) : string * string :=
  match k, stream with
  | O, _ => (EmptyString, stream)
  | _, EmptyString => (EmptyString, EmptyString)
  | S k', String c r =>
      if Ascii.eqb c LF then (String c EmptyString, r)
      else let '(t, u) := read_line k' r in (String c t, u)
  end.

Definition fgets (n : Z) (stream : string) : option (string * string) :=
  match stream with
  | EmptyString => None
  | _ => let '(t, u) := read_line (Z.to_nat (n - 1)) stream in Some (cstr t, u)
  end.

End Libc.

Import Libc.

(** ** Part 2: the toolkit and the data of the program *)

(** *** GDK, VTE and the GTK notebook *)

Definition GDK_SHIFT_MASK : Z := 1.
Definition GDK_CONTROL_MASK : Z := 4.
Definition GDK_MOD1_MASK : Z := 8.

Inductive VteCursorShape : Set :=
  | VTE_CURSOR_SHAPE_BLOCK
  | VTE_CURSOR_SHAPE_IBEAM
  | VTE_CURSOR_SHAPE_UNDERLINE.

(** A [double] that the program computes as the quotient of two integers
    is kept as that quotient: [num / den] stands for the double nearest to
    it, and no floating point arithmetic is done in the model. *)
Record quot : Set := { num : Z; den : Z }.

Record GdkRGBA : Set :=
  { red : quot; green : quot; blue : quot; alpha : quot }.

Definition CLR_R (x : Z) : Z := Z.shiftr (Z.land x 0xff0000) 16.
Definition CLR_G (x : Z) : Z := Z.shiftr (Z.land x 0x00ff00) 8.
Definition CLR_B (x : Z) : Z := Z.shiftr (Z.land x 0x0000ff) 0.
Definition CLR_16 (x : Z) : quot := {| num := x; den := 0xff |}.
Definition zero : quot := {| num := 0; den := 1 |}.

(** A terminal widget, known by the order in which it was created. *)
Record Terminal : Set := { tid : nat }.

(** The pages of the notebook and the index of the current page ([-1]
    when there is none). *)
Record Notebook : Set := { pages : list Terminal; current : Z }.

Definition gtk_notebook_get_n_pages (nb : Notebook) : Z :=
  Z.of_nat (length (pages nb)).

Definition gtk_notebook_get_current_page (nb : Notebook) : Z := current nb.

(** A negative [page_num] removes the last page and one past the end
    removes nothing.  When the current page goes, the page before it
    becomes current, or the page after it when it was the first. *)
Definition gtk_notebook_remove_page (nb : Notebook) (page_num : Z) : Notebook :=
  let n := gtk_notebook_get_n_pages nb in
  let k := if page_num <? 0 then n - 1 else page_num in
  if (0 <=? k) && (k <? n) then
    {| pages := delete (Z.to_nat k) (pages nb);
       current :=
         if n =? 1 then -1
         else if k <? current nb then current nb - 1
         else if k =? current nb then Z.max 0 (k - 1)
         else current nb |}
  else nb.

(** A negative [page_num] selects the last page and one past the end
    changes nothing. *)
Definition gtk_notebook_set_current_page (nb : Notebook) (page_num : Z) : Notebook :=
  let n := gtk_notebook_get_n_pages nb in
  if page_num <? 0 then {| pages := pages nb; current := n - 1 |}
  else if page_num <? n then {| pages := pages nb; current := page_num |}
  else nb.

Definition gtk_notebook_next_page (nb : Notebook) : Notebook :=
  if current nb + 1 <? gtk_notebook_get_n_pages nb
  then {| pages := pages nb; current := current nb + 1 |} else nb.

Definition gtk_notebook_prev_page (nb : Notebook) : Notebook :=
  if 0 <? current nb
  then {| pages := pages nb; current := current nb - 1 |} else nb.

(** Appending raises [page-added], which [termTabOnAdd] answers by making
    the new page the current one. *)
Definition gtk_notebook_append_page (nb : Notebook) (t : Terminal) : Notebook :=
  {| pages := pages nb ++ [t]; current := gtk_notebook_get_n_pages nb |}.

(** The key event as the program reads it: the modifier bits and the name
    of the key symbol, [gdk_keyval_name(event->keyval)]. *)
Record GdkEventKey : Set := { state : Z; keyval_name : string }.

(** Calls that leave the program: clipboard, the input of the child, a new
    process. *)
Inductive Call : Set :=
  | vte_terminal_copy_clipboard_format (t : Terminal)
  | vte_terminal_paste_clipboard (t : Terminal)
  | vte_terminal_feed_child (t : Terminal) (text : string)
  | vte_terminal_spawn_async (t : Terminal)
  | execvp_clone (t : Terminal).

(** The lines [printLog] writes, by the place that writes them. *)
Inductive LogMsg : Set :=
  | LogConfigNotFound (name : string)
  | LogCmd (n : Z) (key cmd : string)
  | LogReloading
  | LogLoadingDefault
  | LogShell
  | LogCommand (c : string)
  | LogWorkdir.

(** *** The globals of kermit.c *)

Record Bindings : Set := { internal : bool; key : string; cmd : string }.

Record DefaultBindings : Set := { bind : Bindings; invalid : bool }.

Definition default_binding (k c : string) : DefaultBindings :=
  {| bind := {| internal := true; key := k; cmd := c |}; invalid := false |}.

(** The table as the program starts with it. *)
Definition defaultKeyBindings0 : list DefaultBindings :=
  [ default_binding "c" "copy";
    default_binding "v" "paste";
    default_binding "t" "new-tab";
    default_binding "n" "new-window";
    default_binding "return" "new-tab";
    default_binding "r" "reload-config";
    default_binding "d" "default-config";
    default_binding "q" "exit";
    default_binding "k" "inc-font-size";
    default_binding "up" "inc-font-size";
    default_binding "j" "dec-font-size";
    default_binding "down" "dec-font-size";
    default_binding "equals" "default-font-size";
    default_binding "plus" "default-font-size";
    default_binding "l" "next-tab";
    default_binding "right" "next-tab";
    default_binding "page_down" "next-tab";
    default_binding "h" "prev-tab";
    default_binding "left" "prev-tab";
    default_binding "page_up" "prev-tab";
    default_binding "w" "close-tab";
    default_binding "backspace" "close-tab" ].

(** The settings that [parseSettings] reads from the file.  [termOpacity]
    holds the text whose [atof] the program stores. *)
Record Settings : Set :=
  { termLocale : string;
    termWordChars : string;
    termFont : string;
    defaultFontSize : Z;
    termOpacity : string;
    termBackground : Z;
    termForeground : Z;
    termBoldColor : Z;
    termCursorColor : Z;
    termCursorFg : Z;
    termCursorShape : VteCursorShape;
    actionKey : Z;
    tabPosition : Z }.

(** All the state of the program.  [keyBindings] and [termPalette] are
    the arrays, whole; [running] is false once [gtk_main_quit] was called. *)
Record World : Set :=
  { settings : Settings;
    keyCount : Z;
    keyBindings : list Bindings;
    defaultKeyBindings : list DefaultBindings;
    colorCount : Z;
    termPalette : list GdkRGBA;
    configFileName : option string;
    defaultConfigFile : bool;
    debugMessages : bool;
    termCommand : option string;
    closeTab : bool;
    currentFontSize : Z;
    keyState : Z;
    notebook : Notebook;
    running : bool;
    spawned : nat;
    stderr : list LogMsg;
    calls : list Call }.

Definition set_termLocale (v : string) (r : Settings) : Settings :=
  Build_Settings v (termWordChars r) (termFont r) (defaultFontSize r)
    (termOpacity r) (termBackground r) (termForeground r) (termBoldColor r)
    (termCursorColor r) (termCursorFg r) (termCursorShape r) (actionKey r)
    (tabPosition r).
Definition set_termWordChars (v : string) (r : Settings) : Settings :=
  Build_Settings (termLocale r) v (termFont r) (defaultFontSize r)
    (termOpacity r) (termBackground r) (termForeground r) (termBoldColor r)
    (termCursorColor r) (termCursorFg r) (termCursorShape r) (actionKey r)
    (tabPosition r).
Definition set_termFont (v : string) (r : Settings) : Settings :=
  Build_Settings (termLocale r) (termWordChars r) v (defaultFontSize r)
    (termOpacity r) (termBackground r) (termForeground r) (termBoldColor r)
    (termCursorColor r) (termCursorFg r) (termCursorShape r) (actionKey r)
    (tabPosition r).
Definition set_defaultFontSize (v : Z) (r : Settings) : Settings :=
  Build_Settings (termLocale r) (termWordChars r) (termFont r) v
    (termOpacity r) (termBackground r) (termForeground r) (termBoldColor r)
    (termCursorColor r) (termCursorFg r) (termCursorShape r) (actionKey r)
    (tabPosition r).
Definition set_termOpacity (v : string) (r : Settings) : Settings :=
  Build_Settings (termLocale r) (termWordChars r) (termFont r)
    (defaultFontSize r) v (termBackground r) (termForeground r) (termBoldColor
    r) (termCursorColor r) (termCursorFg r) (termCursorShape r) (actionKey r)
    (tabPosition r).
Definition set_termBackground (v : Z) (r : Settings) : Settings :=
  Build_Settings (termLocale r) (termWordChars r) (termFont r)
    (defaultFontSize r) (termOpacity r) v (termForeground r) (termBoldColor r)
    (termCursorColor r) (termCursorFg r) (termCursorShape r) (actionKey r)
    (tabPosition r).
Definition set_termForeground (v : Z) (r : Settings) : Settings :=
  Build_Settings (termLocale r) (termWordChars r) (termFont r)
    (defaultFontSize r) (termOpacity r) (termBackground r) v (termBoldColor r)
    (termCursorColor r) (termCursorFg r) (termCursorShape r) (actionKey r)
    (tabPosition r).
Definition set_termBoldColor (v : Z) (r : Settings) : Settings :=
  Build_Settings (termLocale r) (termWordChars r) (termFont r)
    (defaultFontSize r) (termOpacity r) (termBackground r) (termForeground r)
    v (termCursorColor r) (termCursorFg r) (termCursorShape r) (actionKey r)
    (tabPosition r).
Definition set_termCursorColor (v : Z) (r : Settings) : Settings :=
  Build_Settings (termLocale r) (termWordChars r) (termFont r)
    (defaultFontSize r) (termOpacity r) (termBackground r) (termForeground r)
    (termBoldColor r) v (termCursorFg r) (termCursorShape r) (actionKey r)
    (tabPosition r).
Definition set_termCursorFg (v : Z) (r : Settings) : Settings :=
  Build_Settings (termLocale r) (termWordChars r) (termFont r)
    (defaultFontSize r) (termOpacity r) (termBackground r) (termForeground r)
    (termBoldColor r) (termCursorColor r) v (termCursorShape r) (actionKey r)
    (tabPosition r).
Definition set_termCursorShape (v : VteCursorShape) (r : Settings) : Settings :=
  Build_Settings (termLocale r) (termWordChars r) (termFont r)
    (defaultFontSize r) (termOpacity r) (termBackground r) (termForeground r)
    (termBoldColor r) (termCursorColor r) (termCursorFg r) v (actionKey r)
    (tabPosition r).
Definition set_actionKey (v : Z) (r : Settings) : Settings :=
  Build_Settings (termLocale r) (termWordChars r) (termFont r)
    (defaultFontSize r) (termOpacity r) (termBackground r) (termForeground r)
    (termBoldColor r) (termCursorColor r) (termCursorFg r) (termCursorShape r)
    v (tabPosition r).
Definition set_tabPosition (v : Z) (r : Settings) : Settings :=
  Build_Settings (termLocale r) (termWordChars r) (termFont r)
    (defaultFontSize r) (termOpacity r) (termBackground r) (termForeground r)
    (termBoldColor r) (termCursorColor r) (termCursorFg r) (termCursorShape r)
    (actionKey r) v.

Definition set_settings (v : Settings) (r : World) : World :=
  Build_World v (keyCount r) (keyBindings r) (defaultKeyBindings r)
    (colorCount r) (termPalette r) (configFileName r) (defaultConfigFile r)
    (debugMessages r) (termCommand r) (closeTab r) (currentFontSize r)
    (keyState r) (notebook r) (running r) (spawned r) (stderr r) (calls r).
Definition set_keyCount (v : Z) (r : World) : World :=
  Build_World (settings r) v (keyBindings r) (defaultKeyBindings r)
    (colorCount r) (termPalette r) (configFileName r) (defaultConfigFile r)
    (debugMessages r) (termCommand r) (closeTab r) (currentFontSize r)
    (keyState r) (notebook r) (running r) (spawned r) (stderr r) (calls r).
Definition set_keyBindings (v : list Bindings) (r : World) : World :=
  Build_World (settings r) (keyCount r) v (defaultKeyBindings r) (colorCount
    r) (termPalette r) (configFileName r) (defaultConfigFile r) (debugMessages
    r) (termCommand r) (closeTab r) (currentFontSize r) (keyState r) (notebook
    r) (running r) (spawned r) (stderr r) (calls r).
Definition set_defaultKeyBindings (v : list DefaultBindings) (r : World) : World :=
  Build_World (settings r) (keyCount r) (keyBindings r) v (colorCount r)
    (termPalette r) (configFileName r) (defaultConfigFile r) (debugMessages r)
    (termCommand r) (closeTab r) (currentFontSize r) (keyState r) (notebook r)
    (running r) (spawned r) (stderr r) (calls r).
Definition set_colorCount (v : Z) (r : World) : World :=
  Build_World (settings r) (keyCount r) (keyBindings r) (defaultKeyBindings
    r) v (termPalette r) (configFileName r) (defaultConfigFile r)
    (debugMessages r) (termCommand r) (closeTab r) (currentFontSize r)
    (keyState r) (notebook r) (running r) (spawned r) (stderr r) (calls r).
Definition set_termPalette (v : list GdkRGBA) (r : World) : World :=
  Build_World (settings r) (keyCount r) (keyBindings r) (defaultKeyBindings
    r) (colorCount r) v (configFileName r) (defaultConfigFile r)
    (debugMessages r) (termCommand r) (closeTab r) (currentFontSize r)
    (keyState r) (notebook r) (running r) (spawned r) (stderr r) (calls r).
Definition set_configFileName (v : option string) (r : World) : World :=
  Build_World (settings r) (keyCount r) (keyBindings r) (defaultKeyBindings
    r) (colorCount r) (termPalette r) v (defaultConfigFile r) (debugMessages
    r) (termCommand r) (closeTab r) (currentFontSize r) (keyState r) (notebook
    r) (running r) (spawned r) (stderr r) (calls r).
Definition set_defaultConfigFile (v : bool) (r : World) : World :=
  Build_World (settings r) (keyCount r) (keyBindings r) (defaultKeyBindings
    r) (colorCount r) (termPalette r) (configFileName r) v (debugMessages r)
    (termCommand r) (closeTab r) (currentFontSize r) (keyState r) (notebook r)
    (running r) (spawned r) (stderr r) (calls r).
Definition set_closeTab (v : bool) (r : World) : World :=
  Build_World (settings r) (keyCount r) (keyBindings r) (defaultKeyBindings
    r) (colorCount r) (termPalette r) (configFileName r) (defaultConfigFile r)
    (debugMessages r) (termCommand r) v (currentFontSize r) (keyState r)
    (notebook r) (running r) (spawned r) (stderr r) (calls r).
Definition set_currentFontSize (v : Z) (r : World) : World :=
  Build_World (settings r) (keyCount r) (keyBindings r) (defaultKeyBindings
    r) (colorCount r) (termPalette r) (configFileName r) (defaultConfigFile r)
    (debugMessages r) (termCommand r) (closeTab r) v (keyState r) (notebook r)
    (running r) (spawned r) (stderr r) (calls r).
Definition set_keyState (v : Z) (r : World) : World :=
  Build_World (settings r) (keyCount r) (keyBindings r) (defaultKeyBindings
    r) (colorCount r) (termPalette r) (configFileName r) (defaultConfigFile r)
    (debugMessages r) (termCommand r) (closeTab r) (currentFontSize r) v
    (notebook r) (running r) (spawned r) (stderr r) (calls r).
Definition set_notebook (v : Notebook) (r : World) : World :=
  Build_World (settings r) (keyCount r) (keyBindings r) (defaultKeyBindings
    r) (colorCount r) (termPalette r) (configFileName r) (defaultConfigFile r)
    (debugMessages r) (termCommand r) (closeTab r) (currentFontSize r)
    (keyState r) v (running r) (spawned r) (stderr r) (calls r).
Definition set_running (v : bool) (r : World) : World :=
  Build_World (settings r) (keyCount r) (keyBindings r) (defaultKeyBindings
    r) (colorCount r) (termPalette r) (configFileName r) (defaultConfigFile r)
    (debugMessages r) (termCommand r) (closeTab r) (currentFontSize r)
    (keyState r) (notebook r) v (spawned r) (stderr r) (calls r).
Definition set_spawned (v : nat) (r : World) : World :=
  Build_World (settings r) (keyCount r) (keyBindings r) (defaultKeyBindings
    r) (colorCount r) (termPalette r) (configFileName r) (defaultConfigFile r)
    (debugMessages r) (termCommand r) (closeTab r) (currentFontSize r)
    (keyState r) (notebook r) (running r) v (stderr r) (calls r).
Definition set_stderr (v : list LogMsg) (r : World) : World :=
  Build_World (settings r) (keyCount r) (keyBindings r) (defaultKeyBindings
    r) (colorCount r) (termPalette r) (configFileName r) (defaultConfigFile r)
    (debugMessages r) (termCommand r) (closeTab r) (currentFontSize r)
    (keyState r) (notebook r) (running r) (spawned r) v (calls r).
Definition set_calls (v : list Call) (r : World) : World :=
  Build_World (settings r) (keyCount r) (keyBindings r) (defaultKeyBindings
    r) (colorCount r) (termPalette r) (configFileName r) (defaultConfigFile r)
    (debugMessages r) (termCommand r) (closeTab r) (currentFontSize r)
    (keyState r) (notebook r) (running r) (spawned r) (stderr r) v.

(** What the program finds outside: the home directory and the files. *)
Record Env : Type := { HOME : string; fopen : string -> option string }.

(** The constants of kermit.h that the functions below use. *)
Record Header : Set :=
  { TERM_NAME : string;
    TERM_CONFIG_DIR : string;
    TERM_CONFIG_LENGTH : Z;
    TERM_PALETTE_SIZE : Z;
    TERM_FONT : string;
    TERM_FONT_DEFAULT_SIZE : Z;
    TERM_LOCALE : string;
    TERM_WORD_CHARS : string;
    TERM_OPACITY : string;
    TERM_BACKGROUND : Z;
    TERM_FOREGROUND : Z;
    TERM_BOLD_COLOR : Z;
    TERM_CURSOR_COLOR : Z;
    TERM_CURSOR_FG : Z }.


(** *** The globals at the start *)

(** The built-in settings: the initialisers of the globals. *)
Definition defaults (hdr : Header) : Settings :=
  {| termLocale := TERM_LOCALE hdr;
     termWordChars := TERM_WORD_CHARS hdr;
     termFont := TERM_FONT hdr;
     defaultFontSize := TERM_FONT_DEFAULT_SIZE hdr;
     termOpacity := TERM_OPACITY hdr;
     termBackground := TERM_BACKGROUND hdr;
     termForeground := TERM_FOREGROUND hdr;
     termBoldColor := TERM_BOLD_COLOR hdr;
     termCursorColor := TERM_CURSOR_COLOR hdr;
     termCursorFg := TERM_CURSOR_FG hdr;
     termCursorShape := VTE_CURSOR_SHAPE_BLOCK;
     actionKey := GDK_MOD1_MASK;
     tabPosition := 0 |}.

(** An entry of [keyBindings] that was never written (two NULL pointers
    in C; the program reads the entries below [keyCount] only). *)
Definition null_binding : Bindings :=
  {| internal := false; key := EmptyString; cmd := EmptyString |}.

(** An entry of the static array [termPalette] at the start: zeros. *)
Definition null_color : GdkRGBA :=
  {| red := zero; green := zero; blue := zero; alpha := zero |}.

(** The globals when [main] starts, after [parseArgs] set [configFileName]
    (option -c) and [debugMessages] (option -d). *)
Definition startup (hdr : Header) (config : option string) (debug : bool) : World :=
  {| settings := defaults hdr;
     keyCount := 0;
     keyBindings := replicate (Z.to_nat (TERM_CONFIG_LENGTH hdr)) null_binding;
     defaultKeyBindings := defaultKeyBindings0;
     colorCount := 0;
     termPalette := replicate (Z.to_nat (TERM_PALETTE_SIZE hdr)) null_color;
     configFileName := config;
     defaultConfigFile := true;
     debugMessages := debug;
     termCommand := None;
     closeTab := false;
     currentFontSize := 0;
     keyState := 0;
     notebook := {| pages := []; current := -1 |};
     running := true;
     spawned := 0;
     stderr := [];
     calls := [] |}.

(** ** Part 3: the functions of kermit.c

    A function returns [None] where the C program has no defined result:
    a buffer read before it was written, an index outside its array, an
    [int] that overflows, a loop that does not end. *)

Section Kermit.

Variable hdr : Header.

Definition printLog (m : LogMsg) (w : World) : World :=
  if debugMessages w then set_stderr (stderr w ++ [m]) w else w.

Definition call (c : Call) (w : World) : World := set_calls (calls w ++ [c]) w.

Definition with_settings (f : Settings -> Settings) (w : World) : World :=
  set_settings (f (settings w)) w.

(** [pango_font_description_from_string] returns a description for every
    string, so the size is always taken. *)
Definition setTermFont (terminal : Terminal) (fontSize : Z) (w : World) : World :=
  set_currentFontSize fontSize w.

(** *** setTermColors *)

Definition ansi (i bit : Z) : quot :=
  {| num := (if Z.land i bit =? 0 then 0 else 0xc000) + (if 7 <? i then 0x3fff else 0);
     den := 65535 |}.

Definition cube (c : Z) : quot :=
  {| num := (if c =? 0 then 0 else c * 40 + 55); den := 255 |}.

(** The body of the loop: the entry written at index [i] ([old] is what
    the array held there). *)
Definition paletteColor (i : Z) (old : GdkRGBA) : GdkRGBA :=
  if i <? 16 then
    {| red := ansi i 1; green := ansi i 2; blue := ansi i 4; alpha := zero |}
  else if i <? 232 then
    let j := i - 16 in
    let r := j / 36 in
    let g := (j / 6) mod 6 in
    let b := j mod 6 in
    {| red := cube r; green := cube g; blue := cube b; alpha := zero |}
  else if i <? 256 then
    let shade := 8 + (i - 232) * 10 in
    let c := {| num := Z.lor shade (Z.shiftl shade 8); den := 65535 |} in
    {| red := c; green := c; blue := c; alpha := zero |}
  else old.

(** [n] turns of [for (...; i < 256; i++)], from [i] on. *)
Fixpoint setTermColors_loop (n : nat) (i : Z) (p : list GdkRGBA)
  : option (list GdkRGBA) :=
  match n with
  | O => Some p
  | S n' =>
      old ← (if 0 <=? i then p !! Z.to_nat i else None);
      setTermColors_loop n' (i + 1) (<[Z.to_nat i := paletteColor i old]> p)
  end.

Definition setTermColors (terminal : Terminal) (w : World) : option World :=
  p ← setTermColors_loop (Z.to_nat (256 - colorCount w)) (colorCount w) (termPalette w);
  Some (set_termPalette p w).

(** The calls that only style the widget are left out. *)
Definition configureTerm (terminal : Terminal) (w : World) : option World :=
  w ← setTermColors terminal w;
  Some (setTermFont terminal (defaultFontSize (settings w)) w).

Definition getTerm (w : World) : option (Terminal * World) :=
  let terminal := {| tid := spawned w |} in
  let w := set_spawned (S (spawned w)) w in
  w ← configureTerm terminal w;
  let w := printLog LogShell w in
  let w := match termCommand w with
           | Some c => printLog (LogCommand c) w
           | None => w
           end in
  let w := printLog LogWorkdir w in
  Some (terminal, call (vte_terminal_spawn_async terminal) w).

(** [g_strdup] copies the text up to the first NUL. *)
Definition g_strdup (s : string) : string := cstr s.

(** *** invalidateDefaultBinding *)

Definition same_action (d : DefaultBindings) (binding : Bindings) : bool :=
  (strcmp (cmd (bind d)) (cmd binding) =? 0)
  && Bool.eqb (internal (bind d)) (internal binding).

Definition invalidateDefaultBinding (binding : Bindings)
    (defaults : list DefaultBindings) : list DefaultBindings :=
  map (fun d => if same_action d binding
                then {| bind := bind d; invalid := true |} else d) defaults.

(** *** parseColor

    The value and the text of the buffer [value] after the call. *)
Definition parseColor (value : string) : Z * string :=
  let value :=
    match value with
    | String "#" rest => "0x" +:+ rest
    | _ => value
    end in
  (to_int (strtol value 16), value).

(** *** parseSettings *)

(** The tests of the [if ... else if] chain on [option], in their order:
    [option_is option lit k] is [!strncmp(option, lit, strlen(option) - k)]. *)
Definition option_is (option lit : string) (k : Z) : bool :=
  strncmp option lit (size_sub (strlen option) k) =? 0.

Inductive directive : Set :=
  | DLocale | DChar | DKey | DBind | DTab | DFont | DOpacity | DCursor
  | DCursorForeground | DCursorShape | DForeground | DForegroundBold
  | DBackground | DColor | DNone.

Definition directive_of (option : string) : directive :=
  if option_is option "locale" 0 then DLocale
  else if option_is option "char" 0 then DChar
  else if option_is option "key" 0 then DKey
  else if option_is option "bind" 1 then DBind
  else if option_is option "tab" 0 then DTab
  else if option_is option "font" 0 then DFont
  else if option_is option "opacity" 0 then DOpacity
  else if option_is option "cursor" 0 then DCursor
  else if option_is option "cursor_foreground" 0 then DCursorForeground
  else if option_is option "cursor_shape" 0 then DCursorShape
  else if option_is option "foreground" 0 then DForeground
  else if option_is option "foreground_bold" 0 then DForegroundBold
  else if option_is option "background" 0 then DBackground
  else if option_is option "color" 2 then DColor
  else DNone.

(** The globals with the local buffers [option] and [value] of
    [parseSettings] ([None]: not written yet). *)
Record Parser : Set :=
  { world : World; opt : option string; val : option string }.

Definition starts_with (c : ascii) (s : string) : bool :=
  match s with
  | String d _ => Ascii.eqb d c
  | EmptyString => false
  end.

(** One turn of the [while (fgets(...))] loop, on the line [buf]. *)
Definition parseLine (buf : string) (p : Parser) : option Parser :=
  if starts_with "#" buf || (strlen buf <? 4) then Some p else
  let '(o, v) := sscanf_s_s buf (opt p) (val p) in
  let w := world p in
  option ← o;
  let color (set : Z -> Settings -> Settings) :=
    value ← v;
    let '(c, value) := parseColor value in
    Some {| world := with_settings (set c) w; opt := o; val := Some value |} in
  match directive_of option with
  | DLocale =>
      value ← v;
      Some {| world := with_settings (set_termLocale (g_strdup value)) w;
              opt := o; val := v |}
  | DChar =>
      value ← v;
      let wordChars := g_strdup value in
      if strlen wordChars =? 0 then None else
      Some {| world := with_settings (set_termWordChars (next_char (drop_last wordChars))) w;
              opt := o; val := v |}
  | DKey =>
      value ← v;
      let k := if strncmp value "alt" (strlen value) =? 0
               then GDK_MOD1_MASK else GDK_SHIFT_MASK in
      Some {| world := with_settings (set_actionKey k) w; opt := o; val := v |}
  | DBind =>
      let '(o, v) := sscanf_s_line buf o v in
      option ← o;
      value ← v;
      match strtok2 "~" value with
      | (Some key, Some cmd, value) =>
          let cmd := drop_last cmd in
          let cmd := if strcmp option "bindx" =? 0
                     then g_strdup (next_char cmd) +:+ String CR EmptyString
                     else g_strdup (next_char cmd) in
          let key := g_strdup key in
          let binding :=
            {| internal := (strcmp option "bindi" =? 0); key := key; cmd := cmd |} in
          if (0 <=? keyCount w) && (keyCount w <? Z.of_nat (length (keyBindings w))) then
            let w := set_keyBindings (<[Z.to_nat (keyCount w) := binding]> (keyBindings w)) w in
            let w := printLog (LogCmd (keyCount w + 1) key cmd) w in
            let w := set_defaultKeyBindings
                       (invalidateDefaultBinding binding (defaultKeyBindings w)) w in
            let w := set_keyCount (keyCount w + 1) w in
            Some {| world := w; opt := o; val := Some value |}
          else None
      | (_, _, value) => Some {| world := w; opt := o; val := Some value |}
      end
  | DTab =>
      value ← v;
      let t := if strncmp value "bottom" (strlen value) =? 0 then 0 else 1 in
      Some {| world := with_settings (set_tabPosition t) w; opt := o; val := v |}
  | DFont =>
      let '(o, v) := sscanf_s_line buf o v in
      value ← v;
      match strrchr value " " with
      | Some fontSize =>
          let w := with_settings (set_defaultFontSize (atoi (next_char fontSize))) w in
          let value := cut_last value " " in
          Some {| world := with_settings (set_termFont (g_strdup value)) w;
                  opt := o; val := Some value |}
      | None => Some {| world := w; opt := o; val := v |}
      end
  | DOpacity =>
      value ← v;
      Some {| world := with_settings (set_termOpacity value) w; opt := o; val := v |}
  | DCursor => color set_termCursorColor
  | DCursorForeground => color set_termCursorFg
  | DCursorShape =>
      value ← v;
      let s := if strncmp value "underline" (strlen value) =? 0
               then VTE_CURSOR_SHAPE_UNDERLINE
               else if strncmp value "ibeam" (strlen value) =? 0
               then VTE_CURSOR_SHAPE_IBEAM
               else VTE_CURSOR_SHAPE_BLOCK in
      Some {| world := with_settings (set_termCursorShape s) w; opt := o; val := v |}
  | DForeground => color set_termForeground
  | DForegroundBold => color set_termBoldColor
  | DBackground => color set_termBackground
  | DColor =>
      match strrchr option "r" with
      | Some colorIndex =>
          value ← v;
          (* CLR_GDK(parseColor(value), 0) expands to three calls *)
          let '(r, value) := parseColor value in
          let '(g, value) := parseColor value in
          let '(b, value) := parseColor value in
          let i := atoi (next_char colorIndex) in
          if (0 <=? i) && (i <? Z.of_nat (length (termPalette w)))
             && (colorCount w <? INT_MAX) then
            let c := {| red := CLR_16 (CLR_R r); green := CLR_16 (CLR_G g);
                        blue := CLR_16 (CLR_B b); alpha := zero |} in
            let w := set_termPalette (<[Z.to_nat i := c]> (termPalette w)) w in
            let w := set_colorCount (colorCount w + 1) w in
            Some {| world := w; opt := o; val := Some value |}
          else None
      | None => Some {| world := w; opt := o; val := v |}
      end
  | DNone => Some {| world := w; opt := o; val := v |}
  end.

(** The loop, on the unread part of the file.  [fuel] bounds the number
    of turns; the length of the unread part is enough when the buffer
    holds at least one character (see [parseLoop_fuel]). *)
Fixpoint parseLoop (fuel : nat) (stream : string) (p : Parser) : option Parser :=
  match fgets (TERM_CONFIG_LENGTH hdr) stream with
  | None => Some p
  | Some (buf, rest) =>
      match fuel with
      | O => None
      | S fuel' => p ← parseLine buf p; parseLoop fuel' rest p
      end
  end.

(** [g_free(configFileName)] at the end leaves the pointer as it is; it
    is set again before the next read. *)
Definition parseSettings (env : Env) (w : World) : option World :=
  let w :=
    match configFileName w with
    | None =>
        set_configFileName
          (Some (HOME env +:+ TERM_CONFIG_DIR hdr +:+ TERM_NAME hdr +:+ ".conf")) w
    | Some _ => set_defaultConfigFile false w
    end in
  name ← configFileName w;
  match fopen env name with
  | None => Some (printLog (LogConfigNotFound name) w)
  | Some configFile =>
      let w := set_keyCount 0 w in
      p ← parseLoop (String.length configFile) configFile
            {| world := w; opt := None; val := None |};
      Some (world p)
  end.

(** *** termAction *)

Definition termClone (terminal : Terminal) (w : World) : World :=
  call (execvp_clone terminal) w.

Definition with_notebook (f : Notebook -> Notebook) (w : World) : World :=
  set_notebook (f (notebook w)) w.

Definition gtk_main_quit (w : World) : World := set_running false w.

Definition termAction (env : Env) (terminal : Terminal) (action : string)
    (w : World) : option (bool * World) :=
  if strcmp action "copy" =? 0 then
    Some (true, call (vte_terminal_copy_clipboard_format terminal) w)
  else if strcmp action "paste" =? 0 then
    Some (true, call (vte_terminal_paste_clipboard terminal) w)
  else if strcmp action "reload-config" =? 0 then
    let w := printLog LogReloading w in
    let w := if defaultConfigFile w then set_configFileName None w else w in
    w ← parseSettings env w;
    w ← configureTerm terminal w;
    Some (true, w)
  else if strcmp action "default-config" =? 0 then
    let w := printLog LogLoadingDefault w in
    let w := set_colorCount 0 w in
    w ← configureTerm terminal w;
    Some (true, w)
  else if strcmp action "new-tab" =? 0 then
    '(t, w) ← getTerm w;
    Some (true, with_notebook (fun nb => gtk_notebook_append_page nb t) w)
  else if strcmp action "new-window" =? 0 then
    Some (true, termClone terminal w)
  else if strcmp action "exit" =? 0 then
    Some (true, gtk_main_quit w)
  else if strcmp action "inc-font-size" =? 0 then
    Some (true, setTermFont terminal (currentFontSize w + 1) w)
  else if strcmp action "dec-font-size" =? 0 then
    Some (true, setTermFont terminal (currentFontSize w - 1) w)
  else if strcmp action "default-font-size" =? 0 then
    Some (true, setTermFont terminal (defaultFontSize (settings w)) w)
  else if strcmp action "next-tab" =? 0 then
    Some (true, with_notebook gtk_notebook_next_page w)
  else if strcmp action "prev-tab" =? 0 then
    Some (true, with_notebook gtk_notebook_prev_page w)
  else if strcmp action "close-tab" =? 0 then
    if gtk_notebook_get_n_pages (notebook w) =? 1 then Some (true, w) else
    let w := set_closeTab true w in
    Some (true,
          with_notebook
            (fun nb => gtk_notebook_remove_page nb (gtk_notebook_get_current_page nb)) w)
  else Some (false, w).

(** *** termOnChildExit *)

Definition termOnChildExit (terminal : Terminal) (status : Z) (w : World)
  : bool * World :=
  if negb (closeTab w) then
    if negb (gtk_notebook_get_n_pages (notebook w) =? 1) then
      (true,
       with_notebook
         (fun nb => gtk_notebook_remove_page nb (gtk_notebook_get_current_page nb)) w)
    else (true, gtk_main_quit w)
  else (true, set_closeTab false w).

(** *** termOnKeyPress *)

(** What both loops do with the binding they stop at. *)
Definition fire (env : Env) (terminal : Terminal) (b : Bindings) (w : World)
  : option World :=
  if internal b then snd <$> termAction env terminal (cmd b) w
  else Some (call (vte_terminal_feed_child terminal (cmd b)) w).

Definition default_fires (name : string) (d : DefaultBindings) : bool :=
  (strcasecmp name (key (bind d)) =? 0) && negb (invalid d).

Definition user_fires (name : string) (b : Bindings) : bool :=
  strcasecmp name (key b) =? 0.

Definition termOnKeyPress (env : Env) (terminal : Terminal) (event : GdkEventKey)
    (w : World) : option (bool * World) :=
  let w := set_keyState
             (Z.land (state event)
                (Z.lor (Z.lor GDK_CONTROL_MASK GDK_SHIFT_MASK) GDK_MOD1_MASK)) w in
  if keyState w =? Z.lor (actionKey (settings w)) GDK_CONTROL_MASK then
    let name := keyval_name event in
    if negb (atoi name =? 0) then
      Some (true,
            with_notebook (fun nb => gtk_notebook_set_current_page nb (atoi name - 1)) w)
    else
      match find (default_fires name) (defaultKeyBindings w) with
      | Some d => w ← fire env terminal (bind d) w; Some (true, w)
      | None =>
          match find (user_fires name) (take (Z.to_nat (keyCount w)) (keyBindings w)) with
          | Some b => w ← fire env terminal b w; Some (true, w)
          | None => Some (false, w)
          end
      end
  else Some (false, w).

(** *** startTerm and main

    The window and the notebook are made, the first terminal becomes the
    first page, and the main loop hands the events to the two handlers
    above.  [main] is given the globals as [parseArgs] left them. *)

Definition startTerm (w : World) : option World :=
  '(t, w) ← getTerm w;
  Some (with_notebook (fun nb => gtk_notebook_append_page nb t) w).

Definition main (env : Env) (config : option string) (debug : bool)
  : option World :=
  w ← parseSettings env (startup hdr config debug);
  startTerm w.

End Kermit.

(** ** Part 4: a header

    kermit.h is not among the sources, so the functions above take its
    constants as the parameter [hdr].  [kermit_h] is one such header, for
    the statements that need a concrete one: 256 palette entries as the
    data model of the specification has them, 64 characters for the line
    buffer and the binding array, and sample values for the rest. *)

Definition kermit_h : Header :=
  {| TERM_NAME := "kermit";
     TERM_CONFIG_DIR := "/.config/";
     TERM_CONFIG_LENGTH := 64;
     TERM_PALETTE_SIZE := 256;
     TERM_FONT := "monospace";
     TERM_FONT_DEFAULT_SIZE := 9;
     TERM_LOCALE := "en_US.UTF-8";
     TERM_WORD_CHARS := "-./?%&#_=+@~";
     TERM_OPACITY := "0.96";
     TERM_BACKGROUND := 0x000000;
     TERM_FOREGROUND := 0xffffff;
     TERM_BOLD_COLOR := 0xffffff;
     TERM_CURSOR_COLOR := 0xffffff;
     TERM_CURSOR_FG := 0xffffff |}.

(** A file system with one file. *)
Definition one_file (home name content : string) : Env :=
  {| HOME := home;
     fopen := fun n => if String.eqb n name then Some content else None |}.

(** The user bindings: the first [keyCount] entries of the array. *)
Definition user_bindings (w : World) : list Bindings :=
  take (Z.to_nat (keyCount w)) (keyBindings w).

(** ** Part 5: the notions of the statements *)

(** [all_chars f s]: [f] holds of every character of [s]. *)
Fixpoint all_chars (f : ascii -> bool) (s : string) : bool :=
  match s with
  | EmptyString => true
  | String c r => f c && all_chars f r
  end.

(** The character is NUL. *)
Definition is_nul (c : ascii) : bool := Ascii.eqb c NUL.

(** A word of a line: not empty, no white space, no NUL. *)
Definition is_token (s : string) : bool :=
  negb (String.eqb s EmptyString)
  && all_chars (fun c => negb (isspace c) && negb (is_nul c)) s.

(** Text that holds neither the character [c] nor NUL. *)
Definition free_of (c : ascii) (s : string) : bool :=
  all_chars (fun d => negb (Ascii.eqb d c) && negb (is_nul d)) s.

(** Text without NUL: a C string. *)
Definition no_nul (s : string) : bool := all_chars (fun c => negb (is_nul c)) s.

(** The end of a line. *)
Definition LFs : string := String LF EmptyString.

(** The text of a file, from its lines. *)
Fixpoint lines (ls : list string) : string :=
  match ls with
  | [] => EmptyString
  | l :: ls' => l +:+ LFs +:+ lines ls'
  end.

(** The lines of a file parsed in their order, each with its line feed. *)
Fixpoint parseLines (ls : list string) (p : Parser) : option Parser :=
  match ls with
  | [] => Some p
  | l :: ls' => p ← parseLine (l +:+ LFs) p; parseLines ls' p
  end.

(** The binding that a line [directive key~cmd] stores. *)
Definition stored_binding (directive key body : string) : Bindings :=
  {| internal := String.eqb directive "bindi";
     key := key;
     cmd := if String.eqb directive "bindx"
            then body +:+ String CR EmptyString else body |}.

(** [d] is the entry [d0] after the bindings [bs] were loaded: the same
    binding, invalidated when [d0] was or when one of [bs] has its command
    text and its internal flag. *)
Definition invalidated_by (bs : list Bindings) (d0 d : DefaultBindings) : Prop :=
  bind d = bind d0
  /\ (invalid d = true
      <-> invalid d0 = true
          \/ exists b, b ∈ bs /\ cmd b = cmd (bind d0)
                       /\ internal b = internal (bind d0)).

(** What holds of the bindings all along a pass that started with the
    table [defs0]. *)
Definition keys_inv (defs0 : list DefaultBindings) (w : World) : Prop :=
  Forall (fun b => no_nul (cmd b) = true) (user_bindings w)
  /\ Forall2 (invalidated_by (user_bindings w)) defs0 (defaultKeyBindings w).

(** The name of the file that [parseSettings] opens. *)
Definition config_path (hdr : Header) (env : Env) (w : World) : string :=
  match configFileName w with
  | Some name => name
  | None => HOME env +:+ TERM_CONFIG_DIR hdr +:+ TERM_NAME hdr +:+ ".conf"
  end.

(** The formulas of the palette as they are described: for [i < 16] bit 0
    gives red, bit 1 green and bit 2 blue, 0xc000 each, and bit 3 adds
    0x3fff to all three channels; then the cube of six levels per channel;
    then the ramp of grey shades, the shade in both bytes.  Channels are
    over 65535, those of the cube over 255. *)
Definition documented_color (i : Z) : GdkRGBA :=
  if i <? 16 then
    let bright := if Z.testbit i 3 then 0x3fff else 0 in
    let channel n :=
      {| num := (if Z.testbit i n then 0xc000 else 0) + bright; den := 65535 |} in
    {| red := channel 0; green := channel 1; blue := channel 2; alpha := zero |}
  else if i <? 232 then
    let j := i - 16 in
    let level c := {| num := (if c =? 0 then 0 else c * 40 + 55); den := 255 |} in
    {| red := level (j / 36); green := level ((j / 6) mod 6);
       blue := level (j mod 6); alpha := zero |}
  else
    let shade := 8 + (i - 232) * 10 in
    let c := {| num := shade * 256 + shade; den := 65535 |} in
    {| red := c; green := c; blue := c; alpha := zero |}.

(** The index of a [colorN] line: one or two decimal digits. *)
Definition is_digit (c : ascii) : bool := (48 <=? code c) && (code c <=? 57).

Definition one_or_two_digits (d : string) : bool :=
  match d with
  | String a EmptyString => is_digit a
  | String a (String b EmptyString) => is_digit a && is_digit b
  | _ => false
  end.

(** The value of a decimal digit. *)
Definition digit_value (c : ascii) : Z := code c - 48.

(** The number that one or two decimal digits write. *)
Definition decimal (d : string) : Z :=
  match d with
  | String a EmptyString => digit_value a
  | String a (String b EmptyString) => 10 * digit_value a + digit_value b
  | _ => 0
  end.

(** [CLR_GDK(parseColor(value), 0)]. *)
Definition configured_color (value : string) : GdkRGBA :=
  let c := fst (parseColor value) in
  {| red := CLR_16 (CLR_R c); green := CLR_16 (CLR_G c);
     blue := CLR_16 (CLR_B c); alpha := zero |}.

(** The event carries the action modifier and control, and no other of
    the three modifiers. *)
Definition armed (w : World) (event : GdkEventKey) : Prop :=
  Z.land (state event) (Z.lor (Z.lor GDK_CONTROL_MASK GDK_SHIFT_MASK) GDK_MOD1_MASK)
  = Z.lor (actionKey (settings w)) GDK_CONTROL_MASK.

(** The globals once [termOnKeyPress] has stored the modifiers. *)
Definition keyed (event : GdkEventKey) (w : World) : World :=
  set_keyState
    (Z.land (state event) (Z.lor (Z.lor GDK_CONTROL_MASK GDK_SHIFT_MASK) GDK_MOD1_MASK))
    w.

(** The globals after [gtk_notebook_set_current_page(notebook, n)]. *)
Definition select_tab (n : Z) (w : World) : World :=
  with_notebook (fun nb => gtk_notebook_set_current_page nb n) w.

(** What a key press resolves to. *)
Inductive resolution : Set :=
  | SelectTab (n : Z)
  | Fire (b : Bindings)
  | PassThrough.

(** [x] is the first element of [l] of which [P] holds. *)
Definition first_such {A : Type} (P : A -> Prop) (l : list A) (x : A) : Prop :=
  exists l1 l2, l = (l1 ++ x :: l2)%list /\ P x /\ Forall (fun y => ~ P y) l1.

(** The key of a binding matches the name of the key symbol, letter case
    apart. *)
Definition key_matches (name : string) (b : Bindings) : Prop :=
  strcasecmp name (key b) = 0.

(** The name of the key symbol resolves to [r]: a number other than 0
    selects a tab; otherwise the first default binding that matches and is
    not invalidated fires; otherwise, every matching default binding being
    invalidated, the first user binding that matches fires; otherwise the
    event passes through. *)
Inductive resolves (w : World) (name : string) : resolution -> Prop :=
  | resolves_tab :
      atoi name <> 0 ->
      resolves w name (SelectTab (atoi name - 1))
  | resolves_default d :
      atoi name = 0 ->
      first_such (fun d => key_matches name (bind d) /\ invalid d = false)
        (defaultKeyBindings w) d ->
      resolves w name (Fire (bind d))
  | resolves_user b :
      atoi name = 0 ->
      Forall (fun d => key_matches name (bind d) -> invalid d = true)
        (defaultKeyBindings w) ->
      first_such (key_matches name) (user_bindings w) b ->
      resolves w name (Fire b)
  | resolves_none :
      atoi name = 0 ->
      Forall (fun d => key_matches name (bind d) -> invalid d = true)
        (defaultKeyBindings w) ->
      Forall (fun b => ~ key_matches name b) (user_bindings w) ->
      resolves w name PassThrough.

(** What [termOnKeyPress] does once the key is resolved. *)
Definition perform (hdr : Header) (env : Env) (t : Terminal) (r : resolution)
    (w : World) : option (bool * World) :=
  match r with
  | SelectTab n => Some (true, select_tab n w)
  | Fire b => w ← fire hdr env t b w; Some (true, w)
  | PassThrough => Some (false, w)
  end.

(** The number of tabs. *)
Definition n_pages (w : World) : Z := gtk_notebook_get_n_pages (notebook w).

(** The current page is one of the pages. *)
Definition current_valid (w : World) : Prop :=
  0 <= current (notebook w) < n_pages w.

(** The globals after the current page was removed. *)
Definition remove_current (w : World) : World :=
  with_notebook
    (fun nb => gtk_notebook_remove_page nb (gtk_notebook_get_current_page nb)) w.

(** The letters of [s] in lower case. *)
Fixpoint lower (s : string) : list Z :=
  match s with
  | EmptyString => []
  | String c r => tolower c :: lower r
  end.

(** *** More notions: colours, sessions, actions *)


(** Hexadecimal digits. *)
Definition is_hex (c : ascii) : bool :=
  match digit_val c with
  | Some d => d <? 16
  | None => false
  end.

(** The value of a hexadecimal digit. *)
Definition hex_digit (c : ascii) : Z :=
  match digit_val c with
  | Some d => d
  | None => 0
  end.

(** The number that a text of hexadecimal digits writes. *)
Fixpoint hex_value (s : string) : Z :=
  match s with
  | EmptyString => 0
  | String c r => hex_digit c * 16 ^ Z.of_nat (String.length r) + hex_value r
  end.

(** The keywords that set a colour, each with the global it sets. *)
Definition color_keywords : list (string * (Z -> Settings -> Settings)) :=
  [ ("cursor", set_termCursorColor);
    ("cursor_foreground", set_termCursorFg);
    ("foreground", set_termForeground);
    ("foreground_bold", set_termBoldColor);
    ("background", set_termBackground) ].

(** What no function of the program undoes.  From [w] to [w'] the debug
    flag and the command stay, the arrays keep their lengths, the built-in
    bindings keep their keys and actions and stay invalidated once they
    are, nothing is written to the log without the debug flag, and the two
    counters stay within their bounds. *)
Definition kept (w w' : World) : Prop :=
  debugMessages w' = debugMessages w
  /\ termCommand w' = termCommand w
  /\ length (keyBindings w') = length (keyBindings w)
  /\ length (termPalette w') = length (termPalette w)
  /\ Forall2 (fun d d' => bind d' = bind d /\ (invalid d = true -> invalid d' = true))
       (defaultKeyBindings w) (defaultKeyBindings w')
  /\ (debugMessages w = false -> stderr w' = stderr w)
  /\ (0 <= keyCount w <= Z.of_nat (length (keyBindings w)) ->
      0 <= keyCount w' <= Z.of_nat (length (keyBindings w')))
  /\ (0 <= colorCount w -> 0 <= colorCount w').

(** One event of the main loop: a key press on a terminal or the exit of
    the child of one, the files being what they are at that time. *)
Inductive event_step (hdr : Header) (w : World) : World -> Prop :=
  | key_press env t event b w' :
      termOnKeyPress hdr env t event w = Some (b, w') -> event_step hdr w w'
  | child_exit t status :
      event_step hdr w (snd (termOnChildExit t status w)).

(** The states of a session that started in [w0]. *)
Inductive session (hdr : Header) (w0 : World) : World -> Prop :=
  | session_start : session hdr w0 w0
  | session_event w w' :
      session hdr w0 w -> event_step hdr w w' -> session hdr w0 w'.

(** What a pass over the configuration file leaves alone: the tabs, the
    latch, the main loop, the terminals and what was asked of them, the
    font size in use, the modifiers of the last key, the command and the
    debug flag. *)
Definition pass_frame (w w' : World) : Prop :=
  notebook w' = notebook w
  /\ closeTab w' = closeTab w
  /\ running w' = running w
  /\ spawned w' = spawned w
  /\ calls w' = calls w
  /\ currentFontSize w' = currentFontSize w
  /\ keyState w' = keyState w
  /\ termCommand w' = termCommand w
  /\ debugMessages w' = debugMessages w.

(** The names that [termAction] knows. *)
Definition actions : list string :=
  [ "copy"; "paste"; "reload-config"; "default-config"; "new-tab";
    "new-window"; "exit"; "inc-font-size"; "dec-font-size";
    "default-font-size"; "next-tab"; "prev-tab"; "close-tab" ].

(** The two globals that name the configuration file, as they are after
    the first pass of a program started with the option -c [name]
    ([config = Some name]) or without it. *)
Definition names_file (config : option string) (w : World) : Prop :=
  match config with
  | None => defaultConfigFile w = true
  | Some name => configFileName w = Some name /\ defaultConfigFile w = false
  end.

(** *** Sample inputs *)

(** The double quote. *)
Definition DQUOTE : ascii := "034"%char.

Definition quoted (s : string) : string :=
  String DQUOTE (s +:+ String DQUOTE EmptyString).

(** A home directory, without a configuration file and with one. *)
Definition home : string := "/home/user".

(** The default configuration file holds [content]. *)
Definition with_config (content : string) : Env :=
  one_file home "/home/user/.config/kermit.conf" content.

Definition no_config : Env := {| HOME := home; fopen := fun _ => None |}.

(** The globals after the first [parseSettings] of a run without options,
    the default configuration file holding [content]. *)
Definition loaded (content : string) : option World :=
  parseSettings kermit_h (with_config content) (startup kermit_h None false).

(** The configuration of the specification's example. *)
Definition spec_config : string :=
  lines [ "key alt";
          "bindi q~reset" +:+ String DQUOTE EmptyString;
          "bindx t~ls" +:+ String DQUOTE EmptyString;
          "tab top";
          "opacity 0.8";
          "foreground #ffffff" ].

(** The first two terminals of a session. *)
Definition term0 : Terminal := {| tid := 0 |}.
Definition term1 : Terminal := {| tid := 1 |}.

(** A session with two tabs: the program started without a configuration
    file, then [new-tab]. *)
Definition two_tabs : option World :=
  w ← main kermit_h no_config None false;
  snd <$> termAction kermit_h no_config term0 "new-tab" w.

(** A key event under control and alt. *)
Definition ctrl_alt (name : string) : GdkEventKey :=
  {| state := Z.lor GDK_CONTROL_MASK GDK_MOD1_MASK; keyval_name := name |}.

(** The same, the model giving a result for it. *)
Definition two_tab_world : World :=
  match two_tabs with
  | Some w => w
  | None => startup kermit_h None false
  end.

(** The parser at the start of the first pass. *)
Definition start_parser : Parser :=
  {| world := startup kermit_h None false; opt := None; val := None |}.

(** The parser after sixty-four binding lines: the array is full. *)
Definition full_parser : Parser :=
  match parseLines (replicate 64 ("bind a~" +:+ quoted "ls")) start_parser with
  | Some p => p
  | None => start_parser
  end.

(** A session started without a configuration file, and the same after
    the key t under control and alt, which opens a second tab. *)
Definition first_tab : World :=
  match main kermit_h no_config None false with
  | Some w => w
  | None => startup kermit_h None false
  end.

Definition second_tab : World :=
  match termOnKeyPress kermit_h no_config term0 (ctrl_alt "t") first_tab with
  | Some (_, w) => w
  | None => first_tab
  end.

(** Files that agree with [with_config spec_config] on the configuration
    file of the home directory, and on no other name. *)
Definition other_files : Env :=
  {| HOME := home;
     fopen := fun n => if String.eqb n "/home/user/.config/kermit.conf"
                       then Some spec_config else Some (lines ["tab top"]) |}.

(** A line of 63 characters. *)
Definition long_line : string :=
  "opacity 0.99999999999999999999999999999999999999999999999999999".

(** ** Part 6: facts about the C library *)

Lemma all_chars_app f s t :
  all_chars f (s +:+ t) = all_chars f s && all_chars f t.
Proof.
  induction s as [|c s IH]; simpl; [reflexivity|].
  rewrite IH. now rewrite andb_assoc.
Qed.

Lemma all_chars_impl (f g : ascii -> bool) s :
  (forall c, f c = true -> g c = true) ->
  all_chars f s = true -> all_chars g s = true.
Proof.
  intros Hfg. induction s as [|c s IH]; simpl; [reflexivity|].
  intros [Hc Hs]%andb_true_iff. rewrite (Hfg _ Hc). simpl. auto.
Qed.

Lemma code_eq c d : code c = code d -> c = d.
Proof.
  unfold code. intros H. apply N2Z.inj in H.
  rewrite <- (ascii_N_embedding c), <- (ascii_N_embedding d). now f_equal.
Qed.

Lemma code_nul c : code c = 0 -> c = NUL.
Proof. intros H. apply code_eq. exact H. Qed.

Lemma is_nul_false c : is_nul c = false -> code c <> 0.
Proof.
  unfold is_nul. intros H Hc. apply code_nul in Hc. subst c.
  now rewrite Ascii.eqb_refl in H.
Qed.

Lemma cstr_no_nul s : no_nul (cstr s) = true.
Proof.
  induction s as [|c s IH]; simpl; [reflexivity|].
  destruct (Ascii.eqb c NUL) eqn:E; [reflexivity|].
  change (negb (is_nul c) && no_nul (cstr s) = true).
  unfold is_nul. now rewrite E, IH.
Qed.

Lemma cstr_id s : no_nul s = true -> cstr s = s.
Proof.
  induction s as [|c s IH]; [reflexivity|].
  change (negb (is_nul c) && no_nul s = true -> cstr (String c s) = String c s).
  intros [Hc Hs]%andb_true_iff.
  apply negb_true_iff in Hc. unfold is_nul in Hc. simpl. now rewrite Hc, IH.
Qed.

(** [strcmp] is 0 exactly on equal texts. *)
Lemma strcmp_eq s t :
  no_nul s = true -> no_nul t = true -> strcmp s t = 0 <-> s = t.
Proof.
  revert t. induction s as [|c s IH]; intros [|d t]; simpl.
  - tauto.
  - intros _ [Hd _]%andb_true_iff. apply negb_true_iff, is_nul_false in Hd.
    split; [lia | discriminate].
  - intros [Hc _]%andb_true_iff _. apply negb_true_iff, is_nul_false in Hc.
    split; [lia | discriminate].
  - intros [_ Hs]%andb_true_iff [_ Ht]%andb_true_iff.
    destruct (Z.eqb_spec (code c) (code d)) as [E|E].
    + apply code_eq in E. subst d. rewrite (IH t Hs Ht).
      split; [now intros -> | now intros [= ->]].
    + split; [lia | intros [= -> _]; congruence].
Qed.

(** [!strncmp(s, lit, strlen(s))] holds exactly when [s] starts [lit]. *)
Lemma strncmp_prefix s lit :
  no_nul s = true ->
  (strncmp s lit (strlen s) =? 0) = String.prefix s lit.
Proof.
  unfold strlen. revert lit. induction s as [|c s IH]; intros lit Hs.
  - destruct lit; reflexivity.
  - cbn [String.length]. rewrite Nat2Z.inj_succ.
    change (negb (is_nul c) && no_nul s = true) in Hs.
    apply andb_true_iff in Hs as [Hc Hs].
    apply negb_true_iff, is_nul_false in Hc.
    destruct lit as [|d lit]; cbn [strncmp String.prefix];
      destruct (Z.leb_spec (Z.succ (Z.of_nat (String.length s))) 0) as [?|_];
      try lia.
    destruct (Z.eqb_spec (code c) (code d)) as [E|E].
    + apply code_eq in E. subst d.
      destruct (ascii_dec c c) as [_|?]; [|congruence].
      replace (Z.succ (Z.of_nat (String.length s)) - 1)
        with (Z.of_nat (String.length s)) by lia.
      now apply IH.
    + destruct (ascii_dec c d) as [->|_]; [congruence|].
      apply Z.eqb_neq. lia.
Qed.

Lemma tolower_nul c : is_nul c = false -> tolower c <> 0.
Proof.
  intros H%is_nul_false. unfold tolower.
  assert (0 <= code c) by (unfold code; lia).
  destruct ((65 <=? code c) && (code c <=? 90)); lia.
Qed.

(** [strcasecmp] is 0 exactly on texts that are equal in lower case. *)
Lemma strcasecmp_eq s t :
  no_nul s = true -> no_nul t = true ->
  strcasecmp s t = 0 <-> lower s = lower t.
Proof.
  revert t. induction s as [|c s IH]; intros [|d t]; cbn [strcasecmp lower].
  - tauto.
  - intros _ Ht. change (negb (is_nul d) && no_nul t = true) in Ht.
    apply andb_true_iff in Ht as [Hd%negb_true_iff%tolower_nul _].
    split; [lia | discriminate].
  - intros Hs _. change (negb (is_nul c) && no_nul s = true) in Hs.
    apply andb_true_iff in Hs as [Hc%negb_true_iff%tolower_nul _].
    split; [lia | discriminate].
  - intros Hs Ht.
    change (negb (is_nul c) && no_nul s = true) in Hs.
    change (negb (is_nul d) && no_nul t = true) in Ht.
    apply andb_true_iff in Hs as [_ Hs]. apply andb_true_iff in Ht as [_ Ht].
    destruct (Z.eqb_spec (tolower c) (tolower d)) as [E|E].
    + rewrite (IH t Hs Ht), E. split; [now intros -> | now intros [= ->]].
    + split; [lia | intros [= ? _]; contradiction].
Qed.

(** *** Scanning a line *)

Lemma skip_space_token t r :
  is_token t = true -> skip_space (t +:+ r) = t +:+ r.
Proof.
  destruct t as [|c t]; [discriminate|].
  unfold is_token. simpl.
  intros [[Hc _]%andb_true_iff _]%andb_true_iff.
  apply negb_true_iff in Hc. now rewrite Hc.
Qed.

Lemma scan_nonspace_app t c r :
  all_chars (fun c => negb (isspace c) && negb (is_nul c)) t = true ->
  isspace c = true ->
  scan_nonspace (t +:+ String c r) = (t, String c r).
Proof.
  intros Ht Hc. induction t as [|d t IH]; simpl.
  - now rewrite Hc.
  - simpl in Ht. apply andb_true_iff in Ht as [[Hd _]%andb_true_iff Ht].
    apply negb_true_iff in Hd. rewrite Hd, (IH Ht). reflexivity.
Qed.

Lemma scan_s_token t c r :
  is_token t = true -> isspace c = true ->
  scan_s (t +:+ String c r) = Some (t, String c r).
Proof.
  intros Ht Hc. unfold scan_s. rewrite (skip_space_token _ _ Ht).
  unfold is_token in Ht. apply andb_true_iff in Ht as [Hne Ht].
  rewrite (scan_nonspace_app _ _ _ Ht Hc).
  destruct t; [discriminate | reflexivity].
Qed.

Lemma span_not_app c s r :
  free_of c s = true -> span_not c (s +:+ String c r) = (s, String c r).
Proof.
  intros Hs. induction s as [|d s IH]; simpl.
  - now rewrite Ascii.eqb_refl.
  - simpl in Hs. apply andb_true_iff in Hs as [[Hd _]%andb_true_iff Hs].
    apply negb_true_iff in Hd. rewrite Hd, (IH Hs). reflexivity.
Qed.

Lemma scan_line_app s r :
  s <> EmptyString -> free_of LF s = true ->
  scan_line (s +:+ String LF r) = Some (s, String LF r).
Proof.
  intros Hne Hs. unfold scan_line. rewrite (span_not_app _ _ _ Hs).
  destruct s; [congruence | reflexivity].
Qed.

Lemma isspace_LF : isspace LF = true.
Proof. reflexivity. Qed.

Lemma isspace_SP : isspace " " = true.
Proof. reflexivity. Qed.

(** [sscanf(buf, "%s %s\n", ...)] on a line of two words. *)
Lemma sscanf_s_s_words o v o0 v0 :
  is_token o = true -> is_token v = true ->
  sscanf_s_s (o +:+ " " +:+ v +:+ String LF EmptyString) o0 v0 = (Some o, Some v).
Proof.
  intros Ho Hv. unfold sscanf_s_s.
  change (o +:+ " " +:+ v +:+ String LF EmptyString)
    with (o +:+ String " " (v +:+ String LF EmptyString)).
  rewrite (scan_s_token _ _ _ Ho isspace_SP).
  cbn [skip_space]. rewrite isspace_SP.
  rewrite (skip_space_token _ _ Hv), (scan_s_token _ _ _ Hv isspace_LF).
  reflexivity.
Qed.

(** ** Part 7: the parser, line by line *)

Lemma is_token_no_nul v : is_token v = true -> no_nul v = true.
Proof.
  unfold is_token, no_nul. intros [_ H]%andb_true_iff.
  revert H. apply all_chars_impl. now intros c [_ H]%andb_true_iff.
Qed.

Lemma append_cons c s t : String c s +:+ t = String c (s +:+ t).
Proof. reflexivity. Qed.

Lemma strlen_app s t : strlen (s +:+ t) = strlen s + strlen t.
Proof.
  unfold strlen. induction s as [|c s IH]; [reflexivity|].
  rewrite append_cons. cbn [String.length]. rewrite !Nat2Z.inj_succ, IH. lia.
Qed.

Lemma strlen_nonneg s : 0 <= strlen s.
Proof. unfold strlen. lia. Qed.

(** C9, as the code has it: the value of [tab] selects the bottom exactly
    when it is a beginning of the word bottom (b, bo, ..., bottom), and the
    top otherwise; nothing else changes. *)
Theorem C9_tab_directive (v : string) (p : Parser) :
  is_token v = true ->
  parseLine ("tab " +:+ v +:+ LFs) p
  = Some {| world := with_settings
                       (set_tabPosition (if String.prefix v "bottom" then 0 else 1))
                       (world p);
            opt := Some "tab"; val := Some v |}.
Proof.
  intros Hv. unfold parseLine.
  assert (Hlen : (strlen ("tab " +:+ v +:+ LFs) <? 4) = false).
  { apply Z.ltb_ge. rewrite strlen_app. pose proof (strlen_nonneg (v +:+ LFs)).
    change (strlen "tab ") with 4. lia. }
  rewrite Hlen. change (starts_with "#" ("tab " +:+ v +:+ LFs)) with false.
  cbn [orb].
  change ("tab " +:+ v +:+ LFs) with ("tab" +:+ " " +:+ v +:+ LFs).
  rewrite (sscanf_s_s_words "tab" v _ _ eq_refl Hv).
  cbn [mbind option_bind].
  change (directive_of "tab") with DTab. cbn beta iota.
  rewrite (strncmp_prefix v "bottom" (is_token_no_nul v Hv)).
  reflexivity.
Qed.

(** After [tab top] the line [tab bot] selects the bottom (position 0). *)
Lemma C9_counterexample :
  (w ← loaded (lines ["tab top"]); Some (tabPosition (settings w))) = Some 1
  /\ (w ← loaded (lines ["tab top"; "tab bot"]); Some (tabPosition (settings w)))
     = Some 0.
Proof. split; vm_compute; reflexivity. Qed.

(** The theorem on the value bot. *)
Lemma C9_tab_directive_witness :
  is_token "bot" = true
  /\ parseLine ("tab " +:+ "bot" +:+ LFs)
       {| world := startup kermit_h None false; opt := None; val := None |}
     = Some {| world := with_settings (set_tabPosition 0) (startup kermit_h None false);
               opt := Some "tab"; val := Some "bot" |}.
Proof.
  split; [reflexivity|].
  exact (C9_tab_directive "bot"
           {| world := startup kermit_h None false; opt := None; val := None |}
           eq_refl).
Defined.

Lemma append_assoc_s s t u : (s +:+ t) +:+ u = s +:+ t +:+ u.
Proof.
  induction s as [|c s IH]; [reflexivity|].
  rewrite !append_cons. now rewrite IH.
Qed.

Lemma is_token_first t :
  is_token t = true ->
  exists c r, t = String c r /\ isspace c = false /\ is_nul c = false.
Proof.
  destruct t as [|c r]; [discriminate|]. unfold is_token.
  change (all_chars ?f (String c r)) with (f c && all_chars f r).
  intros [_ [[H1 H2]%andb_true_iff _]%andb_true_iff]%andb_true_iff.
  exists c, r. now rewrite <- !negb_true_iff.
Qed.

Lemma token_free_of_LF t : is_token t = true -> free_of LF t = true.
Proof.
  unfold is_token, free_of. intros [_ H]%andb_true_iff. revert H.
  apply all_chars_impl. intros c [H1 H2]%andb_true_iff. rewrite H2, andb_true_r.
  apply negb_true_iff. apply negb_true_iff in H1.
  destruct (Ascii.eqb_spec c LF) as [->|]; [discriminate | reflexivity].
Qed.

Lemma free_of_no_nul c s : free_of c s = true -> no_nul s = true.
Proof. apply all_chars_impl. now intros d [_ H]%andb_true_iff. Qed.

(** The first conversion of either [sscanf] call reads the directive. *)
Lemma sscanf_s_s_first o r o0 v0 :
  is_token o = true ->
  exists v, sscanf_s_s (o +:+ String " " r) o0 v0 = (Some o, v).
Proof.
  intros Ho. unfold sscanf_s_s. rewrite (scan_s_token _ _ _ Ho isspace_SP).
  destruct (scan_s _) as [[v ?]|]; eauto.
Qed.

(** [sscanf(buf, "%s %[^\n]\n", ...)] on a directive and the rest of its
    line. *)
Lemma sscanf_s_line_rest o s o0 v0 :
  is_token o = true -> skip_space s = s -> s <> EmptyString ->
  free_of LF s = true ->
  sscanf_s_line (o +:+ String " " (s +:+ LFs)) o0 v0 = (Some o, Some s).
Proof.
  intros Ho Hsp Hne Hs. unfold sscanf_s_line.
  rewrite (scan_s_token _ _ _ Ho isspace_SP).
  cbn [skip_space]. rewrite isspace_SP.
  assert (Hsk : skip_space (s +:+ LFs) = s +:+ LFs).
  { destruct s as [|c s]; [congruence|]. rewrite append_cons.
    cbn [skip_space] in *. destruct (isspace c); [|reflexivity].
    exfalso. clear -Hsp. assert (H := f_equal String.length Hsp).
    assert (Hle : forall u, (String.length (skip_space u) <= String.length u)%nat).
    { induction u as [|d u IH]; simpl; [lia|]. destruct (isspace d); simpl; lia. }
    specialize (Hle s). simpl in H. lia. }
  rewrite Hsk. unfold LFs. rewrite (scan_line_app _ _ Hne Hs). reflexivity.
Qed.

Lemma drop_last_snoc s q : drop_last (s +:+ String q EmptyString) = s.
Proof.
  induction s as [|c s IH]; [reflexivity|].
  rewrite append_cons. cbn [drop_last]. rewrite IH.
  destruct s; reflexivity.
Qed.

(** [strtok] twice on [key~rest]. *)
Lemma strtok2_key_rest sep key c rest :
  key <> EmptyString -> free_of sep key = true ->
  strtok2 sep (key +:+ String sep (String c rest))
  = (Some key, Some (String c rest), key).
Proof.
  intros Hne Hk. unfold strtok2.
  destruct key as [|d key]; [congruence|].
  assert (Hd : Ascii.eqb d sep = false).
  { unfold free_of in Hk. simpl in Hk.
    apply andb_true_iff in Hk as [[Hd _]%andb_true_iff _].
    now apply negb_true_iff in Hd. }
  rewrite append_cons. cbn [skip_char leading]. rewrite Hd.
  rewrite <- append_cons, (span_not_app _ _ _ Hk). reflexivity.
Qed.

Lemma take_insert_snoc {A} (l : list A) (n : nat) (x : A) :
  (n < length l)%nat -> take (S n) (<[n := x]> l) = (take n l ++ [x])%list.
Proof.
  revert n. induction l as [|y l IH]; intros [|n] Hn; simpl in *; try lia.
  - now rewrite take_0.
  - f_equal. apply IH. lia.
Qed.

Lemma user_bindings_add (w : World) (b : Bindings) :
  0 <= keyCount w < Z.of_nat (length (keyBindings w)) ->
  take (Z.to_nat (keyCount w + 1)) (<[Z.to_nat (keyCount w) := b]> (keyBindings w))
  = (user_bindings w ++ [b])%list.
Proof.
  intros H. unfold user_bindings.
  replace (Z.to_nat (keyCount w + 1)) with (S (Z.to_nat (keyCount w))) by lia.
  apply take_insert_snoc. lia.
Qed.

(** C1, as the code has it: of the text between the separator and the end
    of the line, the first and the last character are dropped, whatever
    they are; [bindx] adds a carriage return and [bindi] sets the flag.
    The binding becomes the last user binding, and the default bindings
    of the same action are invalidated. *)
Theorem C1_binding_line (directive key body : string) (c0 q : ascii) (p : Parser) :
  directive = "bind" \/ directive = "bindx" \/ directive = "bindi" ->
  is_token key = true ->
  free_of "~" key = true ->
  free_of LF (String c0 (body +:+ String q EmptyString)) = true ->
  0 <= keyCount (world p) < Z.of_nat (length (keyBindings (world p))) ->
  exists p',
    parseLine (directive +:+ " " +:+ key +:+ "~"
               +:+ String c0 (body +:+ String q EmptyString) +:+ LFs) p = Some p'
    /\ user_bindings (world p')
       = (user_bindings (world p) ++ [stored_binding directive key body])%list
    /\ keyCount (world p') = keyCount (world p) + 1
    /\ defaultKeyBindings (world p')
       = invalidateDefaultBinding (stored_binding directive key body)
           (defaultKeyBindings (world p))
    /\ settings (world p') = settings (world p).
Proof.
  intros Hd Hkey Hsep Hrest Hcount.
  set (rest := String c0 (body +:+ String q EmptyString)) in *.
  assert (Hbuf : directive +:+ " " +:+ key +:+ "~" +:+ rest +:+ LFs
                 = directive +:+ String " " ((key +:+ String "~" rest) +:+ LFs)).
  { rewrite append_assoc_s. reflexivity. }
  rewrite Hbuf. clear Hbuf.
  assert (Htok : is_token directive = true)
    by (destruct Hd as [->|[->| ->]]; reflexivity).
  assert (Hdir : directive_of directive = DBind)
    by (destruct Hd as [->|[->| ->]]; reflexivity).
  assert (Hhash : starts_with "#" directive = false)
    by (destruct Hd as [->|[->| ->]]; reflexivity).
  assert (Hlen : 4 <= strlen directive)
    by (destruct Hd as [->|[->| ->]]; unfold strlen; simpl; lia).
  pose proof (is_token_first key Hkey) as (k0 & kr & Ek & Hk0 & _).
  assert (Hline : free_of LF (key +:+ String "~" rest) = true).
  { unfold free_of. rewrite all_chars_app.
    fold (free_of LF key). rewrite (token_free_of_LF _ Hkey).
    change (String "~" rest) with ("~" +:+ rest). rewrite all_chars_app.
    fold (free_of LF rest). now rewrite Hrest. }
  assert (Hbody : no_nul body = true).
  { apply free_of_no_nul in Hrest. unfold rest, no_nul in Hrest.
    change (all_chars ?f (String c0 ?s)) with (f c0 && all_chars f s) in Hrest.
    rewrite all_chars_app in Hrest.
    now apply andb_true_iff in Hrest as [_ [H _]%andb_true_iff]. }
  unfold parseLine.
  replace (starts_with "#" _) with false
    by (destruct directive; [discriminate | exact (eq_sym Hhash)]).
  replace (strlen _ <? 4) with false
    by (symmetry; apply Z.ltb_ge; rewrite strlen_app;
        pose proof (strlen_nonneg (String " " ((key +:+ String "~" rest) +:+ LFs))); lia).
  cbn [orb].
  destruct (sscanf_s_s_first directive ((key +:+ String "~" rest) +:+ LFs)
              (opt p) (val p) Htok) as [v1 ->].
  cbn [mbind option_bind]. rewrite Hdir. cbn beta iota.
  rewrite (sscanf_s_line_rest directive (key +:+ String "~" rest) _ _ Htok).
  2: { rewrite Ek, append_cons. cbn [skip_space]. now rewrite Hk0. }
  2: { rewrite Ek, append_cons. discriminate. }
  2: exact Hline.
  cbn [mbind option_bind].
  unfold rest at 1. rewrite strtok2_key_rest; [|rewrite Ek; discriminate|exact Hsep].
  replace (drop_last (String c0 (body +:+ String q EmptyString)))
    with (String c0 body)
    by (symmetry; apply (drop_last_snoc (String c0 body) q)).
  cbn [next_char]. unfold g_strdup.
  rewrite (cstr_id body Hbody), (cstr_id key (is_token_no_nul _ Hkey)).
  assert (Hguard : (0 <=? keyCount (world p))
                   && (keyCount (world p) <? Z.of_nat (length (keyBindings (world p))))
                   = true) by lia.
  rewrite Hguard.
  assert (Hb : {| internal := strcmp directive "bindi" =? 0; key := key;
                  cmd := if strcmp directive "bindx" =? 0
                         then body +:+ String CR EmptyString else body |}
               = stored_binding directive key body)
    by (destruct Hd as [->|[->| ->]]; reflexivity).
  eexists. split; [reflexivity|]. cbn [world]. rewrite Hb.
  split; [|split; [|split]].
  - unfold user_bindings at 1. unfold printLog.
    destruct (debugMessages _); cbn; apply user_bindings_add; exact Hcount.
  - unfold printLog. destruct (debugMessages _); reflexivity.
  - unfold printLog. destruct (debugMessages _); reflexivity.
  - unfold printLog. destruct (debugMessages _); reflexivity.
Qed.

(** The example configuration gives the commands eset and s, not reset
    and ls. *)
Lemma C1_counterexample :
  user_bindings <$> loaded spec_config
  = Some [ {| internal := true; key := "q"; cmd := "eset" |};
           {| internal := false; key := "t"; cmd := String "s" (String CR EmptyString) |} ].
Proof. vm_compute. reflexivity. Qed.

(** The theorem on the line [bindi q~], reset between double quotes. *)
Lemma C1_binding_line_witness :
  let p := {| world := startup kermit_h None false; opt := None; val := None |} in
  exists p',
    parseLine ("bindi" +:+ " " +:+ "q" +:+ "~"
               +:+ String DQUOTE ("reset" +:+ String DQUOTE EmptyString) +:+ LFs) p
    = Some p'
    /\ user_bindings (world p')
       = (user_bindings (world p) ++ [stored_binding "bindi" "q" "reset"])%list
    /\ keyCount (world p') = keyCount (world p) + 1
    /\ defaultKeyBindings (world p')
       = invalidateDefaultBinding (stored_binding "bindi" "q" "reset")
           (defaultKeyBindings (world p))
    /\ settings (world p') = settings (world p).
Proof.
  apply (C1_binding_line "bindi" "q" "reset" DQUOTE DQUOTE).
  - right. right. reflexivity.
  - reflexivity.
  - reflexivity.
  - reflexivity.
  - vm_compute. split; [discriminate | reflexivity].
Defined.

(** *** What a line can do to the bindings *)

Lemma no_nul_app s t : no_nul (s +:+ t) = no_nul s && no_nul t.
Proof. apply all_chars_app. Qed.

(** Case analysis of a run of [parseLine] that returned. *)
Ltac parse_cases H :=
  repeat match type of H with
    | None = Some _ => discriminate H
    | Some _ = Some _ => injection H as <-
    | (?o ≫= _) = Some _ =>
        let E := fresh "E" in
        destruct o eqn:E; cbn [mbind option_bind] in H
    | (let (_, _) := ?x in _) = Some _ =>
        let E := fresh "E" in destruct x eqn:E
    | (match ?x with _ => _ end) = Some _ =>
        let E := fresh "E" in destruct x eqn:E
    | (if ?x then _ else _) = Some _ =>
        let E := fresh "E" in destruct x eqn:E
    end.

(** A line leaves the binding tables alone or adds one binding, which
    [invalidateDefaultBinding] is called on. *)
Lemma parseLine_keys buf p p' :
  parseLine buf p = Some p' ->
  (keyCount (world p') = keyCount (world p)
   /\ keyBindings (world p') = keyBindings (world p)
   /\ defaultKeyBindings (world p') = defaultKeyBindings (world p))
  \/ (exists b,
        0 <= keyCount (world p) < Z.of_nat (length (keyBindings (world p)))
        /\ keyCount (world p') = keyCount (world p) + 1
        /\ keyBindings (world p')
           = <[Z.to_nat (keyCount (world p)) := b]> (keyBindings (world p))
        /\ defaultKeyBindings (world p')
           = invalidateDefaultBinding b (defaultKeyBindings (world p))
        /\ no_nul (cmd b) = true).
Proof.
  unfold parseLine, parseColor, with_settings.
  intros H. parse_cases H;
    try (left; repeat split; reflexivity).
  all: right; eexists; unfold printLog; cbn [world];
    (split; [lia|]);
    (split; [destruct (debugMessages _); reflexivity|]);
    (split; [destruct (debugMessages _); reflexivity|]);
    (split; [destruct (debugMessages _); reflexivity|]); cbn [cmd];
    unfold g_strdup; destruct (strcmp _ _ =? 0);
    rewrite ?no_nul_app, ?cstr_no_nul; reflexivity.
Qed.

(** *** The loop over the lines of the file *)

Lemma read_line_rest k stream :
  (String.length (snd (read_line k stream)) <= String.length stream)%nat.
Proof.
  revert stream. induction k as [|k IH]; intros [|c r]; cbn [read_line]; try (simpl; lia).
  destruct (Ascii.eqb c LF); [simpl; lia|].
  specialize (IH r). destruct (read_line k r) as [t u]. simpl in *. lia.
Qed.

Lemma fgets_shorter n stream buf rest :
  2 <= n -> fgets n stream = Some (buf, rest) ->
  (String.length rest < String.length stream)%nat.
Proof.
  intros Hn. unfold fgets. destruct stream as [|c r]; [discriminate|].
  destruct (Z.to_nat (n - 1)) as [|k] eqn:E; [lia|]. cbn [read_line].
  destruct (Ascii.eqb c LF); [intros [= _ <-]; simpl; lia|].
  pose proof (read_line_rest k r) as H. destruct (read_line k r) as [t u].
  intros [= _ <-]. simpl in *. lia.
Qed.

(** With a buffer of two characters or more every turn of the loop reads
    at least one character of the file: the fuel that [parseSettings]
    gives, the length of the file, is never used up. *)
Lemma parseLoop_fuel (hdr : Header) (f1 f2 : nat) (stream : string) (p : Parser) :
  2 <= TERM_CONFIG_LENGTH hdr ->
  (String.length stream <= f1)%nat -> (String.length stream <= f2)%nat ->
  parseLoop hdr f1 stream p = parseLoop hdr f2 stream p.
Proof.
  intros Hn. revert f2 stream p.
  induction f1 as [|f1 IH]; intros f2 stream p H1 H2.
  - destruct stream; [|simpl in H1; lia]. destruct f2; reflexivity.
  - destruct f2 as [|f2].
    + destruct stream; [reflexivity | simpl in H2; lia].
    + cbn [parseLoop].
      destruct (fgets _ stream) as [[buf rest]|] eqn:E; [|reflexivity].
      apply (fgets_shorter _ _ _ _ Hn) in E.
      destruct (parseLine buf p) as [p1|]; [|reflexivity].
      cbn [mbind option_bind]. apply IH; lia.
Qed.

Lemma read_line_app k l rest :
  free_of LF l = true -> (String.length l < k)%nat ->
  read_line k (l +:+ String LF rest) = (l +:+ LFs, rest).
Proof.
  revert k. induction l as [|c l IH]; intros k Hl Hk.
  - destruct k; [simpl in Hk; lia|]. reflexivity.
  - destruct k as [|k]; [simpl in Hk; lia|].
    rewrite !append_cons. cbn [read_line].
    change (free_of LF (String c l))
      with (negb (Ascii.eqb c LF) && negb (is_nul c) && free_of LF l) in Hl.
    apply andb_true_iff in Hl as [[Hc _]%andb_true_iff Hl].
    apply negb_true_iff in Hc. rewrite Hc.
    rewrite (IH k Hl) by (simpl in Hk; lia). reflexivity.
Qed.

(** A line that fits the buffer is read whole, with its line feed. *)
Lemma fgets_line n l rest :
  free_of LF l = true -> strlen l + 1 < n ->
  fgets n (l +:+ String LF rest) = Some (l +:+ LFs, rest).
Proof.
  intros Hl Hn. unfold fgets.
  rewrite (read_line_app _ l rest Hl) by (unfold strlen in Hn; lia).
  assert (Hnul : no_nul (l +:+ LFs) = true).
  { rewrite no_nul_app. now rewrite (free_of_no_nul _ _ Hl). }
  rewrite (cstr_id _ Hnul).
  destruct l; reflexivity.
Qed.

(** The loop on a file that starts with such a line: the line is parsed
    and the loop goes on with the rest. *)
Lemma parseLoop_line (hdr : Header) fuel l rest p :
  free_of LF l = true -> strlen l + 1 < TERM_CONFIG_LENGTH hdr ->
  parseLoop hdr (S fuel) (l +:+ String LF rest) p
  = (p ← parseLine (l +:+ LFs) p; parseLoop hdr fuel rest p).
Proof.
  intros Hl Hn. cbn [parseLoop]. now rewrite (fgets_line _ _ _ Hl Hn).
Qed.

(** A file of lines that fit the buffer is parsed line by line. *)
Lemma parseLoop_lines (hdr : Header) (ls : list string) (fuel : nat) (p : Parser) :
  Forall (fun l => free_of LF l = true /\ strlen l + 1 < TERM_CONFIG_LENGTH hdr) ls ->
  (String.length (lines ls) <= fuel)%nat ->
  parseLoop hdr fuel (lines ls) p = parseLines ls p.
Proof.
  intros Hls. revert fuel p. induction Hls as [|l ls [Hl Hn] _ IH]; intros fuel p Hf.
  - destruct fuel; reflexivity.
  - cbn [lines parseLines] in *.
    change (l +:+ LFs +:+ lines ls) with (l +:+ String LF (lines ls)) in *.
    assert (Hlen : String.length (l +:+ String LF (lines ls))
                   = S (String.length l + String.length (lines ls))).
    { pose proof (strlen_app l (String LF (lines ls))) as H. unfold strlen in H.
      cbn [String.length] in H. lia. }
    destruct fuel as [|fuel]; [lia|].
    rewrite (parseLoop_line hdr fuel l (lines ls) p Hl Hn).
    destruct (parseLine _ p) as [p1|]; [|reflexivity].
    cbn [mbind option_bind]. apply IH. lia.
Qed.

(** [parseSettings] on such a file. *)
Lemma parseSettings_lines (hdr : Header) (env : Env) (w : World) (ls : list string) :
  Forall (fun l => free_of LF l = true /\ strlen l + 1 < TERM_CONFIG_LENGTH hdr) ls ->
  fopen env (config_path hdr env w) = Some (lines ls) ->
  parseSettings hdr env w
  = (p ← parseLines ls
           {| world := set_keyCount 0
                         (match configFileName w with
                          | Some _ => set_defaultConfigFile false w
                          | None => set_configFileName (Some (config_path hdr env w)) w
                          end);
              opt := None; val := None |};
     Some (world p)).
Proof.
  intros Hls Hfile. unfold parseSettings, config_path in *.
  destruct (configFileName w) as [name|] eqn:En;
    cbn [configFileName set_defaultConfigFile set_configFileName];
    rewrite ?En; cbn [mbind option_bind]; rewrite Hfile;
    now rewrite (parseLoop_lines hdr ls _ _ Hls (Nat.le_refl _)).
Qed.

(** *** The invalidated flags along a pass *)

Lemma same_action_eq d b :
  no_nul (cmd (bind d)) = true -> no_nul (cmd b) = true ->
  same_action d b = true
  <-> cmd b = cmd (bind d) /\ internal b = internal (bind d).
Proof.
  intros Hd Hb. unfold same_action.
  rewrite andb_true_iff, Z.eqb_eq, (strcmp_eq _ _ Hd Hb), Bool.eqb_true_iff.
  intuition congruence.
Qed.

Lemma keys_inv_step defs0 buf p p' :
  Forall (fun d => no_nul (cmd (bind d)) = true) defs0 ->
  keys_inv defs0 (world p) ->
  parseLine buf p = Some p' ->
  keys_inv defs0 (world p').
Proof.
  intros Hdefs [Hnul Hinv] Hline.
  destruct (parseLine_keys _ _ _ Hline)
    as [(Hc & Hk & Hd) | (b & Hrange & Hc & Hk & Hd & Hb)].
  - unfold keys_inv, user_bindings in *. now rewrite Hc, Hk, Hd.
  - assert (Hu : user_bindings (world p') = (user_bindings (world p) ++ [b])%list).
    { unfold user_bindings at 1. rewrite Hc, Hk. now apply user_bindings_add. }
    unfold keys_inv. rewrite Hu, Hd. split.
    + apply Forall_app. split; [exact Hnul | now constructor].
    + unfold invalidateDefaultBinding. apply Forall2_fmap_r.
      apply Forall2_same_length_lookup_2; [now apply Forall2_length in Hinv|].
      intros i d0 d Hi0 Hi.
      destruct (Forall2_lookup_lr _ _ _ _ _ _ Hinv Hi0 Hi) as (Hbind & Hiff).
      assert (Hd0 : no_nul (cmd (bind d0)) = true).
      { rewrite Forall_forall in Hdefs. apply Hdefs.
        eapply list_elem_of_lookup_2, Hi0. }
      assert (Hsame : same_action d b = true
                      <-> cmd b = cmd (bind d0) /\ internal b = internal (bind d0)).
      { rewrite <- Hbind in *. now apply same_action_eq. }
      unfold invalidated_by, compose. cbn beta.
      destruct (same_action d b) eqn:E; cbn [bind invalid]; (split; [exact Hbind|]).
      * split; [intros _|reflexivity]. right. exists b.
        split; [apply elem_of_app; right; now apply list_elem_of_singleton|].
        now apply Hsame.
      * rewrite Hiff. split.
        -- intros [?|(b' & ? & ?)]; [now left|]. right. exists b'.
           split; [apply elem_of_app; now left | assumption].
        -- intros [?|(b' & [?|Hin]%elem_of_app & ?)]; [now left| |].
           ++ right. now exists b'.
           ++ apply list_elem_of_singleton in Hin. subst b'.
              destruct Hsame as [_ Hsame]. specialize (Hsame ltac:(assumption)).
              discriminate.
Qed.

Lemma keys_inv_loop hdr defs0 fuel stream p p' :
  Forall (fun d => no_nul (cmd (bind d)) = true) defs0 ->
  keys_inv defs0 (world p) ->
  parseLoop hdr fuel stream p = Some p' ->
  keys_inv defs0 (world p').
Proof.
  intros Hdefs. revert stream p.
  induction fuel as [|fuel IH]; intros stream p Hinv; cbn [parseLoop].
  - destruct (fgets _ _) as [[buf rest]|]; [discriminate|].
    now intros [= <-].
  - destruct (fgets _ _) as [[buf rest]|]; [|now intros [= <-]].
    destruct (parseLine buf p) as [p1|] eqn:E; cbn [mbind option_bind];
      [|discriminate].
    apply IH. eapply keys_inv_step; eassumption.
Qed.

(** C2, as the code has it: no pass clears a flag.  After a pass that
    found its file, an entry of the built-in table is invalidated exactly
    when it was invalidated before the pass or a binding of the newly
    loaded list has its command text and its internal flag. *)
Theorem C2_invalidated_after_pass (hdr : Header) (env : Env) (w w' : World)
    (configFile : string) :
  map bind (defaultKeyBindings w) = map bind defaultKeyBindings0 ->
  fopen env (config_path hdr env w) = Some configFile ->
  parseSettings hdr env w = Some w' ->
  Forall2 (invalidated_by (user_bindings w'))
    (defaultKeyBindings w) (defaultKeyBindings w').
Proof.
  intros Htable Hfile. unfold parseSettings.
  set (w1 := match configFileName w with
             | Some _ => set_defaultConfigFile false w
             | None => _
             end).
  assert (Hname : configFileName w1 = Some (config_path hdr env w))
    by (unfold w1, config_path; destruct (configFileName w) eqn:E;
        [cbn; exact E | reflexivity]).
  assert (Hdefs1 : defaultKeyBindings w1 = defaultKeyBindings w)
    by (unfold w1; destruct (configFileName w); reflexivity).
  rewrite Hname. cbn [mbind option_bind]. rewrite Hfile.
  destruct (parseLoop _ _ _ _) as [p|] eqn:Hloop; cbn [mbind option_bind];
    [|discriminate].
  intros [= <-].
  eapply (keys_inv_loop hdr (defaultKeyBindings w)) in Hloop.
  - exact (proj2 Hloop).
  - apply Forall_forall. intros d Hd.
    assert (Hin : In (bind d) (map bind defaultKeyBindings0))
      by (rewrite <- Htable; now apply in_map, list_elem_of_In).
    apply list_elem_of_In in Hin. revert Hin. generalize (bind d).
    apply Forall_forall. repeat constructor.
  - cbn [world]. split; [constructor|].
    change (defaultKeyBindings (set_keyCount 0 w1)) with (defaultKeyBindings w1).
    rewrite Hdefs1. apply Forall2_same_length_lookup_2; [reflexivity|].
    intros i d d' Hd Hd'. rewrite Hd in Hd'. injection Hd' as <-.
    split; [reflexivity|]. split; [now left|].
    intros [?|(b & Hb & _)]; [assumption|]. now apply elem_of_nil in Hb.
Qed.

(** A first load with a binding of the action exit invalidates the
    default binding of q.  After a reload from a file without bindings
    the list of user bindings is empty and the flag is still set. *)
Lemma C2_counterexample :
  (w1 ← loaded (lines ["bindi x~" +:+ quoted "exit"]);
   '(_, w2) ← termAction kermit_h (with_config (lines ["tab top"])) term0
                "reload-config" w1;
   Some (user_bindings w1, filter (fun d => invalid d = true) (defaultKeyBindings w1),
         user_bindings w2, filter (fun d => invalid d = true) (defaultKeyBindings w2)))
  = Some ([ {| internal := true; key := "x"; cmd := "exit" |} ],
          [ {| bind := {| internal := true; key := "q"; cmd := "exit" |};
               invalid := true |} ],
          [],
          [ {| bind := {| internal := true; key := "q"; cmd := "exit" |};
               invalid := true |} ]).
Proof. vm_compute. reflexivity. Qed.

(** The theorem on the first load of that file. *)
Lemma C2_invalidated_after_pass_witness :
  let w := startup kermit_h None false in
  let configFile := lines ["bindi x~" +:+ quoted "exit"] in
  exists w',
    parseSettings kermit_h (with_config configFile) w = Some w'
    /\ Forall2 (invalidated_by (user_bindings w'))
         (defaultKeyBindings w) (defaultKeyBindings w').
Proof.
  intros w configFile.
  destruct (parseSettings kermit_h (with_config configFile) w) as [w'|] eqn:E;
    [|vm_compute in E; discriminate].
  exists w'. split; [reflexivity|].
  apply (C2_invalidated_after_pass kermit_h (with_config configFile) w w' configFile);
    [reflexivity | reflexivity | exact E].
Defined.

(** ** Part 8: the palette *)

Lemma paletteColor_documented (n : nat) (old : GdkRGBA) :
  (n < 256)%nat -> paletteColor (Z.of_nat n) old = documented_color (Z.of_nat n).
Proof.
  intros Hn.
  do 256 (destruct n as [|n]; [vm_compute; reflexivity|]).
  lia.
Qed.

(** The loop of [setTermColors] from index [i], [n] turns: it regenerates
    the [n] entries from [i] on and leaves the others. *)
Lemma setTermColors_loop_spec (n i : nat) (p : list GdkRGBA) :
  (i + n <= 256)%nat -> (i + n <= length p)%nat ->
  exists p',
    setTermColors_loop n (Z.of_nat i) p = Some p'
    /\ length p' = length p
    /\ (forall k, (k < i)%nat \/ (i + n <= k)%nat -> p' !! k = p !! k)
    /\ (forall k, (i <= k < i + n)%nat ->
                  p' !! k = Some (documented_color (Z.of_nat k))).
Proof.
  revert i p. induction n as [|n IH]; intros i p H256 Hlen.
  - exists p. cbn [setTermColors_loop]. repeat split; auto. intros k Hk. lia.
  - cbn [setTermColors_loop].
    destruct (Z.leb_spec 0 (Z.of_nat i)) as [_|?]; [|lia].
    rewrite Nat2Z.id.
    destruct (lookup_lt_is_Some_2 p i ltac:(lia)) as [old Hold].
    rewrite Hold. cbn [mbind option_bind].
    replace (Z.of_nat i + 1) with (Z.of_nat (S i)) by lia.
    destruct (IH (S i) (<[i := paletteColor (Z.of_nat i) old]> p))
      as (p' & Hrun & Hl & Hout & Hin);
      [lia | rewrite length_insert; lia |].
    exists p'. split; [exact Hrun|]. rewrite length_insert in Hl.
    split; [exact Hl|]. split.
    + intros k Hk. rewrite Hout by lia. apply list_lookup_insert_ne. lia.
    + intros k Hk. destruct (decide (k = i)) as [->|Hne].
      * rewrite Hout by lia. rewrite list_lookup_insert_eq by lia.
        f_equal. apply paletteColor_documented. lia.
      * apply Hin. lia.
Qed.

(** [setTermColors] on a palette of 256 entries: the entries below
    [colorCount] stay and the others are regenerated. *)
Lemma setTermColors_spec (t : Terminal) (w : World) :
  0 <= colorCount w -> length (termPalette w) = 256%nat ->
  exists w',
    setTermColors t w = Some w'
    /\ w' = set_termPalette (termPalette w') w
    /\ length (termPalette w') = 256%nat
    /\ (forall i, 0 <= i < colorCount w ->
                  termPalette w' !! Z.to_nat i = termPalette w !! Z.to_nat i)
    /\ (forall i, colorCount w <= i < 256 ->
                  termPalette w' !! Z.to_nat i = Some (documented_color i)).
Proof.
  intros Hc Hlen. unfold setTermColors.
  destruct (Z.le_gt_cases (colorCount w) 256) as [Hle|Hgt].
  - destruct (setTermColors_loop_spec (Z.to_nat (256 - colorCount w))
                (Z.to_nat (colorCount w)) (termPalette w))
      as (p' & Hrun & Hl & Hout & Hin); [lia | lia |].
    rewrite Z2Nat.id in Hrun by lia. rewrite Hrun. cbn [mbind option_bind].
    eexists. split; [reflexivity|]. cbn [termPalette set_termPalette].
    split; [reflexivity|]. split; [lia|]. split.
    + intros i Hi. apply Hout. lia.
    + intros i Hi. rewrite Hin by lia. now rewrite Z2Nat.id by lia.
  - replace (Z.to_nat (256 - colorCount w)) with O by lia.
    cbn [setTermColors_loop mbind option_bind option_ret].
    eexists. split; [reflexivity|]. cbn [termPalette set_termPalette].
    split; [reflexivity|]. split; [exact Hlen|]. split; [reflexivity|].
    intros i Hi. lia.
Qed.

(** C4, as the code has it: every entry from the override count on is
    the documented colour of its index, where the bright bit adds 0x3fff
    to all three channels, set by the colour bits or not; with no override
    the whole palette is these 256 colours, whatever it held before. *)
Theorem C4_generated_palette (t : Terminal) (w : World) :
  0 <= colorCount w -> length (termPalette w) = 256%nat ->
  exists w',
    setTermColors t w = Some w'
    /\ (forall i, colorCount w <= i < 256 ->
                  termPalette w' !! Z.to_nat i = Some (documented_color i))
    /\ (colorCount w = 0 ->
        termPalette w' = map (fun k => documented_color (Z.of_nat k)) (seq 0 256)).
Proof.
  intros Hc Hlen.
  destruct (setTermColors_spec t w Hc Hlen) as (w' & Hrun & _ & Hl & _ & Hgen).
  exists w'. split; [exact Hrun|]. split; [exact Hgen|].
  intros H0. apply list_eq_same_length with 256%nat;
    [now rewrite length_map, length_seq | exact Hl |].
  intros k x y Hk Hx Hy.
  specialize (Hgen (Z.of_nat k) ltac:(lia)). rewrite Nat2Z.id, Hx in Hgen.
  change (map ?f ?l) with (f <$> l) in Hy.
  rewrite list_lookup_fmap, lookup_seq_lt in Hy by lia.
  cbn in Hy. congruence.
Qed.

(** Index 8, bright black: every channel is 0x3fff over 65535, not 0. *)
Lemma C4_counterexample :
  (w ← setTermColors term0 (startup kermit_h None false); termPalette w !! 8%nat)
  = Some {| red := {| num := 0x3fff; den := 65535 |};
            green := {| num := 0x3fff; den := 65535 |};
            blue := {| num := 0x3fff; den := 65535 |};
            alpha := zero |}.
Proof. vm_compute. reflexivity. Qed.

(** The theorem on the palette at the start. *)
Lemma C4_generated_palette_witness :
  let w := startup kermit_h None false in
  exists w',
    setTermColors term0 w = Some w'
    /\ (forall i, colorCount w <= i < 256 ->
                  termPalette w' !! Z.to_nat i = Some (documented_color i))
    /\ (colorCount w = 0 ->
        termPalette w' = map (fun k => documented_color (Z.of_nat k)) (seq 0 256)).
Proof.
  apply (C4_generated_palette term0 (startup kermit_h None false));
    [vm_compute; discriminate | reflexivity].
Defined.

(** *** The [colorN] lines *)

Lemma parseColor_again value :
  parseColor (snd (parseColor value)) = parseColor value.
Proof.
  destruct value as [|c rest]; [reflexivity|].
  destruct c as [[] [] [] [] [] [] [] []]; reflexivity.
Qed.

Lemma is_digit_facts a :
  is_digit a = true ->
  isspace a = false /\ is_nul a = false /\ Ascii.eqb a "r" = false.
Proof.
  unfold is_digit, isspace, is_nul. intros H. split; [|split].
  - lia.
  - destruct (Ascii.eqb_spec a NUL) as [->|]; [vm_compute in H; discriminate | reflexivity].
  - destruct (Ascii.eqb_spec a "r") as [->|]; [vm_compute in H; discriminate | reflexivity].
Qed.

Lemma append_nil_l s : EmptyString +:+ s = s.
Proof. reflexivity. Qed.

Lemma color_option d :
  one_or_two_digits d = true ->
  is_token ("color" +:+ d) = true
  /\ directive_of ("color" +:+ d) = DColor
  /\ strrchr ("color" +:+ d) "r" = Some (String "r" d).
Proof.
  destruct d as [|a [|b [|? ?]]]; try discriminate; cbn [one_or_two_digits].
  - intros (Ha1 & Ha2 & Ha3)%is_digit_facts. split; [|split].
    + unfold is_token. rewrite all_chars_app. cbn [all_chars].
      now rewrite Ha1, Ha2.
    + reflexivity.
    + rewrite !append_cons, append_nil_l. cbn [strrchr]. now rewrite Ha3.
  - intros [(Ha1 & Ha2 & Ha3)%is_digit_facts
            (Hb1 & Hb2 & Hb3)%is_digit_facts]%andb_true_iff. split; [|split].
    + unfold is_token. rewrite all_chars_app. cbn [all_chars].
      now rewrite Ha1, Ha2, Hb1, Hb2.
    + reflexivity.
    + rewrite !append_cons, append_nil_l. cbn [strrchr]. now rewrite Ha3, Hb3.
Qed.

Lemma atoi_decimal d :
  one_or_two_digits d = true -> atoi d = decimal d /\ 0 <= decimal d < 100.
Proof.
  destruct d as [|a [|b [|? ?]]]; try discriminate; cbn [one_or_two_digits].
  - intros Ha.
    destruct a as [[] [] [] [] [] [] [] []];
      try (vm_compute in Ha; discriminate Ha); vm_compute; intuition congruence.
  - intros [Ha Hb]%andb_true_iff.
    destruct a as [[] [] [] [] [] [] [] []];
      try (vm_compute in Ha; discriminate Ha);
      destruct b as [[] [] [] [] [] [] [] []];
      try (vm_compute in Hb; discriminate Hb); vm_compute; intuition congruence.
Qed.

(** C3, as the code has it.  A line [colorN value], N of one or two
    digits, stores its colour at index N and adds one to the override
    count, whether index N was set before or not.  [setTermColors] then
    leaves the entries below the override count as they are and
    regenerates all the others: a configured colour is kept when its index
    is below the count, and only then. *)
Theorem C3_override_count (d v : string) (p : Parser) (t : Terminal) (w : World) :
  one_or_two_digits d = true ->
  is_token v = true ->
  length (termPalette (world p)) = 256%nat ->
  colorCount (world p) < INT_MAX ->
  0 <= colorCount w ->
  length (termPalette w) = 256%nat ->
  (exists p',
      parseLine ("color" +:+ d +:+ " " +:+ v +:+ LFs) p = Some p'
      /\ colorCount (world p') = colorCount (world p) + 1
      /\ termPalette (world p')
         = <[Z.to_nat (decimal d) := configured_color v]> (termPalette (world p)))
  /\ (exists w',
        setTermColors t w = Some w'
        /\ colorCount w' = colorCount w
        /\ (forall i, 0 <= i < colorCount w ->
                      termPalette w' !! Z.to_nat i = termPalette w !! Z.to_nat i)
        /\ (forall i, colorCount w <= i < 256 ->
                      termPalette w' !! Z.to_nat i = Some (documented_color i))).
Proof.
  intros Hd Hv Hpal Hmax Hc Hlen. split.
  - destruct (color_option d Hd) as (Htok & Hdir & Hr).
    destruct (atoi_decimal d Hd) as (Hatoi & Hi). rewrite <- Hatoi in *.
    assert (Hbuf : "color" +:+ d +:+ " " +:+ v +:+ LFs
                   = ("color" +:+ d) +:+ " " +:+ v +:+ LFs)
      by (now rewrite append_assoc_s).
    rewrite Hbuf. unfold parseLine.
    replace (starts_with "#" _) with false by reflexivity.
    replace (strlen _ <? 4) with false
      by (symmetry; apply Z.ltb_ge; rewrite strlen_app, strlen_app;
          pose proof (strlen_nonneg d);
          pose proof (strlen_nonneg (" " +:+ v +:+ LFs));
          change (strlen "color") with 5; lia).
    cbn [orb]. rewrite (sscanf_s_s_words _ v _ _ Htok Hv).
    cbn [mbind option_bind]. rewrite Hdir. cbn beta iota. rewrite Hr.
    cbn [mbind option_bind next_char].
    destruct (parseColor v) as [c1 v1] eqn:E1.
    assert (E2 : parseColor v1 = (c1, v1))
      by (pose proof (parseColor_again v) as H; now rewrite E1 in H).
    rewrite !E2.
    replace ((0 <=? atoi d) && (atoi d <? Z.of_nat (length (termPalette (world p))))
             && (colorCount (world p) <? INT_MAX)) with true by lia.
    eexists. split; [reflexivity|]. cbn [world].
    split; [reflexivity|]. unfold configured_color. now rewrite E1.
  - destruct (setTermColors_spec t w Hc Hlen) as (w' & Hrun & Hw' & _ & Hkeep & Hgen).
    exists w'. split; [exact Hrun|]. split; [now rewrite Hw'|]. now split.
Qed.

(** With [color5] and [color6] the override count is 2: the
    regeneration overwrites the colour configured at index 5, and it
    leaves index 1, which no line configured, as it was. *)
Lemma C3_counterexample :
  (w ← loaded (lines ["color5 #ff0000"; "color6 #00ff00"]);
   w' ← setTermColors term0 w;
   Some (colorCount w, termPalette w !! 5%nat,
         termPalette w' !! 5%nat, termPalette w' !! 1%nat))
  = Some (2,
          Some {| red := {| num := 255; den := 255 |};
                  green := {| num := 0; den := 255 |};
                  blue := {| num := 0; den := 255 |}; alpha := zero |},
          Some {| red := {| num := 0xc000; den := 65535 |};
                  green := {| num := 0; den := 65535 |};
                  blue := {| num := 0xc000; den := 65535 |}; alpha := zero |},
          Some null_color).
Proof. vm_compute. reflexivity. Qed.

(** The theorem on the line [color5 #ff0000] at the start. *)
Lemma C3_override_count_witness :
  let p := {| world := startup kermit_h None false; opt := None; val := None |} in
  let w := startup kermit_h None false in
  (exists p',
      parseLine ("color" +:+ "5" +:+ " " +:+ "#ff0000" +:+ LFs) p = Some p'
      /\ colorCount (world p') = colorCount (world p) + 1
      /\ termPalette (world p')
         = <[Z.to_nat (decimal "5") := configured_color "#ff0000"]>
             (termPalette (world p)))
  /\ (exists w',
        setTermColors term0 w = Some w'
        /\ colorCount w' = colorCount w
        /\ (forall i, 0 <= i < colorCount w ->
                      termPalette w' !! Z.to_nat i = termPalette w !! Z.to_nat i)
        /\ (forall i, colorCount w <= i < 256 ->
                      termPalette w' !! Z.to_nat i = Some (documented_color i))).
Proof.
  apply (C3_override_count "5" "#ff0000").
  - reflexivity.
  - reflexivity.
  - reflexivity.
  - reflexivity.
  - vm_compute. discriminate.
  - reflexivity.
Defined.

(** ** Part 9: the events *)

(** *** A missing configuration file *)

(** C8, as the code has it: a pass that finds no file returns, and it
    leaves the settings, the bindings, the invalidated flags and the
    palette as they were: the built-in ones at the first load, those of
    the earlier load at a reload.  The diagnostic is written when debug
    messages are on. *)
Theorem C8_missing_file (hdr : Header) (env : Env) (w : World) :
  fopen env (config_path hdr env w) = None ->
  exists w',
    parseSettings hdr env w = Some w'
    /\ settings w' = settings w
    /\ keyCount w' = keyCount w
    /\ keyBindings w' = keyBindings w
    /\ defaultKeyBindings w' = defaultKeyBindings w
    /\ colorCount w' = colorCount w
    /\ termPalette w' = termPalette w
    /\ stderr w'
       = (stderr w ++ if debugMessages w
                      then [LogConfigNotFound (config_path hdr env w)] else [])%list
    /\ (forall config debug,
           w = startup hdr config debug ->
           settings w' = defaults hdr /\ user_bindings w' = []).
Proof.
  intros Hfile. unfold parseSettings, config_path in *.
  destruct (configFileName w) as [name|] eqn:E;
    cbn [configFileName set_defaultConfigFile set_configFileName];
    rewrite ?E; cbn [mbind option_bind]; rewrite Hfile; unfold printLog;
    cbn [debugMessages set_defaultConfigFile set_configFileName];
    destruct (debugMessages w) eqn:Ed;
    (eexists; split; [reflexivity|]); cbn; rewrite ?app_nil_r;
    do 7 (split; [reflexivity|]); intros config debug ->; split; reflexivity.
Qed.

(** A load sets the action key to shift and adds a binding; after a
    reload that finds no file both are still there, where the built-in
    action key is alt. *)
Lemma C8_counterexample :
  (w1 ← loaded (lines ["key shift"; "bindx t~" +:+ quoted "ls"]);
   '(_, w2) ← termAction kermit_h no_config term0 "reload-config" w1;
   Some (actionKey (settings w2), user_bindings w2))
  = Some (GDK_SHIFT_MASK,
          [ {| internal := false; key := "t";
               cmd := String "l" (String "s" (String CR EmptyString)) |} ])
  /\ actionKey (defaults kermit_h) = GDK_MOD1_MASK.
Proof. split; vm_compute; reflexivity. Qed.

(** The theorem on the first load, without a file. *)
Lemma C8_missing_file_witness :
  let w := startup kermit_h None true in
  exists w',
    parseSettings kermit_h no_config w = Some w'
    /\ settings w' = settings w
    /\ keyCount w' = keyCount w
    /\ keyBindings w' = keyBindings w
    /\ defaultKeyBindings w' = defaultKeyBindings w
    /\ colorCount w' = colorCount w
    /\ termPalette w' = termPalette w
    /\ stderr w'
       = (stderr w ++ if debugMessages w
                      then [LogConfigNotFound (config_path kermit_h no_config w)]
                      else [])%list
    /\ (forall config debug,
           w = startup kermit_h config debug ->
           settings w' = defaults kermit_h /\ user_bindings w' = []).
Proof.
  exact (C8_missing_file kermit_h no_config (startup kermit_h None true) eq_refl).
Defined.

(** *** Key presses *)

(** C10: under the armed modifiers a key whose name [atoi] reads as a
    number other than 0 selects the tab of that number less one, whatever
    the two binding tables hold; no binding fires, no call leaves the
    program, and nothing but the current page and [keyState] changes. *)
Theorem C10_numeric_key (hdr : Header) (env : Env) (t : Terminal)
    (event : GdkEventKey) (w : World)
    (ds : list DefaultBindings) (bs : list Bindings) (n : Z) :
  armed w event ->
  atoi (keyval_name event) <> 0 ->
  let tables w := set_defaultKeyBindings ds (set_keyBindings bs (set_keyCount n w)) in
  termOnKeyPress hdr env t event (tables w)
  = Some (true, tables (select_tab (atoi (keyval_name event) - 1) (keyed event w))).
Proof.
  intros Harmed Hnum tables. unfold termOnKeyPress.
  change (keyState (set_keyState ?k _)) with k.
  change (actionKey (settings (set_keyState _ (tables w))))
    with (actionKey (settings w)).
  apply Z.eqb_eq in Harmed. rewrite Harmed.
  apply Z.eqb_neq in Hnum. rewrite Hnum. reflexivity.
Qed.

(** The theorem on the key 3, both tables binding it to exit. *)
Lemma C10_numeric_key_witness :
  let w := startup kermit_h None false in
  let event := ctrl_alt "3" in
  let tables w :=
    set_defaultKeyBindings [default_binding "3" "exit"]
      (set_keyBindings [ {| internal := true; key := "3"; cmd := "exit" |} ]
         (set_keyCount 1 w)) in
  termOnKeyPress kermit_h no_config term0 event (tables w)
  = Some (true, tables (select_tab (atoi (keyval_name event) - 1) (keyed event w))).
Proof.
  apply (C10_numeric_key kermit_h no_config term0 (ctrl_alt "3")
           (startup kermit_h None false)).
  - reflexivity.
  - vm_compute. discriminate.
Defined.

(** *** The order of key resolution, from its description *)

Lemma find_first_such {A} (f : A -> bool) (P : A -> Prop) (l : list A) :
  (forall x, f x = true <-> P x) ->
  match find f l with
  | Some x => first_such P l x
  | None => Forall (fun y => ~ P y) l
  end.
Proof.
  intros Hf. induction l as [|y l IH]; cbn [find]; [constructor|].
  destruct (f y) eqn:E.
  - exists [], l. split; [reflexivity|]. split; [now apply Hf | constructor].
  - assert (Hy : ~ P y) by (rewrite <- Hf; congruence).
    destruct (find f l) as [x|].
    + destruct IH as (l1 & l2 & -> & Hx & Hl1).
      exists (y :: l1), l2. split; [reflexivity|]. split; [exact Hx|].
      now constructor.
    + now constructor.
Qed.

Lemma first_such_find {A} (f : A -> bool) (P : A -> Prop) (l : list A) x :
  (forall x, f x = true <-> P x) -> first_such P l x -> find f l = Some x.
Proof.
  intros Hf (l1 & l2 & -> & Hx & Hl1).
  induction Hl1 as [|y l1 Hy _ IH]; cbn [find app].
  - apply Hf in Hx. now rewrite Hx.
  - destruct (f y) eqn:E; [|exact IH]. apply Hf in E. contradiction.
Qed.

Lemma none_find {A} (f : A -> bool) (P : A -> Prop) (l : list A) :
  (forall x, f x = true <-> P x) -> Forall (fun y => ~ P y) l -> find f l = None.
Proof.
  intros Hf Hl. induction Hl as [|y l Hy _ IH]; cbn [find]; [reflexivity|].
  destruct (f y) eqn:E; [|exact IH]. apply Hf in E. contradiction.
Qed.

Lemma default_fires_iff name d :
  default_fires name d = true <-> key_matches name (bind d) /\ invalid d = false.
Proof.
  unfold default_fires, key_matches.
  rewrite andb_true_iff, Z.eqb_eq, negb_true_iff. reflexivity.
Qed.

Lemma user_fires_iff name b : user_fires name b = true <-> key_matches name b.
Proof. unfold user_fires, key_matches. apply Z.eqb_eq. Qed.

Lemma no_default_fires name (l : list DefaultBindings) :
  Forall (fun d => ~ (key_matches name (bind d) /\ invalid d = false)) l
  <-> Forall (fun d => key_matches name (bind d) -> invalid d = true) l.
Proof.
  apply Forall_iff. intros d. destruct (invalid d); intuition congruence.
Qed.

(** C5: under the armed modifiers the key resolves in the described
    order, and [termOnKeyPress] does what the resolution says: every event
    has a resolution, and whatever the key resolves to is performed. *)
Theorem C5_resolution_order (hdr : Header) (env : Env) (t : Terminal)
    (event : GdkEventKey) (w : World) :
  armed w event ->
  (exists r, resolves (keyed event w) (keyval_name event) r)
  /\ (forall r,
         resolves (keyed event w) (keyval_name event) r ->
         termOnKeyPress hdr env t event w = perform hdr env t r (keyed event w)).
Proof.
  intros Harmed. apply Z.eqb_eq in Harmed.
  set (name := keyval_name event). set (w1 := keyed event w).
  pose proof (find_first_such (default_fires name) _ (defaultKeyBindings w1)
                (default_fires_iff name)) as Hd.
  pose proof (find_first_such (user_fires name) _ (user_bindings w1)
                (user_fires_iff name)) as Hu.
  split.
  - destruct (Z.eq_dec (atoi name) 0) as [H0|H0].
    + destruct (find (default_fires name) (defaultKeyBindings w1)) as [d|].
      * exists (Fire (bind d)). now apply resolves_default.
      * apply no_default_fires in Hd.
        destruct (find (user_fires name) (user_bindings w1)) as [b|].
        -- exists (Fire b). now apply resolves_user.
        -- exists PassThrough. now apply resolves_none.
    + exists (SelectTab (atoi name - 1)). now apply resolves_tab.
  - intros r Hr. unfold termOnKeyPress. fold (keyed event w). fold w1. fold name.
    change (keyState w1 =? Z.lor (actionKey (settings w1)) GDK_CONTROL_MASK)
      with (Z.land (state event)
              (Z.lor (Z.lor GDK_CONTROL_MASK GDK_SHIFT_MASK) GDK_MOD1_MASK)
            =? Z.lor (actionKey (settings w)) GDK_CONTROL_MASK).
    rewrite Harmed. fold (user_bindings w1).
    destruct Hr as [Hn | d H0 Hfirst | b H0 Hnone Hfirst | H0 Hnone Hnone'].
    + apply Z.eqb_neq in Hn. rewrite Hn. reflexivity.
    + rewrite H0. cbn [Z.eqb negb].
      now rewrite (first_such_find _ _ _ _ (default_fires_iff name) Hfirst).
    + rewrite H0. cbn [Z.eqb negb]. apply no_default_fires in Hnone.
      rewrite (none_find _ _ _ (default_fires_iff name) Hnone).
      now rewrite (first_such_find _ _ _ _ (user_fires_iff name) Hfirst).
    + rewrite H0. cbn [Z.eqb negb]. apply no_default_fires in Hnone.
      rewrite (none_find _ _ _ (default_fires_iff name) Hnone).
      now rewrite (none_find _ _ _ (user_fires_iff name) Hnone').
Qed.

(** The theorem on the key q at the start. *)
Lemma C5_resolution_order_witness :
  let w := startup kermit_h None false in
  let event := ctrl_alt "q" in
  (exists r, resolves (keyed event w) (keyval_name event) r)
  /\ (forall r,
         resolves (keyed event w) (keyval_name event) r ->
         termOnKeyPress kermit_h no_config term0 event w
         = perform kermit_h no_config term0 r (keyed event w)).
Proof.
  exact (C5_resolution_order kermit_h no_config term0 (ctrl_alt "q")
           (startup kermit_h None false) eq_refl).
Defined.

(** *** Closing tabs *)

Lemma remove_current_pages (w : World) :
  current_valid w ->
  pages (notebook (remove_current w))
  = delete (Z.to_nat (current (notebook w))) (pages (notebook w))
  /\ n_pages (remove_current w) = n_pages w - 1
  /\ (2 <= n_pages w -> current_valid (remove_current w)).
Proof.
  unfold current_valid, n_pages, remove_current, with_notebook.
  cbn [notebook set_notebook].
  unfold gtk_notebook_remove_page, gtk_notebook_get_current_page,
    gtk_notebook_get_n_pages.
  set (nb := notebook w). intros Hcur.
  destruct (Z.ltb_spec (current nb) 0) as [?|_]; [lia|].
  replace ((0 <=? current nb) && (current nb <? Z.of_nat (length (pages nb))))
    with true by lia.
  cbn [pages current].
  assert (Hlen : length (delete (Z.to_nat (current nb)) (pages nb))
                 = (length (pages nb) - 1)%nat).
  { rewrite length_delete; [reflexivity|]. apply lookup_lt_is_Some_2. lia. }
  split; [reflexivity|]. rewrite Hlen. split; [lia|]. intros H2.
  destruct (Z.eqb_spec (Z.of_nat (length (pages nb))) 1) as [?|_]; [lia|].
  rewrite Z.ltb_irrefl, Z.eqb_refl. lia.
Qed.

Lemma close_tab_run (hdr : Header) (env : Env) (t : Terminal) (w : World) :
  termAction hdr env t "close-tab" w
  = Some (true, if n_pages w =? 1 then w else remove_current (set_closeTab true w)).
Proof.
  unfold termAction.
  change (strcmp "close-tab" "close-tab" =? 0) with true.
  cbn [strcmp code N_of_ascii Z.of_N Z.eqb Pos.eqb Z.sub Z.add Z.opp Z.pos_sub
       Pos.mul Pos.add N.add N.mul Z.succ_double Z.pred_double Z.double
       Pos.pred_double Pos.succ].
  fold (n_pages w). now destruct (n_pages w =? 1).
Qed.

(** *** One tab at least *)

Lemma parseLine_notebook buf p p' :
  parseLine buf p = Some p' -> notebook (world p') = notebook (world p).
Proof.
  unfold parseLine, parseColor, with_settings, printLog.
  intros H. parse_cases H; cbn; try reflexivity.
  all: destruct (debugMessages _); reflexivity.
Qed.

Lemma parseLoop_notebook hdr fuel stream p p' :
  parseLoop hdr fuel stream p = Some p' -> notebook (world p') = notebook (world p).
Proof.
  revert stream p. induction fuel as [|fuel IH]; intros stream p; cbn [parseLoop];
    destruct (fgets _ _) as [[buf rest]|]; try discriminate;
    try (now intros [= <-]).
  destruct (parseLine buf p) as [p1|] eqn:E; cbn [mbind option_bind]; [|discriminate].
  intros H. rewrite (IH _ _ H). now apply parseLine_notebook in E.
Qed.

Lemma parseSettings_notebook hdr env w w' :
  parseSettings hdr env w = Some w' -> notebook w' = notebook w.
Proof.
  unfold parseSettings, printLog.
  destruct (configFileName w) as [name|] eqn:En;
    cbn [configFileName set_defaultConfigFile set_configFileName];
    rewrite ?En; cbn [mbind option_bind];
    (destruct (fopen env _) as [configFile|];
     [ destruct (parseLoop _ _ _ _) as [p|] eqn:E; cbn [mbind option_bind];
       [|discriminate]; intros [= <-];
       apply parseLoop_notebook in E; exact E
     | intros [= <-]; cbn [debugMessages];
       destruct (debugMessages w); reflexivity ]).
Qed.

Lemma configureTerm_notebook t w w' :
  configureTerm t w = Some w' -> notebook w' = notebook w.
Proof.
  unfold configureTerm, setTermColors, setTermFont.
  destruct (setTermColors_loop _ _ _) as [p|]; cbn [mbind option_bind];
    [|discriminate].
  now intros [= <-].
Qed.

Lemma printLog_notebook m w : notebook (printLog m w) = notebook w.
Proof. unfold printLog. now destruct (debugMessages w). Qed.

Lemma getTerm_notebook w t w' :
  getTerm w = Some (t, w') -> notebook w' = notebook w.
Proof.
  unfold getTerm. intros H.
  destruct (configureTerm _ _) as [w1|] eqn:E; cbn [mbind option_bind] in H;
    [|discriminate].
  injection H as _ <-. apply configureTerm_notebook in E.
  unfold call. cbn [notebook set_calls]. rewrite printLog_notebook.
  destruct (termCommand _); rewrite ?printLog_notebook; exact E.
Qed.

Lemma current_valid_notebook w w' :
  notebook w' = notebook w -> current_valid w -> current_valid w'.
Proof. unfold current_valid, n_pages. now intros ->. Qed.

Lemma current_valid_set_page w n :
  current_valid w -> current_valid (select_tab n w).
Proof.
  unfold current_valid, n_pages, select_tab, with_notebook,
    gtk_notebook_set_current_page, gtk_notebook_get_n_pages.
  cbn [notebook set_notebook]. intros H.
  destruct (Z.ltb_spec n 0); cbn [pages current]; [lia|].
  destruct (Z.ltb_spec n (Z.of_nat (length (pages (notebook w)))));
    cbn [pages current]; lia.
Qed.

(** Whatever the action, a session that has a current page has one
    afterwards: at least one tab is left. *)
Lemma termAction_keeps_a_tab hdr env t action w b w' :
  current_valid w ->
  termAction hdr env t action w = Some (b, w') ->
  current_valid w'.
Proof.
  intros Hv. unfold termAction, termClone, call, gtk_main_quit, setTermFont.
  intros H.
  repeat match type of H with
    | (if ?c then _ else _) = Some _ => destruct c eqn:?
    end.
  all: try (injection H as <- <-; exact Hv).
  - (* reload-config *)
    destruct (parseSettings _ _ _) as [w1|] eqn:E1; cbn [mbind option_bind] in H;
      [|discriminate].
    destruct (configureTerm _ _) as [w2|] eqn:E2; cbn [mbind option_bind] in H;
      [|discriminate].
    injection H as <- <-.
    apply parseSettings_notebook in E1. apply configureTerm_notebook in E2.
    eapply current_valid_notebook; [|exact Hv]. rewrite E2, E1.
    destruct (defaultConfigFile _); cbn [notebook set_configFileName];
      apply printLog_notebook.
  - (* default-config *)
    destruct (configureTerm _ _) as [w2|] eqn:E2; cbn [mbind option_bind] in H;
      [|discriminate].
    injection H as <- <-. apply configureTerm_notebook in E2.
    eapply current_valid_notebook; [|exact Hv]. rewrite E2.
    cbn [notebook set_colorCount]. apply printLog_notebook.
  - (* new-tab *)
    destruct (getTerm w) as [[t1 w1]|] eqn:E1; cbn [mbind option_bind] in H;
      [|discriminate].
    injection H as <- <-. apply getTerm_notebook in E1.
    unfold current_valid, n_pages, with_notebook, gtk_notebook_append_page,
      gtk_notebook_get_n_pages in *.
    cbn [notebook set_notebook pages current]. rewrite E1, length_app.
    cbn [length]. lia.
  - (* next-tab *)
    injection H as <- <-.
    unfold current_valid, n_pages, with_notebook, gtk_notebook_next_page,
      gtk_notebook_get_n_pages in *.
    cbn [notebook set_notebook].
    destruct (_ <? _) eqn:E; cbn [pages current]; lia.
  - (* prev-tab *)
    injection H as <- <-.
    unfold current_valid, n_pages, with_notebook, gtk_notebook_prev_page,
      gtk_notebook_get_n_pages in *.
    cbn [notebook set_notebook].
    destruct (_ <? _) eqn:E; cbn [pages current]; lia.
  - (* close-tab, two tabs or more *)
    injection H as <- <-.
    apply (remove_current_pages (set_closeTab true w) Hv).
    change (n_pages (set_closeTab true w)) with (n_pages w).
    unfold current_valid in Hv. fold (n_pages w) in *. lia.
Qed.

Lemma termOnChildExit_keeps_a_tab t status w :
  current_valid w -> current_valid (snd (termOnChildExit t status w)).
Proof.
  intros Hv. unfold termOnChildExit. fold (n_pages w). fold (remove_current w).
  destruct (closeTab w); cbn [negb]; [exact Hv|].
  destruct (Z.eqb_spec (n_pages w) 1) as [?|Hn]; cbn [negb snd]; [exact Hv|].
  apply (remove_current_pages w Hv). unfold current_valid in Hv. lia.
Qed.

Lemma termOnKeyPress_keeps_a_tab hdr env t event w b w' :
  current_valid w ->
  termOnKeyPress hdr env t event w = Some (b, w') ->
  current_valid w'.
Proof.
  intros Hv. unfold termOnKeyPress. fold (keyed event w).
  assert (Hk : current_valid (keyed event w)) by exact Hv.
  set (w1 := keyed event w) in *. clearbody w1.
  assert (Hfire : forall bd w2, fire hdr env t bd w1 = Some w2 -> current_valid w2).
  { intros bd w2. unfold fire. destruct (internal bd).
    - destruct (termAction _ _ _ _ _) as [[b1 w3]|] eqn:E; [|discriminate].
      intros [= <-]. eapply termAction_keeps_a_tab; eassumption.
    - intros [= <-]. exact Hk. }
  intros H.
  repeat match type of H with
    | (if ?c then _ else _) = Some _ => destruct c eqn:?
    | (match ?x with _ => _ end) = Some _ => destruct x eqn:?
    | (?o ≫= _) = Some _ =>
        let E := fresh "E" in destruct o eqn:E; cbn [mbind option_bind] in H
    end; try discriminate; injection H as <- <-;
    eauto using current_valid_set_page.
Qed.

(** C7: with one tab [close-tab] changes nothing; with two tabs or more
    it sets the latch and removes one tab, the current one, and leaves
    the rest of the state alone, so that at least one tab is left; and
    whatever action, key press or child-exit comes, at least one tab is
    left after it. *)
Theorem C7_close_tab (hdr : Header) (env : Env) (t : Terminal) (w : World) :
  current_valid w ->
  (n_pages w = 1 -> termAction hdr env t "close-tab" w = Some (true, w))
  /\ (2 <= n_pages w ->
      termAction hdr env t "close-tab" w
      = Some (true, remove_current (set_closeTab true w))
      /\ closeTab (remove_current (set_closeTab true w)) = true
      /\ pages (notebook (remove_current (set_closeTab true w)))
         = delete (Z.to_nat (current (notebook w))) (pages (notebook w))
      /\ n_pages (remove_current (set_closeTab true w)) = n_pages w - 1
      /\ 1 <= n_pages (remove_current (set_closeTab true w))
      /\ current_valid (remove_current (set_closeTab true w))
      /\ set_notebook (notebook w) (remove_current (set_closeTab true w))
         = set_closeTab true w)
  /\ (forall action event status b w',
         termAction hdr env t action w = Some (b, w')
         \/ termOnKeyPress hdr env t event w = Some (b, w')
         \/ termOnChildExit t status w = (b, w') ->
         1 <= n_pages w').
Proof.
  intros Hcur. rewrite close_tab_run. split; [|split].
  3: { intros action event status b w' [H|[H|H]];
       [ apply termAction_keeps_a_tab in H
       | apply termOnKeyPress_keeps_a_tab in H
       | pose proof (termOnChildExit_keeps_a_tab t status w Hcur) as H';
         rewrite H in H'; clear H; rename H' into H ];
       try exact Hcur; unfold current_valid in H; cbn [snd] in H; lia. }
  - intros H1. now rewrite H1.
  - intros H2. destruct (Z.eqb_spec (n_pages w) 1) as [?|_]; [lia|].
    destruct (remove_current_pages (set_closeTab true w) Hcur) as (Hp & Hn & Hv).
    change (n_pages (set_closeTab true w)) with (n_pages w) in *.
    split; [reflexivity|]. split; [reflexivity|]. split; [exact Hp|].
    split; [exact Hn|]. split; [lia|]. split; [now apply Hv | reflexivity].
Qed.

(** The theorem on the session with two tabs. *)
Lemma C7_close_tab_witness :
  let w := two_tab_world in
  (n_pages w = 1 -> termAction kermit_h no_config term1 "close-tab" w = Some (true, w))
  /\ (2 <= n_pages w ->
      termAction kermit_h no_config term1 "close-tab" w
      = Some (true, remove_current (set_closeTab true w))
      /\ closeTab (remove_current (set_closeTab true w)) = true
      /\ pages (notebook (remove_current (set_closeTab true w)))
         = delete (Z.to_nat (current (notebook w))) (pages (notebook w))
      /\ n_pages (remove_current (set_closeTab true w)) = n_pages w - 1
      /\ 1 <= n_pages (remove_current (set_closeTab true w))
      /\ current_valid (remove_current (set_closeTab true w))
      /\ set_notebook (notebook w) (remove_current (set_closeTab true w))
         = set_closeTab true w)
  /\ (forall action event status b w',
         termAction kermit_h no_config term1 action w = Some (b, w')
         \/ termOnKeyPress kermit_h no_config term1 event w = Some (b, w')
         \/ termOnChildExit term1 status w = (b, w') ->
         1 <= n_pages w').
Proof.
  apply (C7_close_tab kermit_h no_config term1 two_tab_world).
  vm_compute. split; [discriminate | reflexivity].
Defined.

(** C6, as the code has it: with the latch set a child-exit clears the
    latch and does nothing else; with the latch clear it ends the session
    when there is one tab, and with two tabs or more it removes the current
    page of the notebook, which need not be the page of the terminal whose
    child exited.  A close-tab followed by the child-exit that it raises
    removes one tab in all. *)
Theorem C6_child_exit (hdr : Header) (env : Env) (t t' : Terminal) (status : Z)
    (w : World) :
  current_valid w ->
  (closeTab w = true -> termOnChildExit t status w = (true, set_closeTab false w))
  /\ (closeTab w = false -> n_pages w = 1 ->
      termOnChildExit t status w = (true, gtk_main_quit w))
  /\ (closeTab w = false -> 2 <= n_pages w ->
      termOnChildExit t status w = (true, remove_current w)
      /\ pages (notebook (remove_current w))
         = delete (Z.to_nat (current (notebook w))) (pages (notebook w))
      /\ running (remove_current w) = running w)
  /\ (closeTab w = false -> 2 <= n_pages w ->
      exists w1,
        termAction hdr env t' "close-tab" w = Some (true, w1)
        /\ termOnChildExit t status w1 = (true, set_closeTab false w1)
        /\ pages (notebook (set_closeTab false w1))
           = delete (Z.to_nat (current (notebook w))) (pages (notebook w))
        /\ running (set_closeTab false w1) = running w).
Proof.
  intros Hcur. unfold termOnChildExit. fold (n_pages w). fold (remove_current w).
  split; [|split; [|split]].
  - now intros ->.
  - intros -> ->. reflexivity.
  - intros -> H2. destruct (Z.eqb_spec (n_pages w) 1) as [?|_]; [lia|].
    split; [reflexivity|]. split; [|reflexivity].
    now apply remove_current_pages.
  - intros Hlatch H2. rewrite close_tab_run.
    destruct (Z.eqb_spec (n_pages w) 1) as [?|_]; [lia|].
    eexists. split; [reflexivity|]. split; [reflexivity|].
    split; [|reflexivity].
    now apply (remove_current_pages (set_closeTab true w)).
Qed.

(** Two tabs, the second one current: when the child of the first
    terminal exits, the second tab is removed and the first one stays. *)
Lemma C6_counterexample :
  (w ← two_tabs;
   Some (pages (notebook w), current (notebook w), closeTab w,
         pages (notebook (snd (termOnChildExit term0 0 w)))))
  = Some ([term0; term1], 1, false, [term0]).
Proof. vm_compute. reflexivity. Qed.

(** The theorem on the session with two tabs. *)
Lemma C6_child_exit_witness :
  let w := two_tab_world in
  (closeTab w = true -> termOnChildExit term0 0 w = (true, set_closeTab false w))
  /\ (closeTab w = false -> n_pages w = 1 ->
      termOnChildExit term0 0 w = (true, gtk_main_quit w))
  /\ (closeTab w = false -> 2 <= n_pages w ->
      termOnChildExit term0 0 w = (true, remove_current w)
      /\ pages (notebook (remove_current w))
         = delete (Z.to_nat (current (notebook w))) (pages (notebook w))
      /\ running (remove_current w) = running w)
  /\ (closeTab w = false -> 2 <= n_pages w ->
      exists w1,
        termAction kermit_h no_config term1 "close-tab" w = Some (true, w1)
        /\ termOnChildExit term0 0 w1 = (true, set_closeTab false w1)
        /\ pages (notebook (set_closeTab false w1))
           = delete (Z.to_nat (current (notebook w))) (pages (notebook w))
        /\ running (set_closeTab false w1) = running w).
Proof.
  apply (C6_child_exit kermit_h no_config term0 term1 0 two_tab_world).
  vm_compute. split; [discriminate | reflexivity].
Defined.

(** ** Part 10: more of the parser *)

(** *** parseColor *)

Lemma is_hex_facts c :
  is_hex c = true ->
  isspace c = false /\ 0 <= hex_digit c < 16
  /\ (code c =? 120) = false /\ (code c =? 88) = false
  /\ digit_val c = Some (hex_digit c).
Proof.
  unfold is_hex, hex_digit, digit_val, isspace.
  destruct ((48 <=? code c) && (code c <=? 57)) eqn:E1;
    [|destruct ((97 <=? code c) && (code c <=? 122)) eqn:E2;
      [|destruct ((65 <=? code c) && (code c <=? 90)) eqn:E3]];
    intros H; try discriminate H; repeat split; try lia.
Qed.

Lemma hex_value_bound s :
  all_chars is_hex s = true -> 0 <= hex_value s < 16 ^ Z.of_nat (String.length s).
Proof.
  induction s as [|c s IH]; cbn [all_chars hex_value String.length]; [lia|].
  intros [Hc Hs]%andb_true_iff. specialize (IH Hs).
  destruct (is_hex_facts c Hc) as (_ & Hd & _).
  rewrite Nat2Z.inj_succ, Z.pow_succ_r by lia. nia.
Qed.

Lemma digits_hex s acc :
  all_chars is_hex s = true ->
  digits 16 s acc = acc * 16 ^ Z.of_nat (String.length s) + hex_value s.
Proof.
  revert acc. induction s as [|c s IH]; intros acc;
    cbn [all_chars digits hex_value String.length]; [intros _; lia|].
  intros [Hc Hs]%andb_true_iff.
  destruct (is_hex_facts c Hc) as (_ & Hd & _ & _ & Hv).
  rewrite Hv. replace (hex_digit c <? 16) with true by lia.
  rewrite (IH _ Hs), Nat2Z.inj_succ, Z.pow_succ_r by lia. ring.
Qed.

(** [strtol] in base 16 on hexadecimal digits, with the prefix 0x or
    without it. *)
Lemma strtol_hex s :
  s <> EmptyString -> all_chars is_hex s = true ->
  strtol s 16 = Z.min LONG_MAX (hex_value s)
  /\ strtol ("0x" +:+ s) 16 = Z.min LONG_MAX (hex_value s).
Proof.
  intros Hne Hs. destruct s as [|c r]; [congruence|].
  assert (Hc : is_hex c = true)
    by (cbn [all_chars] in Hs; now apply andb_true_iff in Hs).
  destruct (is_hex_facts c Hc) as (Hsp & _ & Hx1 & Hx2 & _).
  split.
  - unfold strtol. cbn [skip_space]. rewrite Hsp.
    assert (Hsign : (match String c r with
                     | String "-" r' => (true, r')
                     | String "+" r' => (false, r')
                     | _ => (false, String c r)
                     end) = (false, String c r)).
    { clear -Hc. destruct c as [[] [] [] [] [] [] [] []];
        try (vm_compute in Hc; discriminate Hc); reflexivity. }
    rewrite Hsign.
    assert (H0x : skip_0x 16 (String c r) = String c r).
    { unfold skip_0x. destruct r as [|x r']; [now destruct c as [[] [] [] [] [] [] [] []]|].
      assert (Hx : is_hex x = true)
        by (cbn [all_chars] in Hs; apply andb_true_iff in Hs as [_ Hs];
            now apply andb_true_iff in Hs).
      destruct (is_hex_facts x Hx) as (_ & _ & Hy1 & Hy2 & _).
      rewrite Hy1, Hy2. cbn [orb andb]. rewrite andb_false_r. cbn [andb].
      now destruct c as [[] [] [] [] [] [] [] []]. }
    rewrite H0x, (digits_hex _ 0 Hs). reflexivity.
  - unfold strtol. rewrite !append_cons, append_nil_l.
    cbn [skip_space]. change (isspace "0") with false. cbv iota.
    unfold skip_0x.
    change (code "x" =? 120) with true. change (16 =? 16) with true.
    cbn [orb andb]. unfold is_digit_of.
    destruct (is_hex_facts c Hc) as (_ & Hd & _ & _ & Hv).
    rewrite Hv. replace (hex_digit c <? 16) with true by lia.
    rewrite (digits_hex _ 0 Hs). reflexivity.
Qed.

Lemma hex_no_hash (h : string) :
  all_chars is_hex h = true ->
  (match h with String "#" rest => "0x" +:+ rest | _ => h end) = h.
Proof.
  intros Hh. destruct h as [|c r]; [reflexivity|].
  assert (Hc : is_hex c = true)
    by (cbn [all_chars] in Hh; now apply andb_true_iff in Hh).
  clear -Hc. destruct c as [[] [] [] [] [] [] [] []];
    try (vm_compute in Hc; discriminate Hc); reflexivity.
Qed.

(** The number that [parseColor] returns for hexadecimal digits. *)
Lemma parseColor_fst_hex (h : string) :
  h <> EmptyString -> all_chars is_hex h = true -> (String.length h <= 7)%nat ->
  fst (parseColor (String "#" h)) = hex_value h
  /\ fst (parseColor h) = hex_value h.
Proof.
  intros Hne Hh Hlen.
  destruct (strtol_hex h Hne Hh) as (H1 & H2).
  pose proof (hex_value_bound h Hh) as Hb.
  assert (Hp : 16 ^ Z.of_nat (String.length h) <= 16 ^ 7)
    by (apply Z.pow_le_mono_r; lia).
  assert (Hv : to_int (Z.min LONG_MAX (hex_value h)) = hex_value h).
  { unfold to_int, LONG_MAX. rewrite Z.min_r by lia.
    rewrite Z.mod_small by lia. lia. }
  split.
  - unfold parseColor. cbn [fst]. now rewrite H2.
  - unfold parseColor. rewrite (hex_no_hash h Hh). cbn [fst]. now rewrite H1.
Qed.

(** X1: a colour written as one to seven hexadecimal digits, with a
    leading # or without, is read as the number that the digits write;
    with the # the buffer is left with 0x in its place, and without it
    the buffer is left as it is. *)
Theorem parseColor_hex (h : string) :
  h <> EmptyString -> all_chars is_hex h = true -> (String.length h <= 7)%nat ->
  parseColor (String "#" h) = (hex_value h, "0x" +:+ h)
  /\ parseColor h = (hex_value h, h).
Proof.
  intros Hne Hh Hlen.
  destruct (parseColor_fst_hex h Hne Hh Hlen) as (H1 & H2).
  split.
  - rewrite <- H1. reflexivity.
  - rewrite <- H2. unfold parseColor. now rewrite (hex_no_hash h Hh).
Qed.

(** The theorem on the colour ff8800. *)
Lemma parseColor_hex_witness :
  parseColor (String "#" "ff8800") = (hex_value "ff8800", "0x" +:+ "ff8800")
  /\ parseColor "ff8800" = (hex_value "ff8800", "ff8800").
Proof.
  apply (parseColor_hex "ff8800"); [discriminate | reflexivity | simpl; lia].
Defined.

(** The three channels of a colour number: its bytes. *)
Lemma CLR_bytes x :
  CLR_R x = (x / 65536) mod 256
  /\ CLR_G x = (x / 256) mod 256
  /\ CLR_B x = x mod 256.
Proof.
  unfold CLR_R, CLR_G, CLR_B. rewrite !Z.shiftr_land.
  change (Z.shiftr 0xff0000 16) with (Z.ones 8).
  change (Z.shiftr 0x00ff00 8) with (Z.ones 8).
  change (Z.shiftr 0x0000ff 0) with (Z.ones 8).
  rewrite !Z.land_ones, !Z.shiftr_div_pow2 by lia.
  change (2 ^ 16) with 65536. change (2 ^ 8) with 256. change (2 ^ 0) with 1.
  now rewrite Z.div_1_r.
Qed.

(** X2: the colour [#rrggbb], with the # or without it, has the channels
    rr, gg and bb over 255. *)
Theorem configured_color_rrggbb (r1 r2 g1 g2 b1 b2 : ascii) :
  all_chars is_hex
    (String r1 (String r2 (String g1 (String g2 (String b1 (String b2 EmptyString))))))
  = true ->
  let rrggbb :=
    String r1 (String r2 (String g1 (String g2 (String b1 (String b2 EmptyString))))) in
  let c := {| red := CLR_16 (16 * hex_digit r1 + hex_digit r2);
              green := CLR_16 (16 * hex_digit g1 + hex_digit g2);
              blue := CLR_16 (16 * hex_digit b1 + hex_digit b2);
              alpha := zero |} in
  configured_color (String "#" rrggbb) = c /\ configured_color rrggbb = c.
Proof.
  intros Hh rrggbb c.
  destruct (parseColor_fst_hex rrggbb ltac:(discriminate) Hh ltac:(simpl; lia))
    as (H1 & H2).
  assert (Hd : forall x, In x [r1; r2; g1; g2; b1; b2] -> 0 <= hex_digit x < 16).
  { cbn [all_chars] in Hh.
    repeat (apply andb_true_iff in Hh as [?%is_hex_facts Hh]).
    intros x [<-|[<-|[<-|[<-|[<-|[<-|[]]]]]]]; tauto. }
  pose proof (Hd r1 ltac:(simpl; tauto)). pose proof (Hd r2 ltac:(simpl; tauto)).
  pose proof (Hd g1 ltac:(simpl; tauto)). pose proof (Hd g2 ltac:(simpl; tauto)).
  pose proof (Hd b1 ltac:(simpl; tauto)). pose proof (Hd b2 ltac:(simpl; tauto)).
  assert (Hv : hex_value rrggbb
               = (16 * hex_digit r1 + hex_digit r2) * 65536
                 + (16 * hex_digit g1 + hex_digit g2) * 256
                 + (16 * hex_digit b1 + hex_digit b2)).
  { unfold rrggbb. cbn [hex_value String.length]. 
    change (16 ^ Z.of_nat 5) with 1048576. change (16 ^ Z.of_nat 4) with 65536.
    change (16 ^ Z.of_nat 3) with 4096. change (16 ^ Z.of_nat 2) with 256.
    change (16 ^ Z.of_nat 1) with 16. change (16 ^ Z.of_nat 0) with 1. lia. }
  assert (Hc : forall v, v = hex_value rrggbb ->
                 {| red := CLR_16 (CLR_R v); green := CLR_16 (CLR_G v);
                    blue := CLR_16 (CLR_B v); alpha := zero |} = c).
  { intros v ->. destruct (CLR_bytes (hex_value rrggbb)) as (-> & -> & ->).
    rewrite Hv. unfold c. f_equal; f_equal;
      Z.div_mod_to_equations; lia. }
  unfold configured_color. split; apply Hc; assumption.
Qed.

(** The theorem on the colour ff8800: 255, 136 and 0 over 255. *)
Lemma configured_color_rrggbb_witness :
  let c := {| red := CLR_16 255; green := CLR_16 136; blue := CLR_16 0;
              alpha := zero |} in
  configured_color (String "#" "ff8800") = c /\ configured_color "ff8800" = c.
Proof.
  exact (configured_color_rrggbb "f" "f" "8" "8" "0" "0" eq_refl).
Defined.

(** *** Lines of two words *)

Lemma starts_with_app c o r :
  o <> EmptyString -> starts_with c (o +:+ r) = starts_with c o.
Proof. destruct o; [congruence | reflexivity]. Qed.

Lemma is_token_nonempty o : is_token o = true -> o <> EmptyString.
Proof. now destruct o. Qed.

Lemma is_token_strlen o : is_token o = true -> 1 <= strlen o.
Proof. destruct o; [discriminate|]. unfold strlen. cbn [String.length]. lia. Qed.

(** A line of a directive and more is not skipped, unless it is a
    comment. *)
Lemma line_kept o r :
  is_token o = true -> starts_with "#" o = false -> 2 <= strlen r ->
  starts_with "#" (o +:+ String " " r) || (strlen (o +:+ String " " r) <? 4) = false.
Proof.
  intros Ho Hh Hr. rewrite (starts_with_app _ _ _ (is_token_nonempty _ Ho)), Hh.
  cbn [orb]. apply Z.ltb_ge. rewrite strlen_app.
  pose proof (is_token_strlen _ Ho).
  change (String " " r) with (" " +:+ r). rewrite strlen_app.
  change (strlen " ") with 1. lia.
Qed.

Lemma strlen_LFs v : is_token v = true -> 2 <= strlen (v +:+ LFs).
Proof.
  intros Hv. rewrite strlen_app. pose proof (is_token_strlen _ Hv).
  change (strlen LFs) with 1. lia.
Qed.

Lemma space_cons r : " " +:+ r = String " " r.
Proof. reflexivity. Qed.

(** The start of [parseLine] on a line of two words. *)
Ltac two_words Ho Hh Hv :=
  rewrite space_cons; unfold parseLine;
  rewrite (line_kept _ _ Ho Hh (strlen_LFs _ Hv));
  rewrite (sscanf_s_s_words _ _ _ _ Ho Hv);
  cbn [mbind option_bind].

(** X3: the value of [key] selects alt exactly when it is a beginning of
    the word alt (a, al, alt), and shift otherwise. *)
Theorem key_directive (v : string) (p : Parser) :
  is_token v = true ->
  parseLine ("key" +:+ " " +:+ v +:+ LFs) p
  = Some {| world := with_settings
                       (set_actionKey (if String.prefix v "alt"
                                       then GDK_MOD1_MASK else GDK_SHIFT_MASK))
                       (world p);
            opt := Some "key"; val := Some v |}.
Proof.
  intros Hv. two_words (eq_refl : is_token "key" = true)
                       (eq_refl : starts_with "#" "key" = false) Hv.
  change (directive_of "key") with DKey. cbn beta iota.
  now rewrite (strncmp_prefix v "alt" (is_token_no_nul v Hv)).
Qed.

(** The theorem on the value al. *)
Lemma key_directive_witness :
  parseLine ("key" +:+ " " +:+ "al" +:+ LFs) start_parser
  = Some {| world := with_settings (set_actionKey GDK_MOD1_MASK) (world start_parser);
            opt := Some "key"; val := Some "al" |}.
Proof.
  exact (key_directive "al" start_parser eq_refl).
Defined.

(** X4: the value of [cursor_shape] selects the underline when it is a
    beginning of the word underline, else the ibeam when it is a beginning
    of the word ibeam, else the block. *)
Theorem cursor_shape_directive (v : string) (p : Parser) :
  is_token v = true ->
  parseLine ("cursor_shape" +:+ " " +:+ v +:+ LFs) p
  = Some {| world := with_settings
                       (set_termCursorShape
                          (if String.prefix v "underline" then VTE_CURSOR_SHAPE_UNDERLINE
                           else if String.prefix v "ibeam" then VTE_CURSOR_SHAPE_IBEAM
                           else VTE_CURSOR_SHAPE_BLOCK))
                       (world p);
            opt := Some "cursor_shape"; val := Some v |}.
Proof.
  intros Hv. two_words (eq_refl : is_token "cursor_shape" = true)
                       (eq_refl : starts_with "#" "cursor_shape" = false) Hv.
  change (directive_of "cursor_shape") with DCursorShape. cbn beta iota.
  now rewrite (strncmp_prefix v "underline" (is_token_no_nul v Hv)),
    (strncmp_prefix v "ibeam" (is_token_no_nul v Hv)).
Qed.

(** The theorem on the value ibeam. *)
Lemma cursor_shape_directive_witness :
  parseLine ("cursor_shape" +:+ " " +:+ "ibeam" +:+ LFs) start_parser
  = Some {| world := with_settings (set_termCursorShape VTE_CURSOR_SHAPE_IBEAM)
                       (world start_parser);
            opt := Some "cursor_shape"; val := Some "ibeam" |}.
Proof.
  exact (cursor_shape_directive "ibeam" start_parser eq_refl).
Defined.

(** X5: each of the five colour keywords, written in full, sets its own
    global to the colour of its value and nothing else; the buffer [value]
    is left with the text that [parseColor] rewrote. *)
Theorem color_keyword_directive (kw v : string) (set : Z -> Settings -> Settings)
    (p : Parser) :
  In (kw, set) color_keywords ->
  is_token v = true ->
  parseLine (kw +:+ " " +:+ v +:+ LFs) p
  = Some {| world := with_settings (set (fst (parseColor v))) (world p);
            opt := Some kw; val := Some (snd (parseColor v)) |}.
Proof.
  intros Hkw Hv.
  destruct Hkw as [[= <- <-]|[[= <- <-]|[[= <- <-]|[[= <- <-]|[[= <- <-]|[]]]]]].
  all: match goal with
       | |- parseLine (?k +:+ _) _ = _ =>
           two_words (eq_refl : is_token k = true)
                     (eq_refl : starts_with "#" k = false) Hv
       end.
  all: match goal with
       | |- context [directive_of ?k] =>
           let d := eval vm_compute in (directive_of k) in
           change (directive_of k) with d
       end.
  all: cbn beta iota; cbn [mbind option_bind]; now destruct (parseColor v).
Qed.

(** The theorem on the line of the specification's example. *)
Lemma color_keyword_directive_witness :
  parseLine ("foreground" +:+ " " +:+ "#ffffff" +:+ LFs) start_parser
  = Some {| world := with_settings (set_termForeground (fst (parseColor "#ffffff")))
                       (world start_parser);
            opt := Some "foreground"; val := Some (snd (parseColor "#ffffff")) |}.
Proof.
  apply (color_keyword_directive "foreground" "#ffffff" set_termForeground).
  - right. right. left. reflexivity.
  - reflexivity.
Defined.

(** X6: [char] takes its value without its first and its last character,
    the two quotes of the documented form. *)
Theorem char_directive (c0 q : ascii) (body : string) (p : Parser) :
  is_token (String c0 (body +:+ String q EmptyString)) = true ->
  parseLine ("char" +:+ " " +:+ String c0 (body +:+ String q EmptyString) +:+ LFs) p
  = Some {| world := with_settings (set_termWordChars body) (world p);
            opt := Some "char";
            val := Some (String c0 (body +:+ String q EmptyString)) |}.
Proof.
  intros Hv. two_words (eq_refl : is_token "char" = true)
                       (eq_refl : starts_with "#" "char" = false) Hv.
  change (directive_of "char") with DChar. cbn beta iota.
  unfold g_strdup. rewrite (cstr_id _ (is_token_no_nul _ Hv)).
  pose proof (is_token_strlen _ Hv).
  replace (strlen _ =? 0) with false by lia.
  rewrite <- (append_cons c0 body (String q EmptyString)).
  now rewrite (drop_last_snoc (String c0 body) q).
Qed.

(** The theorem on three characters between double quotes. *)
Lemma char_directive_witness :
  parseLine ("char" +:+ " " +:+ String DQUOTE ("-./" +:+ String DQUOTE EmptyString)
             +:+ LFs) start_parser
  = Some {| world := with_settings (set_termWordChars "-./") (world start_parser);
            opt := Some "char";
            val := Some (String DQUOTE ("-./" +:+ String DQUOTE EmptyString)) |}.
Proof.
  exact (char_directive DQUOTE DQUOTE "-./" start_parser eq_refl).
Defined.

(** *** Lines of a word and the rest of the line *)

Lemma strrchr_none c t : free_of c t = true -> strrchr t c = None.
Proof.
  induction t as [|d t IH]; [reflexivity|].
  change (free_of c (String d t))
    with (negb (Ascii.eqb d c) && negb (is_nul d) && free_of c t).
  intros [[Hd _]%andb_true_iff Ht]%andb_true_iff.
  apply negb_true_iff in Hd. cbn [strrchr]. now rewrite (IH Ht), Hd.
Qed.

Lemma strrchr_app s c t :
  free_of c t = true -> strrchr (s +:+ String c t) c = Some (String c t).
Proof.
  intros Ht. induction s as [|d s IH].
  - rewrite append_nil_l. cbn [strrchr].
    now rewrite (strrchr_none _ _ Ht), Ascii.eqb_refl.
  - rewrite append_cons. cbn [strrchr]. now rewrite IH.
Qed.

Lemma cut_last_app s c t :
  free_of c t = true -> cut_last (s +:+ String c t) c = s.
Proof.
  intros Ht. induction s as [|d s IH].
  - rewrite append_nil_l. cbn [cut_last].
    now rewrite (strrchr_none _ _ Ht), Ascii.eqb_refl.
  - rewrite append_cons. cbn [cut_last]. now rewrite (strrchr_app s c t Ht), IH.
Qed.

Lemma span_not_all c s : free_of c s = true -> span_not c s = (s, EmptyString).
Proof.
  induction s as [|d s IH]; [reflexivity|].
  change (free_of c (String d s))
    with (negb (Ascii.eqb d c) && negb (is_nul d) && free_of c s).
  intros [[Hd _]%andb_true_iff Hs]%andb_true_iff.
  apply negb_true_iff in Hd. cbn [span_not]. now rewrite Hd, (IH Hs).
Qed.

Lemma free_of_app c s t : free_of c (s +:+ t) = free_of c s && free_of c t.
Proof. apply all_chars_app. Qed.

Lemma token_free_of_SP t : is_token t = true -> free_of " " t = true.
Proof.
  unfold is_token, free_of. intros [_ H]%andb_true_iff. revert H.
  apply all_chars_impl. intros c [H1 H2]%andb_true_iff. rewrite H2, andb_true_r.
  apply negb_true_iff. apply negb_true_iff in H1.
  destruct (Ascii.eqb_spec c " ") as [->|]; [discriminate | reflexivity].
Qed.

Lemma token_skip_space t : is_token t = true -> skip_space t = t.
Proof.
  intros (c & r & -> & Hc & _)%is_token_first. cbn [skip_space]. now rewrite Hc.
Qed.

Lemma skip_space_app s t :
  s <> EmptyString -> skip_space s = s -> skip_space (s +:+ t) = s +:+ t.
Proof.
  destruct s as [|c s]; [congruence|]. intros _ H. rewrite append_cons.
  cbn [skip_space] in *. destruct (isspace c); [|reflexivity].
  exfalso. assert (Hle : forall u, (String.length (skip_space u) <= String.length u)%nat).
  { induction u as [|d u IH]; simpl; [lia|]. destruct (isspace d); simpl; lia. }
  specialize (Hle s). apply (f_equal String.length) in H. simpl in H. lia.
Qed.

Lemma strlen_rest s : s <> EmptyString -> 2 <= strlen (s +:+ LFs).
Proof.
  intros Hs. rewrite strlen_app. change (strlen LFs) with 1.
  destruct s; [congruence|]. unfold strlen. cbn [String.length]. lia.
Qed.

(** The start of [parseLine] on a directive and the rest of its line,
    for the two branches that read the line again. *)
Ltac word_and_rest Ho Hh Hsp Hne Hlf :=
  rewrite space_cons; unfold parseLine;
  rewrite (line_kept _ _ Ho Hh (strlen_rest _ Hne));
  let v1 := fresh "v" in
  let E := fresh "E" in
  match goal with
  | |- context [sscanf_s_s (?o +:+ String " " ?r) ?a ?b] =>
      destruct (sscanf_s_s_first o r a b Ho) as [v1 E]
  end;
  rewrite E; clear E;
  cbn [mbind option_bind].

(** X7: [font] takes the text after the last space of its value as the
    size and the text before it as the family, which may hold spaces. *)
Theorem font_directive (family size : string) (p : Parser) :
  family <> EmptyString ->
  skip_space family = family ->
  free_of LF family = true ->
  free_of LF size = true ->
  free_of " " size = true ->
  parseLine ("font" +:+ " " +:+ (family +:+ " " +:+ size) +:+ LFs) p
  = Some {| world := with_settings (set_termFont family)
                       (with_settings (set_defaultFontSize (atoi size)) (world p));
            opt := Some "font"; val := Some family |}.
Proof.
  intros Hne Hsp Hfam Hsize Hnosp.
  assert (Hne' : family +:+ " " +:+ size <> EmptyString)
    by (destruct family; [congruence | discriminate]).
  assert (Hlf : free_of LF (family +:+ " " +:+ size) = true)
    by (rewrite free_of_app, Hfam; exact Hsize).
  word_and_rest (eq_refl : is_token "font" = true)
                (eq_refl : starts_with "#" "font" = false) Hsp Hne' Hlf.
  change (directive_of "font") with DFont. cbn beta iota.
  rewrite (sscanf_s_line_rest "font" _ _ _ eq_refl
             (skip_space_app _ _ Hne Hsp) Hne' Hlf).
  cbn [mbind option_bind]. rewrite space_cons.
  rewrite (strrchr_app _ _ _ Hnosp), (cut_last_app _ _ _ Hnosp).
  cbn [next_char]. unfold g_strdup.
  now rewrite (cstr_id _ (free_of_no_nul _ _ Hfam)).
Qed.

(** The theorem on a family of three words. *)
Lemma font_directive_witness :
  parseLine ("font" +:+ " " +:+ ("DejaVu Sans Mono" +:+ " " +:+ "11") +:+ LFs)
    start_parser
  = Some {| world := with_settings (set_termFont "DejaVu Sans Mono")
                       (with_settings (set_defaultFontSize (atoi "11"))
                          (world start_parser));
            opt := Some "font"; val := Some "DejaVu Sans Mono" |}.
Proof.
  apply (font_directive "DejaVu Sans Mono" "11" start_parser);
    [discriminate | reflexivity | reflexivity | reflexivity | reflexivity].
Defined.

(** X8: a [font] line of one word, with no size after a space, changes
    neither the font nor its size. *)
Theorem font_without_size (v : string) (p : Parser) :
  is_token v = true ->
  parseLine ("font" +:+ " " +:+ v +:+ LFs) p
  = Some {| world := world p; opt := Some "font"; val := Some v |}.
Proof.
  intros Hv. pose proof (is_token_nonempty _ Hv) as Hne.
  word_and_rest (eq_refl : is_token "font" = true)
                (eq_refl : starts_with "#" "font" = false)
                (token_skip_space _ Hv) Hne (token_free_of_LF _ Hv).
  change (directive_of "font") with DFont. cbn beta iota.
  rewrite (sscanf_s_line_rest "font" _ _ _ eq_refl
             (token_skip_space _ Hv) Hne (token_free_of_LF _ Hv)).
  cbn [mbind option_bind].
  now rewrite (strrchr_none _ _ (token_free_of_SP _ Hv)).
Qed.

(** The theorem on a family alone. *)
Lemma font_without_size_witness :
  parseLine ("font" +:+ " " +:+ "monospace" +:+ LFs) start_parser
  = Some {| world := world start_parser; opt := Some "font"; val := Some "monospace" |}.
Proof.
  exact (font_without_size "monospace" start_parser eq_refl).
Defined.

(** *** Binding lines *)

Lemma strtok2_key_only sep key :
  key <> EmptyString -> free_of sep key = true ->
  strtok2 sep key = (Some key, None, key)
  /\ strtok2 sep (key +:+ String sep EmptyString) = (Some key, None, key).
Proof.
  intros Hne Hk. unfold strtok2.
  destruct key as [|d key]; [congruence|].
  assert (Hd : Ascii.eqb d sep = false).
  { unfold free_of in Hk. simpl in Hk.
    apply andb_true_iff in Hk as [[Hd _]%andb_true_iff _].
    now apply negb_true_iff in Hd. }
  split.
  - cbn [skip_char]. rewrite Hd. now rewrite (span_not_all _ _ Hk).
  - rewrite append_cons. cbn [skip_char leading]. rewrite Hd.
    rewrite <- append_cons, (span_not_app _ _ _ Hk). reflexivity.
Qed.

(** X9: a binding line stores nothing when its value has no separator, or
    nothing after the separator: the bindings, the invalidated flags and
    all the rest stay as they were. *)
Theorem binding_without_command (directive key tail : string) (p : Parser) :
  directive = "bind" \/ directive = "bindx" \/ directive = "bindi" ->
  tail = EmptyString \/ tail = "~" ->
  is_token key = true ->
  free_of "~" key = true ->
  parseLine (directive +:+ " " +:+ (key +:+ tail) +:+ LFs) p
  = Some {| world := world p; opt := Some directive; val := Some key |}.
Proof.
  intros Hd Ht Hkey Hsep.
  assert (Htok : is_token directive = true)
    by (destruct Hd as [->|[->| ->]]; reflexivity).
  assert (Hdir : directive_of directive = DBind)
    by (destruct Hd as [->|[->| ->]]; reflexivity).
  assert (Hhash : starts_with "#" directive = false)
    by (destruct Hd as [->|[->| ->]]; reflexivity).
  pose proof (is_token_nonempty _ Hkey) as Hne.
  assert (Hne' : key +:+ tail <> EmptyString)
    by (destruct key; [congruence | discriminate]).
  assert (Hlf : free_of LF (key +:+ tail) = true)
    by (rewrite free_of_app, (token_free_of_LF _ Hkey);
        destruct Ht as [->| ->]; reflexivity).
  assert (Hsp : skip_space (key +:+ tail) = key +:+ tail)
    by (apply skip_space_app; [exact Hne | now apply token_skip_space]).
  word_and_rest Htok Hhash Hsp Hne' Hlf.
  rewrite Hdir. cbn beta iota.
  rewrite (sscanf_s_line_rest directive _ _ _ Htok Hsp Hne' Hlf).
  cbn [mbind option_bind].
  destruct (strtok2_key_only "~" key Hne Hsep) as [H1 H2].
  destruct Ht as [->| ->].
  - replace (key +:+ EmptyString) with key
      by (clear; induction key as [|c k IH]; [reflexivity|];
          now rewrite append_cons, <- IH).
    now rewrite H1.
  - now rewrite H2.
Qed.

(** The theorem on a key and the separator alone. *)
Lemma binding_without_command_witness :
  parseLine ("bind" +:+ " " +:+ ("a" +:+ "~") +:+ LFs) start_parser
  = Some {| world := world start_parser; opt := Some "bind"; val := Some "a" |}.
Proof.
  apply (binding_without_command "bind" "a" "~" start_parser).
  - left. reflexivity.
  - right. reflexivity.
  - reflexivity.
  - reflexivity.
Defined.

(** A binding line under any option that the chain takes as [bind]. *)
Lemma binding_line_any (o key body : string) (c0 q : ascii) (p : Parser) :
  is_token o = true ->
  starts_with "#" o = false ->
  directive_of o = DBind ->
  is_token key = true ->
  free_of "~" key = true ->
  free_of LF (String c0 (body +:+ String q EmptyString)) = true ->
  let b := {| internal := strcmp o "bindi" =? 0; key := key;
              cmd := if strcmp o "bindx" =? 0
                     then body +:+ String CR EmptyString else body |} in
  let full := negb ((0 <=? keyCount (world p))
                    && (keyCount (world p) <? Z.of_nat (length (keyBindings (world p))))) in
  match parseLine (o +:+ " " +:+ key +:+ "~"
                   +:+ String c0 (body +:+ String q EmptyString) +:+ LFs) p with
  | Some p' =>
      full = false
      /\ user_bindings (world p') = (user_bindings (world p) ++ [b])%list
      /\ keyCount (world p') = keyCount (world p) + 1
      /\ defaultKeyBindings (world p')
         = invalidateDefaultBinding b (defaultKeyBindings (world p))
      /\ settings (world p') = settings (world p)
  | None => full = true
  end.
Proof.
  intros Htok Hhash Hdir Hkey Hsep Hrest b full.
  set (rest := String c0 (body +:+ String q EmptyString)) in *.
  assert (Hbuf : o +:+ " " +:+ key +:+ "~" +:+ rest +:+ LFs
                 = o +:+ " " +:+ (key +:+ String "~" rest) +:+ LFs).
  { now rewrite (append_assoc_s key). }
  rewrite Hbuf. clear Hbuf.
  pose proof (is_token_nonempty _ Hkey) as Hne.
  assert (Hne' : key +:+ String "~" rest <> EmptyString)
    by (destruct key; [congruence | discriminate]).
  assert (Hlf : free_of LF (key +:+ String "~" rest) = true)
    by (rewrite free_of_app, (token_free_of_LF _ Hkey);
        change (String "~" rest) with ("~" +:+ rest);
        rewrite free_of_app, Hrest; reflexivity).
  assert (Hsp : skip_space (key +:+ String "~" rest) = key +:+ String "~" rest)
    by (apply skip_space_app; [exact Hne | now apply token_skip_space]).
  assert (Hbody : no_nul body = true).
  { apply free_of_no_nul in Hrest. unfold rest, no_nul in Hrest.
    change (all_chars ?f (String c0 ?s)) with (f c0 && all_chars f s) in Hrest.
    rewrite all_chars_app in Hrest.
    now apply andb_true_iff in Hrest as [_ [H _]%andb_true_iff]. }
  word_and_rest Htok Hhash Hsp Hne' Hlf.
  rewrite Hdir. cbn beta iota.
  rewrite (sscanf_s_line_rest o _ _ _ Htok Hsp Hne' Hlf).
  cbn [mbind option_bind].
  unfold rest at 1. rewrite strtok2_key_rest; [|exact Hne|exact Hsep].
  replace (drop_last (String c0 (body +:+ String q EmptyString)))
    with (String c0 body)
    by (symmetry; apply (drop_last_snoc (String c0 body) q)).
  cbn [next_char]. unfold g_strdup.
  rewrite (cstr_id body Hbody), (cstr_id key (is_token_no_nul _ Hkey)).
  fold b. subst full.
  destruct ((0 <=? keyCount (world p))
            && (keyCount (world p) <? Z.of_nat (length (keyBindings (world p)))))
    eqn:Hguard; [|reflexivity].
  assert (Hcount : 0 <= keyCount (world p) < Z.of_nat (length (keyBindings (world p))))
    by lia.
  cbn [world]. split; [reflexivity|]. split; [|split; [|split]].
  - unfold user_bindings at 1. unfold printLog.
    destruct (debugMessages _); cbn; apply user_bindings_add; exact Hcount.
  - unfold printLog. destruct (debugMessages _); reflexivity.
  - unfold printLog. destruct (debugMessages _); reflexivity.
  - unfold printLog. destruct (debugMessages _); reflexivity.
Qed.

(** X10: an option of one character other than l, c and k is taken as
    [bind], the length that is compared being zero: such a line stores a
    binding that feeds its text, as a [bind] line does. *)
Theorem one_letter_option_binds (x : ascii) (key body : string) (c0 q : ascii)
    (p : Parser) :
  is_token (String x EmptyString) = true ->
  ~ In x ["#"; "l"; "c"; "k"]%char ->
  is_token key = true ->
  free_of "~" key = true ->
  free_of LF (String c0 (body +:+ String q EmptyString)) = true ->
  0 <= keyCount (world p) < Z.of_nat (length (keyBindings (world p))) ->
  exists p',
    parseLine (String x EmptyString +:+ " " +:+ key +:+ "~"
               +:+ String c0 (body +:+ String q EmptyString) +:+ LFs) p = Some p'
    /\ user_bindings (world p')
       = (user_bindings (world p)
            ++ [{| internal := false; key := key; cmd := body |}])%list
    /\ keyCount (world p') = keyCount (world p) + 1.
Proof.
  intros Hx Hnot Hkey Hsep Hrest Hcount.
  assert (Hhash : starts_with "#" (String x EmptyString) = false).
  { cbn [starts_with]. destruct (Ascii.eqb_spec x "#") as [->|]; [|reflexivity].
    exfalso. apply Hnot. now left. }
  assert (Hfacts : directive_of (String x EmptyString) = DBind
                   /\ (strcmp (String x EmptyString) "bindi" =? 0) = false
                   /\ (strcmp (String x EmptyString) "bindx" =? 0) = false).
  { clear -Hnot Hx.
    destruct x as [[] [] [] [] [] [] [] []];
      try (repeat split; reflexivity); try discriminate Hx;
      exfalso; apply Hnot; cbn [In]; tauto. }
  destruct Hfacts as (Hdir & Hi & Hxx).
  pose proof (binding_line_any _ key body c0 q p Hx Hhash Hdir Hkey Hsep Hrest) as H.
  cbv zeta in H. rewrite Hi, Hxx in H.
  destruct (parseLine _ p) as [p'|].
  - destruct H as (_ & Hu & Hc & _). now exists p'.
  - exfalso. apply negb_true_iff in H. lia.
Qed.

(** The theorem on the option x. *)
Lemma one_letter_option_binds_witness :
  exists p',
    parseLine (String "x" EmptyString +:+ " " +:+ "a" +:+ "~"
               +:+ String DQUOTE ("ls" +:+ String DQUOTE EmptyString) +:+ LFs)
      start_parser = Some p'
    /\ user_bindings (world p')
       = (user_bindings (world start_parser)
            ++ [{| internal := false; key := "a"; cmd := "ls" |}])%list
    /\ keyCount (world p') = keyCount (world start_parser) + 1.
Proof.
  apply (one_letter_option_binds "x" "a" "ls" DQUOTE DQUOTE start_parser).
  - reflexivity.
  - cbn [In]. intros [H|[H|[H|[H|[]]]]]; discriminate H.
  - reflexivity.
  - reflexivity.
  - reflexivity.
  - vm_compute. split; [discriminate | reflexivity].
Defined.

(** X11: a binding line when every entry of the array is taken writes past
    the end of [keyBindings]: the program has no defined behaviour then. *)
Theorem binding_array_full (directive key body : string) (c0 q : ascii) (p : Parser) :
  directive = "bind" \/ directive = "bindx" \/ directive = "bindi" ->
  is_token key = true ->
  free_of "~" key = true ->
  free_of LF (String c0 (body +:+ String q EmptyString)) = true ->
  Z.of_nat (length (keyBindings (world p))) <= keyCount (world p) ->
  parseLine (directive +:+ " " +:+ key +:+ "~"
             +:+ String c0 (body +:+ String q EmptyString) +:+ LFs) p = None.
Proof.
  intros Hd Hkey Hsep Hrest Hfull.
  assert (Htok : is_token directive = true)
    by (destruct Hd as [->|[->| ->]]; reflexivity).
  assert (Hdir : directive_of directive = DBind)
    by (destruct Hd as [->|[->| ->]]; reflexivity).
  assert (Hhash : starts_with "#" directive = false)
    by (destruct Hd as [->|[->| ->]]; reflexivity).
  pose proof (binding_line_any _ key body c0 q p Htok Hhash Hdir Hkey Hsep Hrest) as H.
  cbv zeta in H.
  destruct (parseLine _ p) as [p'|]; [|reflexivity].
  destruct H as (H & _). apply negb_false_iff in H. lia.
Qed.

(** The theorem on the line after sixty-four binding lines. *)
Lemma binding_array_full_witness :
  parseLine ("bind" +:+ " " +:+ "a" +:+ "~"
             +:+ String DQUOTE ("ls" +:+ String DQUOTE EmptyString) +:+ LFs)
    full_parser = None.
Proof.
  apply (binding_array_full "bind" "a" "ls" DQUOTE DQUOTE full_parser).
  - left. reflexivity.
  - reflexivity.
  - reflexivity.
  - reflexivity.
  - vm_compute. discriminate.
Defined.

(** *** Colour lines *)



(** ** Part 11: what holds all along a session *)

Lemma Forall2_same_refl (l : list DefaultBindings) :
  Forall2 (fun d d' => bind d' = bind d /\ (invalid d = true -> invalid d' = true)) l l.
Proof. induction l; constructor; [split; [reflexivity | trivial] | assumption]. Qed.

Lemma kept_same w w' :
  debugMessages w' = debugMessages w -> termCommand w' = termCommand w ->
  keyBindings w' = keyBindings w -> termPalette w' = termPalette w ->
  defaultKeyBindings w' = defaultKeyBindings w ->
  (debugMessages w = false -> stderr w' = stderr w) ->
  keyCount w' = keyCount w -> colorCount w' = colorCount w ->
  kept w w'.
Proof.
  intros H1 H2 H3 H4 H5 H6 H7 H8. unfold kept.
  rewrite H1, H2, H3, H4, H5, H7, H8.
  do 4 (split; [reflexivity|]). split; [|tauto].
  apply Forall2_same_refl.
Qed.

Ltac kept_frame := apply kept_same; (reflexivity || (intros _; reflexivity)).

Lemma kept_refl w : kept w w.
Proof. kept_frame. Qed.

Lemma kept_trans w1 w2 w3 : kept w1 w2 -> kept w2 w3 -> kept w1 w3.
Proof.
  intros (A1 & A2 & A3 & A4 & A5 & A6 & A7 & A8) (B1 & B2 & B3 & B4 & B5 & B6 & B7 & B8).
  unfold kept. split; [congruence|]. split; [congruence|]. split; [congruence|].
  split; [congruence|]. split; [|split; [|split]].
  - clear -A5 B5. revert B5. generalize (defaultKeyBindings w3).
    induction A5 as [|d1 d2 l1 l2 [Hb Hi] _ IH]; intros l3 B5;
      inversion B5 as [|? d3 ? l3' [Hb' Hi'] Hrest]; subst; constructor.
    + split; [congruence | auto].
    + now apply IH.
  - intros Hd. rewrite B6, A6; congruence.
  - auto.
  - auto.
Qed.

Lemma kept_printLog m w : kept w (printLog m w).
Proof.
  unfold printLog. destruct (debugMessages w) eqn:E; [|apply kept_refl].
  apply kept_same; try reflexivity. congruence.
Qed.

Lemma kept_settings f w : kept w (with_settings f w).
Proof. kept_frame. Qed.

Lemma invalidate_monotone b l :
  Forall2 (fun d d' => bind d' = bind d /\ (invalid d = true -> invalid d' = true))
    l (invalidateDefaultBinding b l).
Proof.
  unfold invalidateDefaultBinding. induction l as [|d l IH]; constructor; [|exact IH].
  destruct (same_action d b); cbn [bind invalid]; auto.
Qed.

Lemma parseLine_kept buf p p' :
  parseLine buf p = Some p' -> kept (world p) (world p').
Proof.
  unfold parseLine, parseColor.
  intros H. parse_cases H; cbn [world];
    try apply kept_refl; try apply kept_settings;
    try (eapply kept_trans; apply kept_settings).
  - unfold kept, printLog.
    destruct (debugMessages (world p)) eqn:Ed;
      do 3 (cbn [debugMessages termCommand keyBindings termPalette defaultKeyBindings
                 stderr keyCount colorCount set_keyBindings set_stderr
                 set_defaultKeyBindings set_keyCount];
            rewrite ?Ed);
      rewrite length_insert;
      (do 4 (split; [reflexivity|])); (split; [apply invalidate_monotone|]);
      (split; [congruence || reflexivity|]); split; lia.
  - unfold kept.
    cbn [debugMessages termCommand keyBindings termPalette defaultKeyBindings
         stderr keyCount colorCount set_termPalette set_colorCount].
    rewrite length_insert.
    do 4 (split; [reflexivity|]). split.
    + apply Forall2_same_refl.
    + split; [reflexivity|]. split; [tauto | lia].
Qed.

Lemma parseLoop_kept hdr fuel stream p p' :
  parseLoop hdr fuel stream p = Some p' -> kept (world p) (world p').
Proof.
  revert stream p. induction fuel as [|fuel IH]; intros stream p; cbn [parseLoop];
    destruct (fgets _ _) as [[buf rest]|]; try discriminate;
    try (intros [= <-]; apply kept_refl).
  destruct (parseLine buf p) as [p1|] eqn:E; cbn [mbind option_bind]; [|discriminate].
  intros H. eapply kept_trans; [eapply parseLine_kept, E | eapply IH, H].
Qed.

Lemma parseSettings_kept hdr env w w' :
  parseSettings hdr env w = Some w' -> kept w w'.
Proof.
  unfold parseSettings.
  set (w1 := match configFileName w with
             | Some _ => set_defaultConfigFile false w
             | None => set_configFileName _ w
             end).
  assert (H1 : kept w w1) by (unfold w1; destruct (configFileName w); kept_frame).
  clearbody w1. destruct (configFileName w1) as [name|]; cbn [mbind option_bind];
    [|discriminate].
  destruct (fopen env name) as [configFile|].
  - destruct (parseLoop _ _ _ _) as [p|] eqn:E; cbn [mbind option_bind];
      [|discriminate].
    intros [= <-]. apply parseLoop_kept in E. cbn [world] in E.
    eapply kept_trans; [exact H1|]. eapply kept_trans; [|exact E].
    destruct H1 as (A1 & A2 & A3 & A4 & A5 & A6 & A7 & A8). unfold kept.
    cbn [debugMessages termCommand keyBindings termPalette defaultKeyBindings
         stderr keyCount colorCount set_keyCount].
    do 4 (split; [reflexivity|]). split.
    + apply Forall2_same_refl.
    + split; [reflexivity|]. split; [lia | tauto].
  - intros [= <-]. eapply kept_trans; [exact H1 | apply kept_printLog].
Qed.

Lemma setTermColors_loop_length n i p p' :
  setTermColors_loop n i p = Some p' -> length p' = length p.
Proof.
  revert i p. induction n as [|n IH]; intros i p; cbn [setTermColors_loop].
  - now intros [= <-].
  - destruct (if 0 <=? i then p !! Z.to_nat i else None) as [old|];
      cbn [mbind option_bind]; [|discriminate].
    intros H. apply IH in H. now rewrite length_insert in H.
Qed.

Lemma configureTerm_kept t w w' : configureTerm t w = Some w' -> kept w w'.
Proof.
  unfold configureTerm, setTermColors, setTermFont.
  destruct (setTermColors_loop _ _ _) as [p|] eqn:E; cbn [mbind option_bind];
    [|discriminate].
  intros [= <-]. apply setTermColors_loop_length in E. unfold kept.
  cbn [debugMessages termCommand keyBindings termPalette defaultKeyBindings
       stderr keyCount colorCount set_termPalette set_currentFontSize].
  do 3 (split; [reflexivity|]). split; [exact E|]. split.
  - apply Forall2_same_refl.
  - split; [reflexivity|]. split; tauto.
Qed.

Lemma getTerm_kept w t w' : getTerm w = Some (t, w') -> kept w w'.
Proof.
  unfold getTerm. intros H.
  destruct (configureTerm _ _) as [w1|] eqn:E; cbn [mbind option_bind] in H;
    [|discriminate].
  injection H as _ <-. apply configureTerm_kept in E.
  eapply kept_trans; [|eapply kept_trans; [exact E|]]; [kept_frame|].
  eapply kept_trans; [apply kept_printLog|].
  eapply kept_trans; [|eapply kept_trans; [apply kept_printLog|kept_frame]].
  destruct (termCommand _); [apply kept_printLog | apply kept_refl].
Qed.

Lemma termAction_kept hdr env t action w b w' :
  termAction hdr env t action w = Some (b, w') -> kept w w'.
Proof.
  unfold termAction, termClone, call, gtk_main_quit, setTermFont, with_notebook.
  intros H.
  repeat match type of H with
    | (if ?c =? 0 then _ else _) = Some _ => destruct (c =? 0)
    end.
  all: try (injection H as <- <-; kept_frame).
  - destruct (parseSettings _ _ _) as [w1|] eqn:E1; cbn [mbind option_bind] in H;
      [|discriminate].
    destruct (configureTerm _ _) as [w2|] eqn:E2; cbn [mbind option_bind] in H;
      [|discriminate].
    injection H as <- <-.
    apply parseSettings_kept in E1. apply configureTerm_kept in E2.
    eapply kept_trans; [apply (kept_printLog LogReloading)|].
    eapply kept_trans; [|eapply kept_trans; [exact E1 | exact E2]].
    destruct (defaultConfigFile _); [kept_frame | apply kept_refl].
  - destruct (configureTerm _ _) as [w2|] eqn:E2; cbn [mbind option_bind] in H;
      [|discriminate].
    injection H as <- <-. apply configureTerm_kept in E2.
    eapply kept_trans; [apply (kept_printLog LogLoadingDefault)|].
    eapply kept_trans; [|exact E2]. unfold kept.
    cbn [debugMessages termCommand keyBindings termPalette defaultKeyBindings
         stderr keyCount colorCount set_colorCount].
    do 4 (split; [reflexivity|]). split; [apply Forall2_same_refl|].
    split; [reflexivity|]. split; [tauto | lia].
  - destruct (getTerm w) as [[t1 w1]|] eqn:E; cbn [mbind option_bind] in H;
      [|discriminate].
    injection H as <- <-. apply getTerm_kept in E.
    eapply kept_trans; [exact E | kept_frame].
  - destruct (_ =? 1); injection H as <- <-; kept_frame.
Qed.

Lemma termOnChildExit_kept t status w : kept w (snd (termOnChildExit t status w)).
Proof.
  unfold termOnChildExit, gtk_main_quit, with_notebook.
  destruct (closeTab w); cbn [negb]; [kept_frame|].
  destruct (_ =? 1); cbn [negb snd]; kept_frame.
Qed.

Lemma termOnKeyPress_kept hdr env t event w b w' :
  termOnKeyPress hdr env t event w = Some (b, w') -> kept w w'.
Proof.
  unfold termOnKeyPress. fold (keyed event w).
  assert (Hk : kept w (keyed event w)) by kept_frame.
  set (w1 := keyed event w) in *. clearbody w1.
  assert (Hfire : forall bd w2, fire hdr env t bd w1 = Some w2 -> kept w1 w2).
  { intros bd w2. unfold fire. destruct (internal bd).
    - destruct (termAction _ _ _ _ _) as [[b1 w3]|] eqn:E; [|discriminate].
      intros [= <-]. eapply termAction_kept; eassumption.
    - intros [= <-]. kept_frame. }
  intros H. apply (kept_trans _ _ _ Hk).
  repeat match type of H with
    | (if ?c then _ else _) = Some _ => destruct c eqn:?
    | (match ?x with _ => _ end) = Some _ => destruct x eqn:?
    | (?o ≫= _) = Some _ =>
        let E := fresh "E" in destruct o eqn:E; cbn [mbind option_bind] in H
    end; try discriminate; injection H as <- <-;
    eauto using kept_refl; kept_frame.
Qed.

Lemma session_kept hdr w0 w : session hdr w0 w -> kept w0 w.
Proof.
  induction 1 as [|w w' _ IH Hstep]; [apply kept_refl|].
  apply (kept_trans _ _ _ IH). destruct Hstep as [env t event b w' H|t status].
  - eapply termOnKeyPress_kept, H.
  - apply termOnChildExit_kept.
Qed.

Lemma main_kept hdr env config debug w0 :
  main hdr env config debug = Some w0 -> kept (startup hdr config debug) w0.
Proof.
  unfold main, startTerm. intros H.
  destruct (parseSettings _ _ _) as [w1|] eqn:E1; cbn [mbind option_bind] in H;
    [|discriminate].
  destruct (getTerm w1) as [[t w2]|] eqn:E2; cbn [mbind option_bind] in H;
    [|discriminate].
  injection H as <-. apply parseSettings_kept in E1. apply getTerm_kept in E2.
  eapply kept_trans; [exact E1|]. eapply kept_trans; [exact E2 | kept_frame].
Qed.



(** X14: no event and no reload restores a built-in binding: from any
    state of a session to any later one, the table keeps its keys and
    actions, and an entry that is invalidated stays so. *)
Theorem default_bindings_stay (hdr : Header) (w w' : World) :
  session hdr w w' ->
  Forall2 (fun d d' => bind d' = bind d /\ (invalid d = true -> invalid d' = true))
    (defaultKeyBindings w) (defaultKeyBindings w').
Proof. intros Hs. apply session_kept in Hs. apply Hs. Qed.

(** The theorem on the session after the key t. *)
Lemma default_bindings_stay_witness :
  Forall2 (fun d d' => bind d' = bind d /\ (invalid d = true -> invalid d' = true))
    (defaultKeyBindings first_tab) (defaultKeyBindings second_tab).
Proof.
  apply (default_bindings_stay kermit_h first_tab second_tab).
  eapply session_event; [apply session_start|].
  apply (key_press kermit_h first_tab no_config term0 (ctrl_alt "t") true second_tab).
  vm_compute. reflexivity.
Defined.

(** X15: without the debug option nothing is ever written to the log,
    whatever the events and the files. *)
Theorem quiet_without_debug (hdr : Header) (env : Env) (config : option string)
    (w0 w : World) :
  main hdr env config false = Some w0 ->
  session hdr w0 w ->
  stderr w = [] /\ debugMessages w = false.
Proof.
  intros Hmain Hs. apply main_kept in Hmain. apply session_kept in Hs.
  destruct (kept_trans _ _ _ Hmain Hs) as (Hd & _ & _ & _ & _ & Hq & _).
  split; [now apply Hq | exact Hd].
Qed.

(** The theorem on the session after the key t. *)
Lemma quiet_without_debug_witness :
  stderr second_tab = [] /\ debugMessages second_tab = false.
Proof.
  apply (quiet_without_debug kermit_h no_config None first_tab second_tab).
  - vm_compute. reflexivity.
  - eapply session_event; [apply session_start|].
    apply (key_press kermit_h first_tab no_config term0 (ctrl_alt "t") true second_tab).
    vm_compute. reflexivity.
Defined.

(** *** What a pass leaves alone *)

Lemma pass_frame_refl w : pass_frame w w.
Proof. unfold pass_frame. tauto. Qed.

Lemma pass_frame_trans w1 w2 w3 :
  pass_frame w1 w2 -> pass_frame w2 w3 -> pass_frame w1 w3.
Proof. unfold pass_frame. intuition congruence. Qed.

Lemma parseLine_frame buf p p' :
  parseLine buf p = Some p' -> pass_frame (world p) (world p').
Proof.
  unfold parseLine, parseColor, with_settings, printLog, pass_frame.
  intros H. parse_cases H; cbn; try tauto.
  all: destruct (debugMessages _) eqn:Ed; cbn; rewrite ?Ed; tauto.
Qed.

Lemma parseLoop_frame hdr fuel stream p p' :
  parseLoop hdr fuel stream p = Some p' -> pass_frame (world p) (world p').
Proof.
  revert stream p. induction fuel as [|fuel IH]; intros stream p; cbn [parseLoop];
    destruct (fgets _ _) as [[buf rest]|]; try discriminate;
    try (intros [= <-]; apply pass_frame_refl).
  destruct (parseLine buf p) as [p1|] eqn:E; cbn [mbind option_bind]; [|discriminate].
  intros H. eapply pass_frame_trans; [eapply parseLine_frame, E | eapply IH, H].
Qed.

Lemma parseSettings_frame (hdr : Header) (env : Env) (w w' : World) :
  parseSettings hdr env w = Some w' -> pass_frame w w'.
Proof.
  unfold parseSettings.
  set (w1 := match configFileName w with
             | Some _ => set_defaultConfigFile false w
             | None => set_configFileName _ w
             end).
  assert (H1 : pass_frame w w1)
    by (unfold w1; destruct (configFileName w); repeat split).
  clearbody w1. destruct (configFileName w1) as [name|]; cbn [mbind option_bind];
    [|discriminate].
  destruct (fopen env name) as [configFile|].
  - destruct (parseLoop _ _ _ _) as [p|] eqn:E; cbn [mbind option_bind];
      [|discriminate].
    intros [= <-]. apply parseLoop_frame in E. cbn [world] in E.
    apply (pass_frame_trans _ _ _ H1).
    refine (pass_frame_trans _ _ _ _ E). repeat split.
  - intros [= <-]. apply (pass_frame_trans _ _ _ H1).
    unfold printLog. destruct (debugMessages w1) eqn:Ed; repeat split.
Qed.

(** X16: a reload touches nothing of the running session but the font size:
    the tabs and the current one, the latch and the terminals stay as they
    are whatever the file holds, and the font size in use goes back to the
    configured one. *)
Theorem reload_frame (hdr : Header) (env : Env) (t : Terminal) (w w' : World)
    (b : bool) :
  termAction hdr env t "reload-config" w = Some (b, w') ->
  notebook w' = notebook w
  /\ closeTab w' = closeTab w
  /\ running w' = running w
  /\ spawned w' = spawned w
  /\ calls w' = calls w
  /\ currentFontSize w' = defaultFontSize (settings w').
Proof.
  change (termAction hdr env t "reload-config" w)
    with (let w0 := printLog LogReloading w in
          let w1 := if defaultConfigFile w0 then set_configFileName None w0 else w0 in
          w2 ← parseSettings hdr env w1;
          w3 ← configureTerm t w2;
          Some (true, w3)).
  cbv zeta. intros H.
  destruct (parseSettings _ _ _) as [w2|] eqn:E2; cbn [mbind option_bind] in H;
    [|discriminate].
  destruct (configureTerm t w2) as [w3|] eqn:E3; cbn [mbind option_bind] in H;
    [|discriminate].
  injection H as <- <-.
  apply parseSettings_frame in E2.
  destruct E2 as (H1 & H2 & H3 & H4 & H5 & _).
  unfold configureTerm, setTermColors, setTermFont in E3.
  destruct (setTermColors_loop _ _ _) as [p|]; cbn [mbind option_bind] in E3;
    [|discriminate].
  injection E3 as <-.
  cbn [notebook closeTab running spawned calls currentFontSize settings
       set_termPalette set_currentFontSize].
  rewrite H1, H2, H3, H4, H5. unfold printLog.
  destruct (defaultConfigFile _); destruct (debugMessages w); repeat split.
Qed.

(** The theorem on a reload in the session with two tabs. *)
Lemma reload_frame_witness :
  let w := two_tab_world in
  exists b w',
    termAction kermit_h (with_config spec_config) term0 "reload-config" w = Some (b, w')
    /\ notebook w' = notebook w
    /\ closeTab w' = closeTab w
    /\ running w' = running w
    /\ spawned w' = spawned w
    /\ calls w' = calls w
    /\ currentFontSize w' = defaultFontSize (settings w').
Proof.
  intros w.
  destruct (termAction kermit_h (with_config spec_config) term0 "reload-config" w)
    as [[b w']|] eqn:E; [|vm_compute in E; discriminate].
  exists b, w'. split; [reflexivity|].
  exact (reload_frame kermit_h (with_config spec_config) term0 w w' b E).
Defined.

(** ** Part 12: the start, the tabs and the actions *)

Lemma printLog_set m w : exists l, printLog m w = set_stderr l w.
Proof.
  unfold printLog. destruct (debugMessages w); [eexists; reflexivity|].
  exists (stderr w). now destruct w.
Qed.

Lemma getTerm_run w t w' :
  getTerm w = Some (t, w') ->
  t = {| tid := spawned w |}
  /\ notebook w' = notebook w
  /\ spawned w' = S (spawned w)
  /\ calls w' = (calls w ++ [vte_terminal_spawn_async t])%list
  /\ currentFontSize w' = defaultFontSize (settings w)
  /\ settings w' = settings w
  /\ running w' = running w
  /\ closeTab w' = closeTab w.
Proof.
  unfold getTerm, configureTerm, setTermColors, setTermFont. intros H.
  destruct (setTermColors_loop _ _ _) as [p|]; cbn [mbind option_bind] in H;
    [|discriminate].
  injection H as <- <-. unfold call.
  repeat match goal with
    | |- context [printLog ?m ?x] => destruct (printLog_set m x) as [? ->]
    end.
  cbn. destruct (termCommand w);
    repeat match goal with
      | |- context [printLog ?m ?x] => destruct (printLog_set m x) as [? ->]
      end;
    repeat split.
Qed.

(** X17: the program starts with one tab, the first terminal, which is the
    current page; that terminal was asked to spawn its shell, and the font
    size in use is the configured one. *)
Theorem main_first_tab (hdr : Header) (env : Env) (config : option string)
    (debug : bool) (w : World) :
  main hdr env config debug = Some w ->
  pages (notebook w) = [term0]
  /\ current (notebook w) = 0
  /\ calls w = [vte_terminal_spawn_async term0]
  /\ currentFontSize w = defaultFontSize (settings w)
  /\ running w = true
  /\ closeTab w = false.
Proof.
  unfold main, startTerm. intros H.
  destruct (parseSettings _ _ _) as [w1|] eqn:E1; cbn [mbind option_bind] in H;
    [|discriminate].
  destruct (getTerm w1) as [[t w2]|] eqn:E2; cbn [mbind option_bind] in H;
    [|discriminate].
  injection H as <-.
  destruct (parseSettings_frame _ _ _ _ E1) as (Hn & Hc & Hr & Hs & Hcalls & _).
  destruct (getTerm_run _ _ _ E2) as (-> & Hn2 & _ & Hcalls2 & Hf & Hset & Hr2 & Hc2).
  unfold with_notebook, gtk_notebook_append_page, gtk_notebook_get_n_pages.
  cbn [notebook set_notebook pages current calls currentFontSize settings
       running closeTab].
  rewrite Hn2, Hn, Hcalls2, Hcalls, Hs, Hf, Hset, Hr2, Hr, Hc2, Hc.
  repeat split.
Qed.

(** The theorem on a start without a configuration file. *)
Lemma main_first_tab_witness :
  pages (notebook first_tab) = [term0]
  /\ current (notebook first_tab) = 0
  /\ calls first_tab = [vte_terminal_spawn_async term0]
  /\ currentFontSize first_tab = defaultFontSize (settings first_tab)
  /\ running first_tab = true
  /\ closeTab first_tab = false.
Proof.
  apply (main_first_tab kermit_h no_config None false first_tab).
  vm_compute. reflexivity.
Defined.

(** X18: a session always has a tab and a current page among its tabs,
    whatever the events. *)
Theorem session_keeps_a_tab (hdr : Header) (env : Env) (config : option string)
    (debug : bool) (w0 w : World) :
  main hdr env config debug = Some w0 ->
  session hdr w0 w ->
  1 <= n_pages w /\ current_valid w.
Proof.
  intros Hmain Hs.
  assert (H0 : current_valid w0).
  { unfold main, startTerm in Hmain.
    destruct (parseSettings _ _ _) as [w1|] eqn:E1; cbn [mbind option_bind] in Hmain;
      [|discriminate].
    destruct (getTerm w1) as [[t w2]|] eqn:E2; cbn [mbind option_bind] in Hmain;
      [|discriminate].
    injection Hmain as <-.
    unfold current_valid, n_pages, with_notebook, gtk_notebook_append_page,
      gtk_notebook_get_n_pages.
    cbn [notebook set_notebook pages current]. rewrite length_app. cbn [length]. lia. }
  assert (Hv : current_valid w).
  { induction Hs as [|w w' _ IH Hstep]; [exact H0|].
    destruct Hstep as [env' t event b w' H|t status].
    - eapply termOnKeyPress_keeps_a_tab; eassumption.
    - now apply termOnChildExit_keeps_a_tab. }
  split; [|exact Hv]. unfold current_valid in Hv. lia.
Qed.

(** The theorem on the session after the key t. *)
Lemma session_keeps_a_tab_witness :
  1 <= n_pages second_tab /\ current_valid second_tab.
Proof.
  apply (session_keeps_a_tab kermit_h no_config None false first_tab second_tab).
  - vm_compute. reflexivity.
  - eapply session_event; [apply session_start|].
    apply (key_press kermit_h first_tab no_config term0 (ctrl_alt "t") true second_tab).
    vm_compute. reflexivity.
Defined.

(** X19: [new-tab] adds the new terminal as the last page and makes it the
    current one; the terminal is asked to spawn its shell, and the font
    size in use, which all tabs share, goes back to the configured one. *)
Theorem new_tab_appends (hdr : Header) (env : Env) (t : Terminal) (w w' : World)
    (b : bool) :
  termAction hdr env t "new-tab" w = Some (b, w') ->
  b = true
  /\ pages (notebook w') = (pages (notebook w) ++ [{| tid := spawned w |}])%list
  /\ current (notebook w') = n_pages w
  /\ calls w' = (calls w ++ [vte_terminal_spawn_async {| tid := spawned w |}])%list
  /\ currentFontSize w' = defaultFontSize (settings w)
  /\ settings w' = settings w.
Proof.
  change (termAction hdr env t "new-tab" w)
    with ('(t1, w1) ← getTerm w;
          Some (true, with_notebook (fun nb => gtk_notebook_append_page nb t1) w1)).
  intros H.
  destruct (getTerm w) as [[t1 w1]|] eqn:E; cbn [mbind option_bind] in H;
    [|discriminate].
  injection H as <- <-.
  destruct (getTerm_run _ _ _ E) as (-> & Hn & _ & Hcalls & Hf & Hset & _).
  unfold with_notebook, gtk_notebook_append_page, n_pages.
  cbn [notebook set_notebook pages current calls currentFontSize settings].
  rewrite Hn, Hcalls, Hf, Hset. repeat split.
Qed.

(** The theorem on the first new tab of a session. *)
Lemma new_tab_appends_witness :
  let w := first_tab in
  exists b w',
    termAction kermit_h no_config term0 "new-tab" w = Some (b, w')
    /\ b = true
    /\ pages (notebook w') = (pages (notebook w) ++ [{| tid := spawned w |}])%list
    /\ current (notebook w') = n_pages w
    /\ calls w'
       = (calls w ++ [vte_terminal_spawn_async {| tid := spawned w |}])%list
    /\ currentFontSize w' = defaultFontSize (settings w)
    /\ settings w' = settings w.
Proof.
  intros w.
  destruct (termAction kermit_h no_config term0 "new-tab" w)
    as [[b w']|] eqn:E; [|vm_compute in E; discriminate].
  exists b, w'. split; [reflexivity|].
  exact (new_tab_appends kermit_h no_config term0 w w' b E).
Defined.

(** *** The names of the actions *)

Lemma strcmp_eqb s t :
  no_nul s = true -> no_nul t = true -> (strcmp s t =? 0) = String.eqb s t.
Proof.
  intros Hs Ht. destruct (String.eqb_spec s t) as [->|Hne].
  - apply Z.eqb_eq. now apply strcmp_eq.
  - apply Z.eqb_neq. intros H. now apply (strcmp_eq s t Hs Ht) in H.
Qed.

(** X20: [termAction] answers TRUE to the thirteen names of its chain, and
    to any other name it answers FALSE and changes nothing. *)
Theorem action_names (hdr : Header) (env : Env) (t : Terminal) (action : string)
    (w : World) :
  no_nul action = true ->
  (In action actions ->
   forall b w', termAction hdr env t action w = Some (b, w') -> b = true)
  /\ (~ In action actions -> termAction hdr env t action w = Some (false, w)).
Proof.
  intros Hnul. unfold termAction.
  repeat match goal with
    | |- context [strcmp action ?l =? 0] =>
        rewrite (strcmp_eqb action l Hnul eq_refl)
    end.
  split.
  - intros Hin b w' H.
    repeat match type of H with
      | (if String.eqb action ?l then _ else _) = Some _ =>
          destruct (String.eqb_spec action l)
      end.
    all: repeat match type of H with
      | (?o ≫= _) = Some _ =>
          destruct o as [[]|]; cbn [mbind option_bind] in H; [|discriminate]
      | (?o ≫= _) = Some _ =>
          destruct o as [?|]; cbn [mbind option_bind] in H; [|discriminate]
      | (if ?c then _ else _) = Some _ => destruct c
      end.
    all: try (injection H as <- _; reflexivity).
    exfalso. unfold actions in Hin. cbn [In] in Hin. intuition congruence.
  - intros Hnot.
    repeat match goal with
      | |- (if String.eqb action ?l then _ else _) = Some _ =>
          destruct (String.eqb_spec action l) as [->|_];
          [exfalso; apply Hnot; unfold actions; cbn [In]; tauto|]
      end.
    reflexivity.
Qed.

(** The theorem on a name that is none of the thirteen. *)
Lemma action_names_witness :
  (In "zoom" actions ->
   forall b w', termAction kermit_h no_config term0 "zoom" first_tab = Some (b, w') ->
                b = true)
  /\ (~ In "zoom" actions ->
      termAction kermit_h no_config term0 "zoom" first_tab = Some (false, first_tab)).
Proof.
  exact (action_names kermit_h no_config term0 "zoom" first_tab eq_refl).
Defined.

(** *** The modifiers of a key press *)

(** X21: the modifier bits other than control, shift and alt (the locks,
    the other Mod bits) have no part in a key press: with any of them set
    the handler does what it does without them. *)
Theorem lock_modifiers_ignored (hdr : Header) (env : Env) (t : Terminal)
    (event : GdkEventKey) (other : Z) (w : World) :
  Z.land other (Z.lor (Z.lor GDK_CONTROL_MASK GDK_SHIFT_MASK) GDK_MOD1_MASK) = 0 ->
  termOnKeyPress hdr env t
    {| state := Z.lor (state event) other; keyval_name := keyval_name event |} w
  = termOnKeyPress hdr env t event w.
Proof.
  intros H. unfold termOnKeyPress. cbn [state keyval_name].
  now rewrite Z.land_lor_distr_l, H, Z.lor_0_r.
Qed.

(** The theorem on the key t with Mod2, the number lock, set. *)
Lemma lock_modifiers_ignored_witness :
  termOnKeyPress kermit_h no_config term0
    {| state := Z.lor (state (ctrl_alt "t")) 16;
       keyval_name := keyval_name (ctrl_alt "t") |} first_tab
  = termOnKeyPress kermit_h no_config term0 (ctrl_alt "t") first_tab.
Proof.
  exact (lock_modifiers_ignored kermit_h no_config term0 (ctrl_alt "t") 16 first_tab
           eq_refl).
Defined.

(** *** The file that is read *)

Lemma names_file_same config w w' :
  configFileName w' = configFileName w ->
  defaultConfigFile w' = defaultConfigFile w ->
  names_file config w -> names_file config w'.
Proof. unfold names_file. intros -> ->. trivial. Qed.

Lemma parseLine_names buf p p' :
  parseLine buf p = Some p' ->
  configFileName (world p') = configFileName (world p)
  /\ defaultConfigFile (world p') = defaultConfigFile (world p).
Proof.
  unfold parseLine, parseColor, with_settings, printLog.
  intros H. parse_cases H; cbn; try tauto.
  all: destruct (debugMessages _); cbn; tauto.
Qed.

Lemma parseLoop_names hdr fuel stream p p' :
  parseLoop hdr fuel stream p = Some p' ->
  configFileName (world p') = configFileName (world p)
  /\ defaultConfigFile (world p') = defaultConfigFile (world p).
Proof.
  revert stream p. induction fuel as [|fuel IH]; intros stream p; cbn [parseLoop];
    destruct (fgets _ _) as [[buf rest]|]; try discriminate;
    try (intros [= <-]; tauto).
  destruct (parseLine buf p) as [p1|] eqn:E; cbn [mbind option_bind]; [|discriminate].
  intros H. apply parseLine_names in E. apply IH in H.
  destruct E as [E1 E2], H as [H1 H2]. split; congruence.
Qed.

(** After a pass the two globals name the file that the pass was to
    read. *)
Lemma parseSettings_names hdr env w w' :
  parseSettings hdr env w = Some w' ->
  match configFileName w with
  | None => defaultConfigFile w' = defaultConfigFile w
  | Some name => configFileName w' = Some name /\ defaultConfigFile w' = false
  end.
Proof.
  unfold parseSettings, printLog.
  destruct (configFileName w) as [name|] eqn:En;
    cbn [configFileName set_defaultConfigFile set_configFileName];
    rewrite ?En; cbn [mbind option_bind];
    (destruct (fopen env _) as [configFile|];
     [ destruct (parseLoop _ _ _ _) as [p|] eqn:E; cbn [mbind option_bind];
       [|discriminate]; intros [= <-];
       apply parseLoop_names in E; cbn in E; destruct E as [E1 E2];
       rewrite ?E1, ?E2; tauto
     | intros [= <-]; cbn [debugMessages];
       destruct (debugMessages w); cbn; tauto ]).
Qed.

Lemma configureTerm_names t w w' :
  configureTerm t w = Some w' ->
  configFileName w' = configFileName w
  /\ defaultConfigFile w' = defaultConfigFile w.
Proof.
  unfold configureTerm, setTermColors, setTermFont.
  destruct (setTermColors_loop _ _ _) as [p|]; cbn [mbind option_bind];
    [|discriminate].
  intros [= <-]. split; reflexivity.
Qed.

Lemma getTerm_names w t w' :
  getTerm w = Some (t, w') ->
  configFileName w' = configFileName w
  /\ defaultConfigFile w' = defaultConfigFile w.
Proof.
  unfold getTerm. intros H.
  destruct (configureTerm _ _) as [w1|] eqn:E; cbn [mbind option_bind] in H;
    [|discriminate].
  injection H as _ <-. apply configureTerm_names in E. destruct E as [E1 E2].
  unfold call.
  repeat match goal with
    | |- context [printLog ?m ?x] => destruct (printLog_set m x) as [? ->]
    end.
  cbn. destruct (termCommand w1);
    repeat match goal with
      | |- context [printLog ?m ?x] => destruct (printLog_set m x) as [? ->]
      end;
    cbn; rewrite E1, E2; split; reflexivity.
Qed.

Lemma termAction_names hdr env t action config w b w' :
  names_file config w ->
  termAction hdr env t action w = Some (b, w') ->
  names_file config w'.
Proof.
  intros Hn. unfold termAction, termClone, call, gtk_main_quit, setTermFont,
    with_notebook.
  intros H.
  repeat match type of H with
    | (if ?c =? 0 then _ else _) = Some _ => destruct (c =? 0)
    end.
  all: try (injection H as <- <-; exact Hn).
  - destruct (parseSettings _ _ _) as [w1|] eqn:E1; cbn [mbind option_bind] in H;
      [|discriminate].
    destruct (configureTerm _ _) as [w2|] eqn:E2; cbn [mbind option_bind] in H;
      [|discriminate].
    injection H as <- <-.
    apply parseSettings_names in E1. apply configureTerm_names in E2.
    destruct E2 as [E2 E3]. unfold names_file in *. rewrite E2, E3.
    destruct (printLog_set LogReloading w) as [l El]. rewrite El in E1.
    cbn [defaultConfigFile set_stderr] in E1.
    destruct config as [name|].
    + destruct Hn as [Hn1 Hn2]. rewrite Hn2 in E1.
      cbn [configFileName set_stderr] in E1. rewrite Hn1 in E1. exact E1.
    + rewrite Hn in E1. cbn in E1. rewrite E1. exact Hn.
  - destruct (configureTerm _ _) as [w2|] eqn:E2; cbn [mbind option_bind] in H;
      [|discriminate].
    injection H as <- <-. apply configureTerm_names in E2. destruct E2 as [E2 E3].
    revert E2 E3. destruct (printLog_set LogLoadingDefault w) as [l ->]. cbn.
    intros E2 E3. now apply (names_file_same config w).
  - destruct (getTerm w) as [[t1 w1]|] eqn:E; cbn [mbind option_bind] in H;
      [|discriminate].
    injection H as <- <-. apply getTerm_names in E. destruct E as [E1 E2].
    now apply (names_file_same config w).
  - destruct (_ =? 1); injection H as <- <-; exact Hn.
Qed.

Lemma termOnKeyPress_names hdr env t event config w b w' :
  names_file config w ->
  termOnKeyPress hdr env t event w = Some (b, w') ->
  names_file config w'.
Proof.
  intros Hn. unfold termOnKeyPress. fold (keyed event w).
  assert (Hk : names_file config (keyed event w)) by exact Hn.
  set (w1 := keyed event w) in *. clearbody w1.
  assert (Hfire : forall bd w2, fire hdr env t bd w1 = Some w2 -> names_file config w2).
  { intros bd w2. unfold fire. destruct (internal bd).
    - destruct (termAction _ _ _ _ _) as [[b1 w3]|] eqn:E; [|discriminate].
      intros [= <-]. eapply termAction_names; eassumption.
    - intros [= <-]. exact Hk. }
  intros H.
  repeat match type of H with
    | (if ?c then _ else _) = Some _ => destruct c eqn:?
    | (match ?x with _ => _ end) = Some _ => destruct x eqn:?
    | (?o ≫= _) = Some _ =>
        let E := fresh "E" in destruct o eqn:E; cbn [mbind option_bind] in H
    end; try discriminate; injection H as <- <-; eauto.
Qed.

Lemma session_names hdr env config debug w0 w :
  main hdr env config debug = Some w0 -> session hdr w0 w -> names_file config w.
Proof.
  intros Hmain Hs.
  assert (H0 : names_file config w0).
  { unfold main, startTerm in Hmain.
    destruct (parseSettings _ _ _) as [w1|] eqn:E1; cbn [mbind option_bind] in Hmain;
      [|discriminate].
    destruct (getTerm w1) as [[t w2]|] eqn:E2; cbn [mbind option_bind] in Hmain;
      [|discriminate].
    injection Hmain as <-. apply parseSettings_names in E1.
    apply getTerm_names in E2. destruct E2 as [E2 E3].
    cbn [startup configFileName defaultConfigFile] in E1.
    apply (names_file_same config w1); [exact E2 | exact E3 |].
    unfold names_file. now destruct config. }
  induction Hs as [|w w' _ IH Hstep]; [exact H0|].
  destruct Hstep as [env' t event b w' H|t status].
  - eapply termOnKeyPress_names; eassumption.
  - unfold termOnChildExit, gtk_main_quit, with_notebook.
    destruct (closeTab w); cbn [negb]; [exact IH|].
    destruct (_ =? 1); exact IH.
Qed.

Lemma parseSettings_env hdr env1 env2 config debug w :
  HOME env1 = HOME env2 ->
  fopen env1 (config_path hdr env1 (startup hdr config debug))
  = fopen env2 (config_path hdr env1 (startup hdr config debug)) ->
  configFileName w = config ->
  parseSettings hdr env1 w = parseSettings hdr env2 w.
Proof.
  unfold parseSettings, config_path. cbn [startup configFileName].
  intros Hhome Hfile Hc. rewrite <- Hhome, Hc.
  destruct config as [name|];
    cbn [configFileName set_defaultConfigFile set_configFileName];
    rewrite ?Hc; cbn [mbind option_bind]; now rewrite Hfile.
Qed.

(** X22: at any point of a session a key press, a reload among them, reads
    no file but the one named when the program started: the argument of
    -c, or else the file of the home directory.  With that file and the
    home directory the same, the handler does the same. *)
Theorem key_press_reads_startup_file (hdr : Header) (env0 env1 env2 : Env)
    (config : option string) (debug : bool) (t : Terminal) (event : GdkEventKey)
    (w0 w : World) :
  main hdr env0 config debug = Some w0 ->
  session hdr w0 w ->
  HOME env1 = HOME env2 ->
  fopen env1 (config_path hdr env1 (startup hdr config debug))
  = fopen env2 (config_path hdr env1 (startup hdr config debug)) ->
  termOnKeyPress hdr env1 t event w = termOnKeyPress hdr env2 t event w.
Proof.
  intros Hmain Hs Hhome Hfile.
  pose proof (session_names _ _ _ _ _ _ Hmain Hs) as Hn.
  unfold termOnKeyPress. fold (keyed event w).
  assert (Hk : names_file config (keyed event w)) by exact Hn.
  set (w1 := keyed event w) in *. clearbody w1.
  assert (Haction : forall a, termAction hdr env1 t a w1 = termAction hdr env2 t a w1).
  { intros a. unfold termAction.
    repeat match goal with
      | |- (if ?c then _ else _) = _ => destruct c; [reflexivity|]
      | |- (if ?c then _ else _) = _ => destruct c; [|reflexivity]
      end; try reflexivity.
    destruct (printLog_set LogReloading w1) as [l ->].
    cbn [defaultConfigFile set_stderr].
    assert (Hp : parseSettings hdr env1
                   (if defaultConfigFile w1
                    then set_configFileName None (set_stderr l w1)
                    else set_stderr l w1)
                 = parseSettings hdr env2
                     (if defaultConfigFile w1
                      then set_configFileName None (set_stderr l w1)
                      else set_stderr l w1)).
    { apply (parseSettings_env hdr env1 env2 config debug _ Hhome Hfile).
      unfold names_file in Hk. destruct config as [name|].
      - destruct Hk as [Hk1 Hk2]. now rewrite Hk2.
      - now rewrite Hk. }
    now rewrite Hp. }
  assert (Hfire : forall bd, fire hdr env1 t bd w1 = fire hdr env2 t bd w1)
    by (intros bd; unfold fire; now rewrite Haction).
  destruct (_ =? _); [|reflexivity].
  destruct (negb _); [reflexivity|].
  destruct (find _ _) as [d|]; [now rewrite Hfire|].
  destruct (find _ _) as [bd|]; [now rewrite Hfire | reflexivity].
Qed.

(** The theorem on the key r, which reloads, with two sets of files that
    agree on the configuration file of the home directory. *)
Lemma key_press_reads_startup_file_witness :
  termOnKeyPress kermit_h (with_config spec_config) term0 (ctrl_alt "r") second_tab
  = termOnKeyPress kermit_h other_files term0 (ctrl_alt "r") second_tab.
Proof.
  apply (key_press_reads_startup_file kermit_h no_config (with_config spec_config)
           other_files None false term0 (ctrl_alt "r") first_tab second_tab).
  - vm_compute. reflexivity.
  - eapply session_event; [apply session_start|].
    apply (key_press kermit_h first_tab no_config term0 (ctrl_alt "t") true second_tab).
    vm_compute. reflexivity.
  - reflexivity.
  - reflexivity.
Defined.

(** ** Part 13: more of the palette and of the loop *)

Lemma paletteColor_twice i old :
  paletteColor i (paletteColor i old) = paletteColor i old.
Proof.
  unfold paletteColor.
  destruct (i <? 16); [reflexivity|]. destruct (i <? 232); [reflexivity|].
  destruct (i <? 256); reflexivity.
Qed.

(** The loop from index [i] on leaves the entries below [i]. *)
Lemma setTermColors_loop_below n i p p' :
  setTermColors_loop n i p = Some p' ->
  forall k, Z.of_nat k < i -> p' !! k = p !! k.
Proof.
  revert i p. induction n as [|n IH]; intros i p; cbn [setTermColors_loop].
  - now intros [= <-].
  - destruct (Z.leb_spec 0 i) as [Hi|?]; [|discriminate].
    destruct (p !! Z.to_nat i) as [old|]; cbn [mbind option_bind]; [|discriminate].
    intros H k Hk. rewrite (IH _ _ H k) by lia.
    apply list_lookup_insert_ne. lia.
Qed.

Lemma setTermColors_loop_idem n i p p' :
  setTermColors_loop n i p = Some p' -> setTermColors_loop n i p' = Some p'.
Proof.
  revert i p. induction n as [|n IH]; intros i p; cbn [setTermColors_loop];
    [reflexivity|].
  destruct (Z.leb_spec 0 i) as [Hi|?]; [|discriminate].
  destruct (p !! Z.to_nat i) as [old|] eqn:Eo; cbn [mbind option_bind];
    [|discriminate].
  intros H.
  assert (Hk : p' !! Z.to_nat i = Some (paletteColor i old)).
  { rewrite (setTermColors_loop_below _ _ _ _ H (Z.to_nat i)) by lia.
    apply list_lookup_insert_eq. now apply lookup_lt_Some in Eo. }
  rewrite Hk. cbn [mbind option_bind]. rewrite paletteColor_twice.
  rewrite (list_insert_id _ _ _ Hk). exact (IH _ _ H).
Qed.

(** X23: [setTermColors] on its own result changes nothing: configuring
    one more terminal, as every new tab does, leaves the palette as the
    first call made it. *)
Theorem setTermColors_idempotent (t t' : Terminal) (w w' : World) :
  setTermColors t w = Some w' -> setTermColors t' w' = Some w'.
Proof.
  unfold setTermColors.
  destruct (setTermColors_loop _ _ _) as [p|] eqn:E; cbn [mbind option_bind];
    [|discriminate].
  intros [= <-]. cbn [colorCount termPalette set_termPalette].
  now rewrite (setTermColors_loop_idem _ _ _ _ E).
Qed.

(** The theorem on the palette at the start. *)
Lemma setTermColors_idempotent_witness :
  exists w',
    setTermColors term0 (startup kermit_h None false) = Some w'
    /\ setTermColors term1 w' = Some w'.
Proof.
  destruct (setTermColors term0 (startup kermit_h None false)) as [w'|] eqn:E;
    [|vm_compute in E; discriminate].
  exists w'. split; [reflexivity|].
  exact (setTermColors_idempotent term0 term1 (startup kermit_h None false) w' E).
Defined.

Lemma generated_palette (p : list GdkRGBA) :
  length p = 256%nat ->
  (forall i, 0 <= i < 256 -> p !! Z.to_nat i = Some (documented_color i)) ->
  p = map (fun k => documented_color (Z.of_nat k)) (seq 0 256).
Proof.
  intros Hl Hgen. apply list_eq_same_length with 256%nat;
    [now rewrite length_map, length_seq | exact Hl |].
  intros k x y Hk Hx Hy.
  specialize (Hgen (Z.of_nat k) ltac:(lia)). rewrite Nat2Z.id, Hx in Hgen.
  change (map ?f ?l) with (f <$> l) in Hy.
  rewrite list_lookup_fmap, lookup_seq_lt in Hy by lia.
  cbn in Hy. congruence.
Qed.

(** X24: [default-config] brings back the generated palette, all 256
    entries, and the configured font size, and nothing more: the settings
    that the file gave, the user bindings and the invalidated flags stay
    as they are. *)
Theorem default_config_action (hdr : Header) (env : Env) (t : Terminal) (w : World) :
  length (termPalette w) = 256%nat ->
  exists w',
    termAction hdr env t "default-config" w = Some (true, w')
    /\ colorCount w' = 0
    /\ termPalette w' = map (fun k => documented_color (Z.of_nat k)) (seq 0 256)
    /\ currentFontSize w' = defaultFontSize (settings w)
    /\ settings w' = settings w
    /\ user_bindings w' = user_bindings w
    /\ defaultKeyBindings w' = defaultKeyBindings w.
Proof.
  intros Hlen.
  change (termAction hdr env t "default-config" w)
    with (w1 ← configureTerm t (set_colorCount 0 (printLog LogLoadingDefault w));
          Some (true, w1)).
  destruct (printLog_set LogLoadingDefault w) as [l ->].
  set (w0 := set_colorCount 0 (set_stderr l w)).
  destruct (setTermColors_spec t w0) as (w1 & Hrun & Hw1 & Hl & _ & Hgen);
    [cbn; lia | exact Hlen |].
  unfold configureTerm. rewrite Hrun. cbn [mbind option_bind].
  eexists. split; [reflexivity|]. unfold setTermFont.
  rewrite Hw1. cbn. split; [reflexivity|]. split.
  - apply generated_palette; [exact Hl | exact Hgen].
  - repeat split.
Qed.

(** The theorem on the session with two tabs. *)
Lemma default_config_action_witness :
  let w := two_tab_world in
  exists w',
    termAction kermit_h no_config term0 "default-config" w = Some (true, w')
    /\ colorCount w' = 0
    /\ termPalette w' = map (fun k => documented_color (Z.of_nat k)) (seq 0 256)
    /\ currentFontSize w' = defaultFontSize (settings w)
    /\ settings w' = settings w
    /\ user_bindings w' = user_bindings w
    /\ defaultKeyBindings w' = defaultKeyBindings w.
Proof.
  apply (default_config_action kermit_h no_config term0 two_tab_world).
  vm_compute. reflexivity.
Defined.

(** X25: with no configuration file and a palette of 256 entries the
    program starts: it has the built-in settings, no user binding, every
    built-in binding in force, the generated palette and one tab. *)
Theorem start_without_config (hdr : Header) (env : Env) (debug : bool) :
  fopen env (config_path hdr env (startup hdr None debug)) = None ->
  TERM_PALETTE_SIZE hdr = 256 ->
  exists w,
    main hdr env None debug = Some w
    /\ settings w = defaults hdr
    /\ user_bindings w = []
    /\ defaultKeyBindings w = defaultKeyBindings0
    /\ termPalette w = map (fun k => documented_color (Z.of_nat k)) (seq 0 256)
    /\ n_pages w = 1.
Proof.
  intros Hfile Hsize. unfold main, parseSettings, config_path in *.
  cbn [startup configFileName set_configFileName mbind option_bind] in *.
  rewrite Hfile.
  match goal with
  | |- context [printLog ?m ?x] => destruct (printLog_set m x) as [l ->]
  end.
  cbn [mbind option_bind]. unfold startTerm, getTerm, configureTerm.
  match goal with
  | |- context [setTermColors ?t ?x] =>
      destruct (setTermColors_spec t x) as (w1 & Hrun & Hw1 & Hl & _ & Hgen);
      [cbn; lia | cbn; rewrite length_replicate, Hsize; reflexivity |]
  end.
  rewrite Hrun. cbn [mbind option_bind]. eexists. split; [reflexivity|].
  unfold call, setTermFont, with_notebook.
  repeat match goal with
    | |- context [printLog ?m ?x] => destruct (printLog_set m x) as [? ->]
    end.
  rewrite Hw1. cbn.
  repeat match goal with
    | |- context [printLog ?m ?x] => destruct (printLog_set m x) as [? ->]
    end.
  cbn. split; [reflexivity|]. split; [reflexivity|]. split; [reflexivity|].
  split; [|reflexivity].
  apply generated_palette; [exact Hl | exact Hgen].
Qed.

(** The theorem on the sample header and a home directory without a
    configuration file. *)
Lemma start_without_config_witness :
  exists w,
    main kermit_h no_config None false = Some w
    /\ settings w = defaults kermit_h
    /\ user_bindings w = []
    /\ defaultKeyBindings w = defaultKeyBindings0
    /\ termPalette w = map (fun k => documented_color (Z.of_nat k)) (seq 0 256)
    /\ n_pages w = 1.
Proof.
  exact (start_without_config kermit_h no_config false eq_refl eq_refl).
Defined.

(** *** Lines that do not fit the buffer *)

Lemma read_line_full l rest :
  free_of LF l = true -> read_line (String.length l) (l +:+ rest) = (l, rest).
Proof.
  induction l as [|c l IH]; intros Hl.
  - rewrite append_nil_l. reflexivity.
  - change (free_of LF (String c l))
      with (negb (Ascii.eqb c LF) && negb (is_nul c) && free_of LF l) in Hl.
    apply andb_true_iff in Hl as [[Hc _]%andb_true_iff Hl].
    apply negb_true_iff in Hc.
    rewrite append_cons. cbn [String.length read_line]. now rewrite Hc, (IH Hl).
Qed.

(** X26: of a line that does not fit the buffer the loop parses the
    characters that fit as a line, and then what is left of it as if a new
    line began there. *)
Theorem long_line_is_cut (hdr : Header) (fuel : nat) (l rest : string) (p : Parser) :
  free_of LF l = true ->
  1 <= strlen l ->
  strlen l = TERM_CONFIG_LENGTH hdr - 1 ->
  parseLoop hdr (S fuel) (l +:+ rest) p
  = (p' ← parseLine l p; parseLoop hdr fuel rest p').
Proof.
  intros Hl H1 Hn. cbn [parseLoop]. unfold fgets.
  replace (Z.to_nat (TERM_CONFIG_LENGTH hdr - 1)) with (String.length l)
    by (unfold strlen in Hn; lia).
  rewrite (read_line_full l rest Hl), (cstr_id _ (free_of_no_nul _ _ Hl)).
  destruct l as [|c l]; [unfold strlen in H1; simpl in H1; lia|].
  rewrite append_cons. reflexivity.
Qed.

(** The theorem on a line of 63 characters and more, the buffer being of
    64. *)
Lemma long_line_is_cut_witness :
  parseLoop kermit_h 3 (long_line +:+ "99" +:+ LFs +:+ "tab top" +:+ LFs) start_parser
  = (p' ← parseLine long_line start_parser;
     parseLoop kermit_h 2 ("99" +:+ LFs +:+ "tab top" +:+ LFs) p').
Proof.
  apply (long_line_is_cut kermit_h 2 long_line).
  - reflexivity.
  - vm_compute. discriminate.
  - reflexivity.
Defined.
